(** * AutoGrader: the scoring engine

    A shallow embedding of the scoring core of the AutoGrader repository:

    - [src/agents/scoring_agent.py]   ([ScoringAgent]),
    - [src/agents/orchestrator_agent.py] ([_calculate_criticism_multiplier]),
    - [src/models/core.py], [src/models/io.py], [src/models/agent_result.py]
      (the pydantic models and their validators),
    - [src/agents/base_agent.py] ([get_config_value], [handle_error],
      [_timed_execute]),
    - [src/agents/cost_tracker_agent.py] ([CostTrackerAgent]),
    - [src/skills/data_validation_skill.py] (the validators that need no
      file system),
    - [src/config/config_loader.py] ([validate_evaluators]).

    Python's [float] is kept abstract behind the class [PyFloat]; the engine
    is written once against it and read in two ways: with exact rational
    arithmetic ([ExactQ], used for the general theorems) and with IEEE-754
    binary64 arithmetic ([Binary64], the kernel's primitive floats, used to
    run the engine on concrete inputs bit for bit). *)

From Stdlib Require Import ZArith QArith Qround Qabs Qminmax Lqa Lia Bool List.
From Stdlib Require Import Permutation.
From Stdlib Require Import Ascii String DecimalString.
From Stdlib Require Import Floats Uint63.
Import ListNotations.

Set Implicit Arguments.
#[local] Set Warnings "-inexact-float".
Local Open Scope string_scope.
Local Open Scope Z_scope.
Local Open Scope Q_scope.

(** ** Python floats *)

(** The operations the engine performs on floats.  [fltb a b] is [a < b] and
    [fleb a b] is [a <= b]; [fromQ] reads a decimal literal (or converts an
    [int]); [toQ] is the exact value of a finite float. *)
Class PyFloat (F : Type) : Type := {
  fadd : F -> F -> F;
  fsub : F -> F -> F;
  fmul : F -> F -> F;
  fdiv : F -> F -> F;
  fabs : F -> F;
  fltb : F -> F -> bool;
  fleb : F -> F -> bool;
  fromQ : Q -> F;
  toQ : F -> Q
}.

Declare Scope pyfloat_scope.
Delimit Scope pyfloat_scope with py.
Infix "+~" := fadd (at level 50, left associativity) : pyfloat_scope.
Infix "-~" := fsub (at level 50, left associativity) : pyfloat_scope.
Infix "*~" := fmul (at level 40, left associativity) : pyfloat_scope.
Infix "/~" := fdiv (at level 40, left associativity) : pyfloat_scope.
Infix "<~" := fltb (at level 70, no associativity) : pyfloat_scope.
Infix "<=~" := fleb (at level 70, no associativity) : pyfloat_scope.
Notation "a >~ b" := (fltb b a) (at level 70, no associativity) : pyfloat_scope.
Notation "a >=~ b" := (fleb b a) (at level 70, no associativity) : pyfloat_scope.

(** *** Exact rationals *)

Definition Qltb (a b : Q) : bool :=
  match a ?= b with Lt => true | _ => false end.

Definition Qleb (a b : Q) : bool :=
  match a ?= b with Gt => false | _ => true end.

#[export] Instance ExactQ : PyFloat Q := {
  fadd := Qplus;
  fsub := Qminus;
  fmul := Qmult;
  fdiv := Qdiv;
  fabs := Qabs;
  fltb := Qltb;
  fleb := Qleb;
  fromQ := fun q => q;
  toQ := fun q => q
}.

(** *** IEEE-754 binary64 *)

Module B64.

(** [int] to [float]; exact below 2^53. *)
Definition of_Z (z : Z) : float :=
  match z with
  | Z0 => PrimFloat.zero
  | Zpos _ => PrimFloat.of_uint63 (Uint63.of_Z z)
  | Zneg _ => PrimFloat.opp (PrimFloat.of_uint63 (Uint63.of_Z (- z)))
  end.

(** The double nearest to [n/d]: both are converted exactly and the
    division rounds once (numerator and denominator below 2^53). *)
Definition of_Q (q : Q) : float :=
  PrimFloat.div (of_Z (Qnum q)) (of_Z (Zpos (Qden q))).

(** The exact value of a finite double (0 for infinities and NaN, which
    the engine never produces on validated input). *)
Definition to_Q (x : float) : Q :=
  match Prim2SF x with
  | S754_finite s m e =>
      let v := match e with
               | Z0 => Zpos m # 1
               | Zpos p => (Zpos m * 2 ^ Zpos p)%Z # 1
               | Zneg p => Zpos m # (2 ^ p)%positive
               end in
      if s then Qopp v else v
  | _ => 0
  end.

End B64.

#[export] Instance Binary64 : PyFloat float := {
  fadd := PrimFloat.add;
  fsub := PrimFloat.sub;
  fmul := PrimFloat.mul;
  fdiv := PrimFloat.div;
  fabs := PrimFloat.abs;
  fltb := PrimFloat.ltb;
  fleb := PrimFloat.leb;
  fromQ := B64.of_Q;
  toQ := B64.to_Q
}.

(** ** Built-ins: [max], [min], [round], [sum], ["%.nf"] *)

(** Round to the nearest integer, ties to the even one. *)
Definition round_half_even (q : Q) : Z :=
  let f := Qfloor q in
  match ((q - inject_Z f) ?= (1 # 2))%Q with
  | Lt => f
  | Gt => (f + 1)%Z
  | Eq => if Z.even f then f else (f + 1)%Z
  end.

Definition pow10 (n : nat) : positive := Pos.pow 10 (Pos.of_nat n).

Definition scale10 (n : nat) : positive :=
  match n with O => 1%positive | _ => pow10 n end.

(** [q] rounded half-even to [ndigits] decimals, as a fraction over
    10^ndigits. *)
Definition round_decimal (ndigits : nat) (q : Q) : Q :=
  round_half_even (q * (Zpos (scale10 ndigits) # 1)) # scale10 ndigits.

Fixpoint zero_pad (width : nat) (s : string) : string :=
  match width with
  | O => s
  | S w => if (String.length s <=? w)%nat then zero_pad w ("0" ++ s) else s
  end.

Definition string_of_Z (z : Z) : string :=
  NilZero.string_of_int (Z.to_int z).

(** [format(q, ".nf")] for [n >= 1]: sign, integer part, point, [n] digits of
    the half-even rounded magnitude. *)
Definition format_fixed (ndigits : nat) (q : Q) : string :=
  let n := round_half_even (Qabs q * (Zpos (scale10 ndigits) # 1)) in
  let ip := (n / Zpos (scale10 ndigits))%Z in
  let fp := (n mod Zpos (scale10 ndigits))%Z in
  (if Qltb q 0 then "-" else "") ++
  string_of_Z ip ++ "." ++ zero_pad ndigits (string_of_Z fp).

Section Builtins.

Context {F : Type} `{PyFloat F}.
Local Open Scope pyfloat_scope.

(** [max(a, b)] returns [b] only when [b > a]; [min(a, b)] only when
    [b < a]. *)
Definition py_max (a b : F) : F := if b >~ a then b else a.
Definition py_min (a b : F) : F := if b <~ a then b else a.

(** [round(x, ndigits)]: the exact value is rounded half-even to a decimal,
    which is then read back as a float. *)
Definition py_round (x : F) (ndigits : nat) : F :=
  fromQ (round_decimal ndigits (toQ x)).

(** [sum(xs)]: left to right from the integer 0. *)
Definition py_sum (xs : list F) : F := fold_left fadd xs (fromQ 0).

Definition py_format (x : F) (ndigits : nat) : string :=
  format_fixed ndigits (toQ x).

End Builtins.

(** ** Insertion-ordered dictionaries

    A Python [dict] keeps its keys in the order of their first insertion,
    and the engine iterates over one: an association list with unique
    keys. *)

Definition dict (V : Type) : Type := list (string * V).

Fixpoint dict_get {V : Type} (d : dict V) (k : string) : option V :=
  match d with
  | [] => None
  | (k', v) :: d' => if String.eqb k' k then Some v else dict_get d' k
  end.

(** [d.get(k, default)] *)
Definition dict_get_default {V : Type} (d : dict V) (k : string) (default : V) : V :=
  match dict_get d k with
  | Some v => v
  | None => default
  end.

(** [k in d] *)
Definition dict_mem {V : Type} (d : dict V) (k : string) : bool :=
  match dict_get d k with
  | Some _ => true
  | None => false
  end.

(** [d[k] = v]: overwrites in place, or appends a new key. *)
Fixpoint dict_set {V : Type} (d : dict V) (k : string) (v : V) : dict V :=
  match d with
  | [] => [(k, v)]
  | (k', v') :: d' =>
      if String.eqb k' k then (k', v) :: d' else (k', v') :: dict_set d' k v
  end.

Definition dict_keys {V : Type} (d : dict V) : list string := map fst d.

(** ** Exceptions and results *)

Inductive result (E A : Type) : Type :=
| Ok (a : A)
| Err (e : E).

Arguments Ok {E A} a.
Arguments Err {E A} e.

Definition rbind {E A B : Type} (r : result E A) (k : A -> result E B) : result E B :=
  match r with
  | Ok a => k a
  | Err e => Err e
  end.

(** [for x in xs: ys.append(f(x))], stopping at the first exception. *)
Fixpoint rmap {E A B : Type} (f : A -> result E B) (xs : list A) : result E (list B) :=
  match xs with
  | [] => Ok []
  | x :: xs' =>
      rbind (f x) (fun y => rbind (rmap f xs') (fun ys => Ok (y :: ys)))
  end.

(** The kinds of error the models of [models/core.py] and [models/io.py]
    can report: pydantic's tags for the [Field] bounds [ge], [le], [gt] and
    for a [Literal], and a [ValueError] raised by a [field_validator]. *)
Inductive ErrorKind : Type :=
| greater_than_equal
| less_than_equal
| greater_than
| literal_error
| value_error (msg : string).

Section Models.

Context {F : Type} `{PyFloat F}.
Local Open Scope pyfloat_scope.

Inductive InputValue : Type :=
| InFloat (x : F)
| InInt (z : Z)
| InStr (s : string).

(** One line of a pydantic [ValidationError]: the field it is about, what
    is wrong and the value that was given. *)
Record ErrorDetail : Type := {
  loc : string;
  kind : ErrorKind;
  input_value : InputValue
}.

Inductive Exception : Type :=
| ValidationError (model : string) (errors : list ErrorDetail)
| ValueError (msg : string).

(** [type(e).__name__] *)
Definition exception_type (e : Exception) : string :=
  match e with
  | ValidationError _ _ => "ValidationError"
  | ValueError _ => "ValueError"
  end.

(** The outcome of validating one field: its value, or its error lines. *)
Definition field (A : Type) : Type := result (list ErrorDetail) A.

Definition field_errors {A : Type} (f : field A) : list ErrorDetail :=
  match f with
  | Ok _ => []
  | Err es => es
  end.

(** [Field(..., ge=lo, le=hi)] on a float *)
Definition float_ge_le (name : string) (lo hi : Q) (v : F) : field F :=
  if negb (v >=~ fromQ lo) then
    Err [{| loc := name; kind := greater_than_equal; input_value := InFloat v |}]
  else if negb (v <=~ fromQ hi) then
    Err [{| loc := name; kind := less_than_equal; input_value := InFloat v |}]
  else Ok v.

(** [Field(..., gt=lo)] on a float *)
Definition float_gt (name : string) (lo : Q) (v : F) : field F :=
  if negb (v >~ fromQ lo) then
    Err [{| loc := name; kind := greater_than; input_value := InFloat v |}]
  else Ok v.

(** [Field(..., ge=lo, le=hi)] on an int *)
Definition int_ge_le (name : string) (lo hi : Z) (v : Z) : field Z :=
  if negb (lo <=? v)%Z then
    Err [{| loc := name; kind := greater_than_equal; input_value := InInt v |}]
  else if negb (v <=? hi)%Z then
    Err [{| loc := name; kind := less_than_equal; input_value := InInt v |}]
  else Ok v.

(** *** [CriterionEvaluation] (models/core.py) *)

Inductive Severity : Type := critical | important | minor | strength.

Definition severity_key (s : Severity) : string :=
  match s with
  | critical => "critical"
  | important => "important"
  | minor => "minor"
  | strength => "strength"
  end.

(** [Literal["critical", "important", "minor", "strength"]] *)
Definition severity_literal (name : string) (v : string) : field Severity :=
  if String.eqb v "critical" then Ok critical
  else if String.eqb v "important" then Ok important
  else if String.eqb v "minor" then Ok minor
  else if String.eqb v "strength" then Ok strength
  else Err [{| loc := name; kind := literal_error; input_value := InStr v |}].

Record CriterionEvaluation : Type := {
  criterion_id : string;
  criterion_name : string;
  weight : F;
  score : F;
  evidence : list string;
  strengths : list string;
  weaknesses : list string;
  suggestions : list string;
  severity : Severity
}.

(** [validate_score]: an "after" validator, so it sees a value that has
    passed the bounds of the [Field]. *)
Definition validate_score (v : F) : field F :=
  if negb ((fromQ 0 <=~ v) && (v <=~ fromQ 100)) then
    Err [{| loc := "score";
            kind := value_error "Score must be between 0 and 100";
            input_value := InFloat v |}]
  else Ok (py_round v 2).

Definition validate_weight (v : F) : field F :=
  if negb ((fromQ 0 <=~ v) && (v <=~ fromQ 1)) then
    Err [{| loc := "weight";
            kind := value_error "Weight must be between 0 and 1";
            input_value := InFloat v |}]
  else Ok (py_round v 4).

(** The keyword arguments of [CriterionEvaluation(...)], of the declared
    types but not yet validated. *)
Record CriterionEvaluationArgs : Type := {
  arg_criterion_id : string;
  arg_criterion_name : string;
  arg_weight : F;
  arg_score : F;
  arg_evidence : list string;
  arg_strengths : list string;
  arg_weaknesses : list string;
  arg_suggestions : list string;
  arg_severity : string
}.

(** The constructor [CriterionEvaluation]: every field is validated and the
    errors of all of them are reported together, in field order. *)
Definition CriterionEvaluation_new (a : CriterionEvaluationArgs)
  : result Exception CriterionEvaluation :=
  let w := rbind (float_ge_le "weight" 0 1 (arg_weight a)) validate_weight in
  let s := rbind (float_ge_le "score" 0 100 (arg_score a)) validate_score in
  let sev := severity_literal "severity" (arg_severity a) in
  match w, s, sev with
  | Ok w', Ok s', Ok sev' =>
      Ok {| criterion_id := arg_criterion_id a;
            criterion_name := arg_criterion_name a;
            weight := w';
            score := s';
            evidence := arg_evidence a;
            strengths := arg_strengths a;
            weaknesses := arg_weaknesses a;
            suggestions := arg_suggestions a;
            severity := sev' |}
  | _, _, _ =>
      Err (ValidationError "CriterionEvaluation"
             (field_errors w ++ field_errors s ++ field_errors sev))
  end.

(** *** [CategoryBreakdown] (models/core.py) *)

Record CategoryBreakdown : Type := {
  category_name : string;
  total_weight : F;
  weighted_score : F;
  criteria : list CriterionEvaluation
}.

Definition CategoryBreakdown_new (name : string) (tw ws : F)
    (members : list CriterionEvaluation) : result Exception CategoryBreakdown :=
  let w := float_ge_le "total_weight" 0 1 tw in
  let s := float_ge_le "weighted_score" 0 100 ws in
  match w, s with
  | Ok w', Ok s' =>
      Ok {| category_name := name;
            total_weight := w';
            weighted_score := s';
            criteria := members |}
  | _, _ =>
      Err (ValidationError "CategoryBreakdown" (field_errors w ++ field_errors s))
  end.

(** *** [GradingResult] (models/core.py) *)

Record GradingResult : Type := {
  submission_id : string;
  self_grade : Z;
  final_score : F;
  criticism_multiplier : F;
  evaluations : list CriterionEvaluation;
  breakdown : dict CategoryBreakdown;
  comparison_message : string;
  timestamp : Z;
  processing_time_seconds : F
}.

Definition validate_final_score (v : F) : field F :=
  if negb ((fromQ 0 <=~ v) && (v <=~ fromQ 100)) then
    Err [{| loc := "final_score";
            kind := value_error "Final score must be between 0 and 100";
            input_value := InFloat v |}]
  else Ok (py_round v 2).

(** [GradingResult(...)]; [now] is what the [timestamp] default factory
    [datetime.now] returns. *)
Definition GradingResult_new (sid : string) (sg : Z) (fs m : F)
    (evals : list CriterionEvaluation) (bd : dict CategoryBreakdown)
    (msg : string) (now : Z) (ptime : F) : result Exception GradingResult :=
  let g := int_ge_le "self_grade" 0 100 sg in
  let s := rbind (float_ge_le "final_score" 0 100 fs) validate_final_score in
  let c := float_gt "criticism_multiplier" 0 m in
  match g, s, c with
  | Ok g', Ok s', Ok c' =>
      Ok {| submission_id := sid;
            self_grade := g';
            final_score := s';
            criticism_multiplier := c';
            evaluations := evals;
            breakdown := bd;
            comparison_message := msg;
            timestamp := now;
            processing_time_seconds := ptime |}
  | _, _, _ =>
      Err (ValidationError "GradingResult"
             (field_errors g ++ field_errors s ++ field_errors c))
  end.

(** *** [ScoringInput] (models/io.py) *)

Record ScoringInput : Type := {
  in_evaluations : list CriterionEvaluation;
  in_criticism_multiplier : F;
  in_self_grade : Z
}.

(** [ScoringInput(evaluations=..., criticism_multiplier=..., self_grade=...)]
    over evaluations that are already [CriterionEvaluation] objects. *)
Definition ScoringInput_new (evals : list CriterionEvaluation) (m : F) (sg : Z)
  : result Exception ScoringInput :=
  let c := float_gt "criticism_multiplier" 0 m in
  let g := int_ge_le "self_grade" 0 100 sg in
  match c, g with
  | Ok c', Ok g' =>
      Ok {| in_evaluations := evals;
            in_criticism_multiplier := c';
            in_self_grade := g' |}
  | _, _ =>
      Err (ValidationError "ScoringInput" (field_errors c ++ field_errors g))
  end.

(** *** [AgentResult] (models/agent_result.py) *)

Inductive MetaValue : Type :=
| MFloat (x : F)
| MInt (z : Z)
| MStr (s : string).

(** [error] holds [str(e)]; the exception itself stands for its text. *)
Record AgentResult (T : Type) : Type := {
  success : bool;
  output : option T;
  error : option Exception;
  metadata : dict MetaValue;
  execution_time : F
}.

(** The dataclass constructor followed by [__post_init__]. *)
Definition AgentResult_new {T : Type} (ok : bool) (out : option T)
    (err : option Exception) (meta : dict MetaValue) (t : F)
  : result Exception (AgentResult T) :=
  match ok, out, err with
  | false, _, None =>
      Err (ValueError "Failed AgentResult must have an error message")
  | true, None, Some _ =>
      Err (ValueError "Successful AgentResult cannot have an error message")
  | _, _, _ =>
      Ok {| success := ok; output := out; error := err;
            metadata := meta; execution_time := t |}
  end.

Definition success_result {T : Type} (out : T) (meta : dict MetaValue) (t : F)
  : result Exception (AgentResult T) :=
  AgentResult_new true (Some out) None meta t.

End Models.

Arguments InputValue F : clear implicits.
Arguments ErrorDetail F : clear implicits.
Arguments Exception F : clear implicits.
Arguments field F A : clear implicits.
Arguments CriterionEvaluation F : clear implicits.
Arguments CriterionEvaluationArgs F : clear implicits.
Arguments CategoryBreakdown F : clear implicits.
Arguments GradingResult F : clear implicits.
Arguments ScoringInput F : clear implicits.
Arguments MetaValue F : clear implicits.
Arguments AgentResult F T : clear implicits.

(** ** The outside world: clocks and the logger

    [execute] reads [time.time()] and (through the [timestamp] default
    factory) [datetime.now()], and writes to the agent's logger.  The world
    is threaded explicitly: every clock reading consumes one tick. *)

Section Effects.

Context {F : Type} `{PyFloat F}.

Inductive LogEvent : Type :=
| LogStart (num_evaluations : nat) (multiplier : F)
| LogZeroWeight
| LogEnd (ok : bool) (execution_time : F)
| LogError (e : Exception F).

Record World : Type := {
  monotonic : nat -> F;
  wall_clock : nat -> Z;
  ticks : nat;
  logged : list LogEvent
}.

Definition IO (A : Type) : Type := World -> A * World.

Definition ret {A : Type} (a : A) : IO A := fun w => (a, w).

Definition bind {A B : Type} (m : IO A) (k : A -> IO B) : IO B :=
  fun w => let (a, w') := m w in k a w'.

Definition tick (w : World) : World :=
  {| monotonic := monotonic w; wall_clock := wall_clock w;
     ticks := S (ticks w); logged := logged w |}.

(** [time.time()] *)
Definition time_time : IO F := fun w => (monotonic w (ticks w), tick w).

(** [datetime.now()] *)
Definition datetime_now : IO Z := fun w => (wall_clock w (ticks w), tick w).

(** [self.logger.log(...)] *)
Definition log (e : LogEvent) : IO unit :=
  fun w => (tt, {| monotonic := monotonic w; wall_clock := wall_clock w;
                   ticks := ticks w; logged := logged w ++ [e] |}).

End Effects.

Arguments LogEvent F : clear implicits.
Arguments World F : clear implicits.
Arguments IO F A : clear implicits.

Declare Scope io_scope.
Delimit Scope io_scope with io.
Notation "x <- m ;; k" := (bind m (fun x => k))
  (at level 61, m at next level, right associativity) : io_scope.
Notation "m ;; k" := (bind m (fun _ => k))
  (at level 61, right associativity) : io_scope.

(** ** [OrchestratorAgent._calculate_criticism_multiplier] *)

Section Orchestrator.

Context {F : Type} `{PyFloat F}.

Definition _calculate_criticism_multiplier (self_grade : Z) : F :=
  if (self_grade >=? 90)%Z then fromQ 1.5
  else if (self_grade >=? 80)%Z then fromQ 1.2
  else if (self_grade >=? 70)%Z then fromQ 1.0
  else if (self_grade >=? 60)%Z then fromQ 0.8
  else fromQ 0.6.

End Orchestrator.

(** ** [ScoringAgent] (agents/scoring_agent.py) *)

Section ScoringAgent.

Context {F : Type} `{PyFloat F}.
Local Open Scope pyfloat_scope.

(** The agent's only state: [self.severity_factors]. *)
Definition SeverityFactors : Type := dict F.

Definition default_severity_factors : SeverityFactors :=
  [ ("critical", fromQ 0.5);
    ("important", fromQ 0.8);
    ("minor", fromQ 0.95);
    ("strength", fromQ 1.0) ].

(** [__init__]: [get_config_value('severity_factors', default=...)] on the
    configuration dictionary. *)
Definition ScoringAgent_init (config : dict SeverityFactors) : SeverityFactors :=
  if dict_mem config "severity_factors"
  then dict_get_default config "severity_factors" default_severity_factors
  else default_severity_factors.

Definition _apply_criticism_multiplier (score multiplier : F) : F :=
  if score >=~ fromQ 100 then score
  else if multiplier >~ fromQ 1 then
    let penalty := (fromQ 100 -~ score) *~ (multiplier -~ fromQ 1) *~ fromQ 0.2 in
    py_max (fromQ 0) (score -~ penalty)
  else if multiplier <~ fromQ 1 then
    let bonus := (fromQ 100 -~ score) *~ (fromQ 1 -~ multiplier) *~ fromQ 0.3 in
    py_min (fromQ 100) (score +~ bonus)
  else score.

(** The body of the loop of [execute] up to the accumulation: the
    severity factor of the evaluation, then the criticism multiplier. *)
Definition adjusted_score (factors : SeverityFactors) (multiplier : F)
    (evaluation : CriterionEvaluation F) : F :=
  let severity_factor :=
    dict_get_default factors (severity_key (severity evaluation)) (fromQ 1) in
  let adjusted := score evaluation *~ severity_factor in
  _apply_criticism_multiplier adjusted multiplier.

(** The loop of [execute]: [(weighted_sum, total_weight)] after all the
    evaluations. *)
Definition accumulate (factors : SeverityFactors) (multiplier : F)
    (evals : list (CriterionEvaluation F)) : F * F :=
  fold_left
    (fun acc evaluation =>
       (fst acc +~ adjusted_score factors multiplier evaluation *~ weight evaluation,
        snd acc +~ weight evaluation))
    evals (fromQ 0, fromQ 0).

Definition category_map : dict string :=
  [ ("prd_quality", "Documentation");
    ("architecture_doc", "Documentation");
    ("readme", "Documentation");
    ("project_structure", "Code Quality");
    ("code_documentation", "Code Quality");
    ("code_principles", "Code Quality");
    ("config_management", "Configuration & Security");
    ("security_practices", "Configuration & Security");
    ("unit_tests", "Testing");
    ("error_handling", "Testing");
    ("test_results", "Testing");
    ("parameter_exploration", "Research & Analysis");
    ("analysis_notebook", "Research & Analysis");
    ("visualization", "Research & Analysis");
    ("usability", "UI/UX");
    ("interface_documentation", "UI/UX");
    ("git_practices", "Version Control");
    ("prompt_log", "Version Control") ].

Definition category_of (evaluation : CriterionEvaluation F) : string :=
  dict_get_default category_map (criterion_id evaluation) "Other".

(** The first loop of [_create_category_breakdown]. *)
Definition group_by_category (evals : list (CriterionEvaluation F))
  : dict (list (CriterionEvaluation F)) :=
  fold_left
    (fun categories evaluation =>
       let category := category_of evaluation in
       let categories :=
         if negb (dict_mem categories category)
         then dict_set categories category []
         else categories in
       dict_set categories category
         (dict_get_default categories category [] ++ [evaluation])%list)
    evals [].

(** The body of its second loop. *)
Definition category_entry (entry : string * list (CriterionEvaluation F))
  : result (Exception F) (string * CategoryBreakdown F) :=
  let (category_name, category_evals) := entry in
  let total_weight := py_sum (map (fun e => weight e) category_evals) in
  let weighted_sum := py_sum (map (fun e => score e *~ weight e) category_evals) in
  let weighted_score :=
    if total_weight >~ fromQ 0 then weighted_sum /~ total_weight else fromQ 0 in
  rbind
    (CategoryBreakdown_new category_name total_weight
       (py_round weighted_score 2) category_evals)
    (fun b => Ok (category_name, b)).

Definition _create_category_breakdown (evals : list (CriterionEvaluation F))
  : result (Exception F) (dict (CategoryBreakdown F)) :=
  rmap category_entry (group_by_category evals).

Definition _generate_comparison_message (final_score : F) (self_grade : Z)
    (criticism_multiplier : F) : string :=
  let difference := final_score -~ fromQ (inject_Z self_grade) in
  let accuracy :=
    if fabs difference <~ fromQ 2 then "very accurate"
    else if fabs difference <~ fromQ 5 then "quite accurate"
    else if fabs difference <~ fromQ 10 then "reasonably accurate"
    else "somewhat inaccurate" in
  let '(direction, interpretation) :=
    if difference >~ fromQ 5 then
      ("higher than your self-assessment by "
         ++ py_format difference 1 ++ " points",
       "You were more modest than necessary.")
    else if difference <~ fromQ (-5) then
      ("lower than your self-assessment by "
         ++ py_format (fabs difference) 1 ++ " points",
       "You may have overestimated some aspects.")
    else
      ("very close to your self-assessment",
       "Your self-evaluation was well-calibrated.") in
  let multiplier_note :=
    if criticism_multiplier >=~ fromQ 1.5 then
      " (evaluated with very strict standards due to high self-grade)"
    else if criticism_multiplier >=~ fromQ 1.2 then
      " (evaluated with strict standards)"
    else if criticism_multiplier <=~ fromQ 0.6 then
      " (evaluated with supportive standards)"
    else if criticism_multiplier <=~ fromQ 0.8 then
      " (evaluated with encouraging standards)"
    else "" in
  "Your self-assessment was " ++ accuracy ++ ". "
    ++ "The final grade is " ++ direction ++ ". "
    ++ interpretation ++ multiplier_note.

(** [BaseAgent.handle_error] *)
Definition handle_error (e : Exception F)
  : IO F (result (Exception F) (AgentResult F (GradingResult F))) :=
  (log (LogError e) ;;
   ret (AgentResult_new false None (Some e)
          [("error_type", MStr (exception_type e))] (fromQ 0)))%io.

(** The [except Exception] clause of [execute]. *)
Definition on_exception (start_time : F) (e : Exception F)
  : IO F (result (Exception F) (AgentResult F (GradingResult F))) :=
  (now <- time_time ;;
   log (LogEnd false (now -~ start_time)) ;;
   handle_error e)%io.

(** [execute]; [Err] is an exception that escapes it. *)
Definition execute (factors : SeverityFactors) (input_data : ScoringInput F)
  : IO F (result (Exception F) (AgentResult F (GradingResult F))) :=
  (log (LogStart (List.length (in_evaluations input_data))
          (in_criticism_multiplier input_data)) ;;
   start_time <- time_time ;;
   let (weighted_sum, total_weight) :=
     accumulate factors (in_criticism_multiplier input_data)
       (in_evaluations input_data) in
   final_score <-
     (if total_weight >~ fromQ 0
      then ret (weighted_sum /~ total_weight)
      else (log LogZeroWeight ;; ret (fromQ 0))) ;;
   let final_score := py_max (fromQ 0) (py_min (fromQ 100) final_score) in
   match _create_category_breakdown (in_evaluations input_data) with
   | Err e => on_exception start_time e
   | Ok breakdown =>
       let comparison_message :=
         _generate_comparison_message final_score (in_self_grade input_data)
           (in_criticism_multiplier input_data) in
       stamp <- datetime_now ;;
       match
         GradingResult_new "" (in_self_grade input_data)
           (py_round final_score 2) (in_criticism_multiplier input_data)
           (in_evaluations input_data) breakdown comparison_message
           stamp (fromQ 0)
       with
       | Err e => on_exception start_time e
       | Ok grading_result =>
           now <- time_time ;;
           let execution_time := now -~ start_time in
           log (LogEnd true execution_time) ;;
           let difference :=
             final_score -~ fromQ (inject_Z (in_self_grade input_data)) in
           match
             success_result grading_result
               [ ("final_score", MFloat final_score);
                 ("difference", MFloat difference);
                 ("total_weight", MFloat total_weight);
                 ("num_categories", MInt (Z.of_nat (List.length breakdown))) ]
               execution_time
           with
           | Err e => on_exception start_time e
           | Ok r => ret (Ok r)
           end
       end
   end)%io.

End ScoringAgent.

(** ** Methods of [GradingResult] (models/core.py) *)

Section GradingResultMethods.

Context {F : Type} `{PyFloat F}.
Local Open Scope pyfloat_scope.

Definition get_grade_difference (self : GradingResult F) : F :=
  py_round (final_score self -~ fromQ (inject_Z (self_grade self))) 2.

Definition get_evaluation_by_id (self : GradingResult F) (id : string)
  : option (CriterionEvaluation F) :=
  find (fun evaluation => String.eqb (criterion_id evaluation) id)
       (evaluations self).

End GradingResultMethods.

(** ** Methods of [AgentResult] (models/agent_result.py) *)

Section AgentResultMethods.

Context {F : Type} `{PyFloat F} {T : Type}.

(** [failure_result(error, metadata, execution_time)] *)
Definition failure_result (err : Exception F) (meta : dict (MetaValue F)) (t : F)
  : result (Exception F) (AgentResult F T) :=
  AgentResult_new false None (Some err) meta t.

(** [add_metadata]: the entry is written into the result's own dictionary. *)
Definition add_metadata (self : AgentResult F T) (key : string) (value : MetaValue F)
  : AgentResult F T :=
  {| success := success self; output := output self; error := error self;
     metadata := dict_set (metadata self) key value;
     execution_time := execution_time self |}.

Definition get_metadata (self : AgentResult F T) (key : string)
    (default : MetaValue F) : MetaValue F :=
  dict_get_default (metadata self) key default.

Definition is_success (self : AgentResult F T) : bool := success self.

Definition is_failure (self : AgentResult F T) : bool := negb (success self).

(** What [get_output_or_raise] raises:
    [RuntimeError(f"Agent execution failed: {self.error}")]. *)
Inductive AgentFailure : Type :=
| RuntimeError (prefix : string) (err : option (Exception F)).

Definition get_output_or_raise (self : AgentResult F T)
  : result AgentFailure (option T) :=
  if negb (success self)
  then Err (RuntimeError "Agent execution failed: " (error self))
  else Ok (output self).

Definition get_output_or_default (self : AgentResult F T) (default : T) : option T :=
  if success self then output self else Some default.

End AgentResultMethods.

Arguments AgentFailure F : clear implicits.

(** ** Methods of [BaseAgent] (agents/base_agent.py) *)

Section BaseAgentMethods.

Context {F : Type} `{PyFloat F}.
Local Open Scope pyfloat_scope.

(** [get_config_value(key, default, required)] of an agent of class [cls];
    a default of [None] is [None] here. *)
Definition get_config_value {V : Type} (cls : string) (config : dict V)
    (key : string) (default : option V) (required : bool)
  : result (Exception F) (option V) :=
  if dict_mem config key then Ok (dict_get config key)
  else if required then
    Err (ValueError ("Required configuration key '" ++ key
                       ++ "' not found for " ++ cls))
  else Ok default.

Definition set_execution_time {T : Type} (r : AgentResult F T) (t : F)
  : AgentResult F T :=
  {| success := success r; output := output r; error := error r;
     metadata := metadata r; execution_time := t |}.

(** [_timed_execute] of a [ScoringAgent]. *)
Definition _timed_execute (factors : SeverityFactors) (input_data : ScoringInput F)
  : IO F (result (Exception F) (AgentResult F (GradingResult F))) :=
  (start_time <- time_time ;;
   attempt <- execute factors input_data ;;
   match attempt with
   | Ok r =>
       now <- time_time ;;
       ret (Ok (set_execution_time r (now -~ start_time)))
   | Err e =>
       now <- time_time ;;
       handled <- handle_error e ;;
       ret (match handled with
            | Ok r => Ok (set_execution_time r (now -~ start_time))
            | Err e' => Err e'
            end)
   end)%io.

End BaseAgentMethods.

(** ** [ValidationResult] and [CostReport] (models/io.py) *)

Section IOModels.

Context {F : Type} `{PyFloat F}.
Local Open Scope pyfloat_scope.

(** A message is an f-string kept in parts: integers and floats formatted
    with a precision are rendered into [Text]; a float or a list printed
    with its [repr] stays a part of its own. *)
Inductive Part : Type :=
| Text (s : string)
| ReprFloat (x : F)
| ReprList (l : list string).

Definition Message : Type := list Part.

Record ValidationResult : Type := {
  is_valid : bool;
  errors : list Message;
  warnings : list Message
}.

(** [ValidationResult(is_valid=True)] *)
Definition ValidationResult_valid : ValidationResult :=
  {| is_valid := true; errors := []; warnings := [] |}.

Definition add_error (self : ValidationResult) (error : Message) : ValidationResult :=
  {| is_valid := false;
     errors := (errors self ++ [error])%list;
     warnings := warnings self |}.

Definition add_warning (self : ValidationResult) (warning : Message) : ValidationResult :=
  {| is_valid := is_valid self;
     errors := errors self;
     warnings := (warnings self ++ [warning])%list |}.

Record CostReport : Type := {
  total_tokens : Z;
  total_cost : F;
  cost_per_criterion : dict F;
  api_calls : Z
}.

(** [CostReport()] *)
Definition CostReport_new : CostReport :=
  {| total_tokens := 0; total_cost := fromQ 0;
     cost_per_criterion := []; api_calls := 0 |}.

Definition add_api_call (self : CostReport) (criterion : string)
    (input_tokens output_tokens : Z) (cost : F) : CostReport :=
  let per_criterion :=
    if negb (dict_mem (cost_per_criterion self) criterion)
    then dict_set (cost_per_criterion self) criterion (fromQ 0)
    else cost_per_criterion self in
  {| total_tokens := (total_tokens self + (input_tokens + output_tokens))%Z;
     total_cost := total_cost self +~ cost;
     cost_per_criterion :=
       dict_set per_criterion criterion
         (dict_get_default per_criterion criterion (fromQ 0) +~ cost);
     api_calls := (api_calls self + 1)%Z |}.

Definition get_average_cost_per_call (self : CostReport) : F :=
  if (api_calls self =? 0)%Z then fromQ 0
  else total_cost self /~ fromQ (inject_Z (api_calls self)).

End IOModels.

Arguments Part F : clear implicits.
Arguments Message F : clear implicits.
Arguments ValidationResult F : clear implicits.
Arguments CostReport F : clear implicits.

(** ** [CostTrackerAgent] (agents/cost_tracker_agent.py) *)

Section CostTracker.

Context {F : Type} `{PyFloat F}.
Local Open Scope pyfloat_scope.

Inductive LogLevel : Type := DEBUG | INFO | WARNING | ERROR.

(** The agent: its report, its budget and what it has logged. *)
Record CostTrackerAgent : Type := {
  cost_report : CostReport F;
  budget_limit : option F;
  warn_threshold : F;
  tracker_log : list (LogLevel * string)
}.

(** [__init__] from the two configuration values, when they are given. *)
Definition CostTrackerAgent_init (budget : option F) (threshold : option F)
  : CostTrackerAgent :=
  {| cost_report := CostReport_new;
     budget_limit := budget;
     warn_threshold := match threshold with
                       | Some t => t
                       | None => fromQ 0.8
                       end;
     tracker_log := [] |}.

(** The truth value of [self.budget_limit]: [None] and zero are false. *)
Definition budget_set (budget : option F) : option F :=
  match budget with
  | Some b => if (b <=~ fromQ 0) && (fromQ 0 <=~ b) then None else Some b
  | None => None
  end.

Definition tracker_logs (self : CostTrackerAgent) (level : LogLevel) (msg : string)
  : CostTrackerAgent :=
  {| cost_report := cost_report self;
     budget_limit := budget_limit self;
     warn_threshold := warn_threshold self;
     tracker_log := (tracker_log self ++ [(level, msg)])%list |}.

Definition _check_budget_warning (self : CostTrackerAgent) : CostTrackerAgent :=
  match budget_set (budget_limit self) with
  | None => self
  | Some budget =>
      let spent := total_cost (cost_report self) in
      let usage_ratio := spent /~ budget in
      if usage_ratio >=~ fromQ 1 then
        tracker_logs self ERROR
          ("Budget exceeded! Spent $" ++ py_format spent 4
             ++ " of $" ++ py_format budget 2 ++ " budget")
      else if usage_ratio >=~ warn_threshold self then
        tracker_logs self WARNING
          ("Budget warning: " ++ py_format (usage_ratio *~ fromQ 100) 1
             ++ "% of budget used ($" ++ py_format spent 4
             ++ " / $" ++ py_format budget 2 ++ ")")
      else self
  end.

Definition track_api_call (self : CostTrackerAgent) (criterion : string)
    (input_tokens output_tokens : Z) (cost : F) : CostTrackerAgent :=
  let self :=
    {| cost_report :=
         add_api_call (cost_report self) criterion input_tokens output_tokens cost;
       budget_limit := budget_limit self;
       warn_threshold := warn_threshold self;
       tracker_log := tracker_log self |} in
  let self := tracker_logs self DEBUG ("Tracked API call for " ++ criterion) in
  match budget_set (budget_limit self) with
  | Some _ => _check_budget_warning self
  | None => self
  end.

Definition reset (self : CostTrackerAgent) : CostTrackerAgent :=
  tracker_logs
    {| cost_report := CostReport_new;
       budget_limit := budget_limit self;
       warn_threshold := warn_threshold self;
       tracker_log := tracker_log self |}
    DEBUG "Cost tracking reset".

Definition get_total_cost (self : CostTrackerAgent) : F :=
  total_cost (cost_report self).

End CostTracker.

Arguments CostTrackerAgent F : clear implicits.

(** ** [DataValidationSkill] (skills/data_validation_skill.py) *)

Section DataValidationSkill.

Context {F : Type} `{PyFloat F}.
Local Open Scope pyfloat_scope.

(** [validate_self_grade]; that the grade is an [int] is its type here. *)
Definition validate_self_grade (grade : Z) : ValidationResult F :=
  let result := ValidationResult_valid in
  if negb ((0 <=? grade)%Z && (grade <=? 100)%Z) then
    add_error result
      [Text ("Grade must be between 0 and 100, got " ++ string_of_Z grade)]
  else if (grade =? 100)%Z then
    add_warning result
      [Text "Self-grade is 100 (perfect) - very strict evaluation will be applied"]
  else if (grade <? 50)%Z then
    add_warning result
      [Text "Self-grade is below 50 - consider providing improvement context"]
  else result.

Definition valid_severities : list string :=
  ["critical"; "important"; "minor"; "strength"].

Definition is_empty {A : Type} (l : list A) : bool :=
  match l with
  | [] => true
  | _ => false
  end.

Definition validate_evaluation (evaluation : CriterionEvaluation F)
  : ValidationResult F :=
  let result := ValidationResult_valid in
  let result :=
    if negb ((fromQ 0 <=~ score evaluation) && (score evaluation <=~ fromQ 100))
    then add_error result
           [Text "Score "; ReprFloat (score evaluation);
            Text " is out of range [0, 100]"]
    else result in
  let result :=
    if negb ((fromQ 0 <=~ weight evaluation) && (weight evaluation <=~ fromQ 1))
    then add_error result
           [Text "Weight "; ReprFloat (weight evaluation);
            Text " is out of range [0, 1]"]
    else result in
  let result :=
    if String.eqb (criterion_id evaluation) ""
    then add_error result [Text "Criterion ID is empty"]
    else result in
  let result :=
    if String.eqb (criterion_name evaluation) ""
    then add_error result [Text "Criterion name is empty"]
    else result in
  let result :=
    if negb (existsb (String.eqb (severity_key (severity evaluation)))
               valid_severities)
    then add_error result
           [Text ("Invalid severity '" ++ severity_key (severity evaluation)
                    ++ "', must be one of ");
            ReprList valid_severities]
    else result in
  let result :=
    if is_empty (evidence evaluation)
    then add_warning result
           [Text ("No evidence provided for " ++ criterion_id evaluation)]
    else result in
  let result :=
    if is_empty (strengths evaluation) && is_empty (weaknesses evaluation)
    then add_warning result
           [Text ("No strengths or weaknesses provided for "
                    ++ criterion_id evaluation)]
    else result in
  let result :=
    if is_empty (suggestions evaluation)
    then add_warning result
           [Text ("No suggestions provided for " ++ criterion_id evaluation)]
    else result in
  result.

(** [sorted(s)] of a set of strings given by a list of its elements. *)
Fixpoint insert_sorted (x : string) (l : list string) : list string :=
  match l with
  | [] => [x]
  | y :: l' =>
      if String.eqb x y then l
      else if String.leb x y then x :: l
      else y :: insert_sorted x l'
  end.

Definition sorted_set (l : list string) : list string :=
  fold_right insert_sorted [] l.

Definition string_in (l : list string) (x : string) : bool :=
  existsb (String.eqb x) l.

Definition validate_evaluations_complete
    (evaluations : list (CriterionEvaluation F)) (expected_criteria : list string)
  : ValidationResult F :=
  let result := ValidationResult_valid in
  let evaluated_criteria := map (fun e => criterion_id e) evaluations in
  let missing :=
    sorted_set (filter (fun c => negb (string_in evaluated_criteria c))
                  expected_criteria) in
  let result :=
    if negb (is_empty missing)
    then add_error result
           [Text "Missing evaluations for criteria: "; ReprList missing]
    else result in
  let unexpected :=
    sorted_set (filter (fun c => negb (string_in expected_criteria c))
                  evaluated_criteria) in
  let result :=
    if negb (is_empty unexpected)
    then add_warning result
           [Text "Unexpected evaluations for criteria: "; ReprList unexpected]
    else result in
  let criterion_ids := evaluated_criteria in
  let duplicates :=
    sorted_set (filter (fun cid => (1 <? count_occ string_dec criterion_ids cid)%nat)
                  criterion_ids) in
  let result :=
    if negb (is_empty duplicates)
    then add_error result
           [Text "Duplicate evaluations for criteria: "; ReprList duplicates]
    else result in
  result.

Definition validate_weights_sum_to_one
    (evaluations : list (CriterionEvaluation F)) (tolerance : F)
  : ValidationResult F :=
  let result := ValidationResult_valid in
  let total_weight := py_sum (map (fun e => weight e) evaluations) in
  if fabs (total_weight -~ fromQ 1) >~ tolerance then
    add_error result
      [Text ("Criterion weights sum to " ++ py_format total_weight 4
               ++ ", expected ~1.0 (Â±");
       ReprFloat tolerance; Text ")"]
  else result.

(** The default of [tolerance]. *)
Definition default_tolerance : F := fromQ 0.05.

(** [sanitize_text]; the text is its UTF-8 bytes, of which only those of
    the ASCII control characters are below 32. *)
Definition is_printable (c : ascii) : bool :=
  Ascii.eqb c "010"%char || Ascii.eqb c "009"%char || (32 <=? nat_of_ascii c)%nat.

Fixpoint remove_char (x : ascii) (text : string) : string :=
  match text with
  | EmptyString => EmptyString
  | String c rest =>
      if Ascii.eqb c x then remove_char x rest else String c (remove_char x rest)
  end.

Fixpoint keep_chars (keep : ascii -> bool) (text : string) : string :=
  match text with
  | EmptyString => EmptyString
  | String c rest =>
      if keep c then String c (keep_chars keep rest) else keep_chars keep rest
  end.

Definition sanitize_text (text : string) : string :=
  if String.eqb text "" then ""
  else keep_chars is_printable (remove_char "000"%char text).

End DataValidationSkill.

(** ** [AutoGraderConfig.validate_evaluators] (config/config_loader.py) *)

Section ConfigLoader.

Context {F : Type} `{PyFloat F}.
Local Open Scope pyfloat_scope.

Record EvaluatorConfig : Type := {
  criterion : string;
  config_weight : F;
  prompt_template : string;
  keywords : list string
}.

Definition validate_evaluators (v : list EvaluatorConfig)
  : result (Exception F) (list EvaluatorConfig) :=
  if negb (is_empty v) then
    let total_weight := py_sum (map (fun e => config_weight e) v) in
    if negb ((fromQ 0.95 <=~ total_weight) && (total_weight <=~ fromQ 1.05))
    then Err (ValueError ("Evaluator weights should sum to ~1.0, got "
                            ++ py_format total_weight 2))
    else Ok v
  else Ok v.

End ConfigLoader.

Arguments EvaluatorConfig F : clear implicits.

(** * Specification

    What the theorems below are stated with: how the result of [execute]
    reads without its effects, when two results are the same, the members of
    a category, the valid inputs and the final score as the specification
    words it. *)

Section Views.

Context {F : Type} `{PyFloat F}.
Local Open Scope pyfloat_scope.

(** [final_score] after the clamp, before it is rounded. *)
Definition clamped_score (factors : SeverityFactors) (input_data : ScoringInput F) : F :=
  let (weighted_sum, total_weight) :=
    accumulate factors (in_criticism_multiplier input_data)
      (in_evaluations input_data) in
  py_max (fromQ 0)
    (py_min (fromQ 100)
       (if total_weight >~ fromQ 0 then weighted_sum /~ total_weight else fromQ 0)).

Definition failure_value (e : Exception F) : AgentResult F (GradingResult F) :=
  {| success := false; output := None; error := Some e;
     metadata := [("error_type", MStr (exception_type e))];
     execution_time := fromQ 0 |}.

(** The [GradingResult] that [execute] builds once the breakdown is
    there, stamped at [stamp]. *)
Definition grading_value (factors : SeverityFactors) (input_data : ScoringInput F)
    (bd : dict (CategoryBreakdown F)) (stamp : Z)
  : result (Exception F) (GradingResult F) :=
  let final := clamped_score factors input_data in
  GradingResult_new "" (in_self_grade input_data) (py_round final 2)
    (in_criticism_multiplier input_data) (in_evaluations input_data) bd
    (_generate_comparison_message final (in_self_grade input_data)
       (in_criticism_multiplier input_data))
    stamp (fromQ 0).

Definition success_value (factors : SeverityFactors) (input_data : ScoringInput F)
    (g : GradingResult F) (elapsed : F) : AgentResult F (GradingResult F) :=
  let final := clamped_score factors input_data in
  {| success := true; output := Some g; error := None;
     metadata :=
       [ ("final_score", MFloat final);
         ("difference", MFloat (final -~ fromQ (inject_Z (in_self_grade input_data))));
         ("total_weight",
          MFloat (snd (accumulate factors (in_criticism_multiplier input_data)
                         (in_evaluations input_data))));
         ("num_categories", MInt (Z.of_nat (List.length (breakdown g)))) ];
     execution_time := elapsed |}.

Definition execute_value (factors : SeverityFactors) (input_data : ScoringInput F)
    (w : World F) : AgentResult F (GradingResult F) :=
  match _create_category_breakdown (in_evaluations input_data) with
  | Err e => failure_value e
  | Ok bd =>
      match grading_value factors input_data bd (wall_clock w (S (ticks w))) with
      | Err e => failure_value e
      | Ok g =>
          success_value factors input_data g
            (monotonic w (S (S (ticks w))) -~ monotonic w (ticks w))
      end
  end.

(** Two grading results that agree on every field but [timestamp]. *)
Definition same_except_timestamp (g1 g2 : GradingResult F) : Prop :=
  submission_id g1 = submission_id g2 /\
  self_grade g1 = self_grade g2 /\
  final_score g1 = final_score g2 /\
  criticism_multiplier g1 = criticism_multiplier g2 /\
  evaluations g1 = evaluations g2 /\
  breakdown g1 = breakdown g2 /\
  comparison_message g1 = comparison_message g2 /\
  processing_time_seconds g1 = processing_time_seconds g2.

(** Two agent results that agree on everything but the [timestamp] of
    the grading result and their own [execution_time]. *)
Definition same_outcome (r1 r2 : AgentResult F (GradingResult F)) : Prop :=
  success r1 = success r2 /\
  error r1 = error r2 /\
  metadata r1 = metadata r2 /\
  match output r1, output r2 with
  | Some g1, Some g2 => same_except_timestamp g1 g2
  | None, None => True
  | _, _ => False
  end.

(** The evaluations of a category, in input order. *)
Definition members (c : string) (evals : list (CriterionEvaluation F))
  : list (CriterionEvaluation F) :=
  filter (fun e => String.eqb (category_of e) c) evals.

Definition nonempty {A : Type} (l : list A) : option (list A) :=
  match l with
  | [] => None
  | _ => Some l
  end.

Definition group_step (categories : dict (list (CriterionEvaluation F)))
    (evaluation : CriterionEvaluation F) : dict (list (CriterionEvaluation F)) :=
  let category := category_of evaluation in
  let categories :=
    if negb (dict_mem categories category)
    then dict_set categories category []
    else categories in
  dict_set categories category
    (dict_get_default categories category [] ++ [evaluation])%list.

End Views.

(** The default severity factors, as the specification lists them. *)
Definition spec_severity_factor (s : Severity) : Q :=
  match s with
  | critical => 0.5
  | important => 0.8
  | minor => 0.95
  | strength => 1.0
  end.

Definition Qsum (xs : list Q) : Q := fold_right Qplus 0 xs.

(** The invariants of a [CriterionEvaluation]; the severity is one of the
    four by its type. *)
Definition valid_evaluation (e : CriterionEvaluation Q) : Prop :=
  0 <= weight e /\ weight e <= 1 /\ 0 <= score e /\ score e <= 100.

(** The preconditions of the engine. *)
Definition valid_input (input_data : ScoringInput Q) : Prop :=
  Forall valid_evaluation (in_evaluations input_data) /\
  0 < in_criticism_multiplier input_data /\
  (0 <= in_self_grade input_data <= 100)%Z.

(** The total weight of a category. *)
Definition category_weight (c : string) (evals : list (CriterionEvaluation Q)) : Q :=
  Qsum (map (fun e => weight e) (members c evals)).

(** No category weighs more than 1 in total. *)
Definition category_weights_fit (evals : list (CriterionEvaluation Q)) : Prop :=
  forall c, category_weight c evals <= 1.

(** The same, checked on the categories that occur. *)
Definition category_weights_fitb (evals : list (CriterionEvaluation Q)) : bool :=
  forallb (fun e => Qleb (category_weight (category_of e) evals) 1) evals.

(** The weighted average of the adjusted scores, as the specification
    states it. *)
Definition spec_weighted_average (factors : dict Q) (m : Q)
    (evals : list (CriterionEvaluation Q)) : Q :=
  let weighted_sum := Qsum (map (fun e => adjusted_score factors m e * weight e) evals) in
  let total_weight := Qsum (map (fun e => weight e) evals) in
  if Qltb 0 total_weight then weighted_sum / total_weight else 0.

Definition spec_final_score (factors : dict Q) (m : Q)
    (evals : list (CriterionEvaluation Q)) : Q :=
  round_decimal 2 (Qmax 0 (Qmin 100 (spec_weighted_average factors m evals))).

Definition is_severity (s : string) : Prop :=
  s = "critical" \/ s = "important" \/ s = "minor" \/ s = "strength".

(** The names a category can have: those of the table, and "Other". *)
Definition category_names : list string :=
  [ "Documentation"; "Code Quality"; "Configuration & Security"; "Testing";
    "Research & Analysis"; "UI/UX"; "Version Control"; "Other" ].

(** The calls made on a [ValidationResult]. *)
Inductive ValidationOp (F : Type) : Type :=
| AddError (m : Message F)
| AddWarning (m : Message F).

Arguments AddError {F} m.
Arguments AddWarning {F} m.

Definition apply_validation_op {F : Type} (r : ValidationResult F)
    (op : ValidationOp F) : ValidationResult F :=
  match op with
  | AddError m => add_error r m
  | AddWarning m => add_warning r m
  end.

Definition error_of {F : Type} (op : ValidationOp F) : list (Message F) :=
  match op with
  | AddError m => [m]
  | AddWarning _ => []
  end.

Definition warning_of {F : Type} (op : ValidationOp F) : list (Message F) :=
  match op with
  | AddError _ => []
  | AddWarning m => [m]
  end.

(** One call of [add_api_call]: criterion, input tokens, output tokens,
    cost. *)
Record ApiCall (F : Type) : Type := {
  call_criterion : string;
  call_input_tokens : Z;
  call_output_tokens : Z;
  call_cost : F
}.

Arguments call_criterion {F} a.
Arguments call_input_tokens {F} a.
Arguments call_output_tokens {F} a.
Arguments call_cost {F} a.

(** The report after a sequence of calls on a fresh one. *)
Definition report_after {F : Type} `{PyFloat F} (calls : list (ApiCall F))
  : CostReport F :=
  fold_left
    (fun report c =>
       add_api_call report (call_criterion c) (call_input_tokens c)
         (call_output_tokens c) (call_cost c))
    calls CostReport_new.

(** The costs of the calls made for one criterion. *)
Definition costs_of (criterion : string) (calls : list (ApiCall Q)) : list Q :=
  map (fun c => call_cost c)
      (filter (fun c => String.eqb (call_criterion c) criterion) calls).

(** The annotation of the comparison message, by the self-grade the
    multiplier was derived from. *)
Definition spec_multiplier_note (self_grade : Z) : string :=
  if (90 <=? self_grade)%Z then
    " (evaluated with very strict standards due to high self-grade)"
  else if (80 <=? self_grade)%Z then " (evaluated with strict standards)"
  else if (70 <=? self_grade)%Z then ""
  else if (60 <=? self_grade)%Z then " (evaluated with encouraging standards)"
  else " (evaluated with supportive standards)".

(** The template of the comparison message. *)
Definition message_template (accuracy direction interpretation note : string)
  : string :=
  "Your self-assessment was " ++ accuracy ++ ". "
    ++ "The final grade is " ++ direction ++ ". "
    ++ interpretation ++ note.

Definition close_direction : string := "very close to your self-assessment".
Definition close_interpretation : string :=
  "Your self-evaluation was well-calibrated.".
Definition modest_interpretation : string :=
  "You were more modest than necessary.".
Definition overestimated_interpretation : string :=
  "You may have overestimated some aspects.".

(** No control character other than newline and tab. *)
Fixpoint clean_text (text : string) : Prop :=
  match text with
  | EmptyString => True
  | String c rest => is_printable c = true /\ clean_text rest
  end.

(** The note that closes the comparison message, by the multiplier. *)
Definition multiplier_note {F : Type} `{PyFloat F} (criticism_multiplier : F) : string :=
  if fleb (fromQ 1.5) criticism_multiplier then
    " (evaluated with very strict standards due to high self-grade)"
  else if fleb (fromQ 1.2) criticism_multiplier then
    " (evaluated with strict standards)"
  else if fleb criticism_multiplier (fromQ 0.6) then
    " (evaluated with supportive standards)"
  else if fleb criticism_multiplier (fromQ 0.8) then
    " (evaluated with encouraging standards)"
  else "".

(** ** Concrete inputs *)

Section Samples.

Context {F : Type} `{PyFloat F}.

Definition evaluation_args (id : string) (sev : string) (w s : Q)
  : CriterionEvaluationArgs F :=
  {| arg_criterion_id := id; arg_criterion_name := id;
     arg_weight := fromQ w; arg_score := fromQ s;
     arg_evidence := []; arg_strengths := []; arg_weaknesses := [];
     arg_suggestions := []; arg_severity := sev |}.

Definition evaluation (id : string) (sev : Severity) (w s : Q)
  : CriterionEvaluation F :=
  {| criterion_id := id; criterion_name := id;
     weight := fromQ w; score := fromQ s;
     evidence := []; strengths := []; weaknesses := []; suggestions := [];
     severity := sev |}.

Definition scoring_input (evals : list (CriterionEvaluation F)) (m : Q) (sg : Z)
  : ScoringInput F :=
  {| in_evaluations := evals;
     in_criticism_multiplier := fromQ m;
     in_self_grade := sg |}.

(** A world whose clocks stand still and whose log is empty. *)
Definition still_world : World F :=
  {| monotonic := fun _ => fromQ 0; wall_clock := fun _ => 0%Z;
     ticks := 0; logged := [] |}.

(** The final score of a run, when it has one. *)
Definition final_score_of
    (r : result (Exception F) (AgentResult F (GradingResult F))) : option F :=
  match r with
  | Ok a => option_map (fun g => final_score g) (output a)
  | Err _ => None
  end.

(** Whether a run returned a successful result. *)
Definition succeeded
    (r : result (Exception F) (AgentResult F (GradingResult F))) : bool :=
  match r with
  | Ok a => success a
  | Err _ => false
  end.

End Samples.

(** Two documentation criteria of weight 0.6 each. *)
Definition heavy_documentation {F : Type} `{PyFloat F} : ScoringInput F :=
  scoring_input
    [ evaluation "prd_quality" strength 0.6 90;
      evaluation "readme" strength 0.6 80 ] 1 85.

(** Two criteria outside the table, of weight 1.0 each, as the caller
    passes them to the constructors. *)
Definition two_full_weights {F : Type} `{PyFloat F} : list (CriterionEvaluationArgs F) :=
  [ evaluation_args "a" "strength" 1 90;
    evaluation_args "b" "strength" 1 80 ].

(** The evaluations of the repository's unit tests: one documentation
    criterion and two outside the table. *)
Definition sample_evaluations {F : Type} `{PyFloat F} : list (CriterionEvaluation F) :=
  [ evaluation "prd_quality" strength 0.2 90;
    evaluation "code_quality" minor 0.3 80;
    evaluation "testing" important 0.5 70 ].

Definition sample_input {F : Type} `{PyFloat F} : ScoringInput F :=
  scoring_input sample_evaluations 1 75.

(** * Verification *)

(** ** Exact arithmetic: comparisons and rounding *)

Lemma Qltb_true (a b : Q) : Qltb a b = true <-> a < b.
Proof.
  unfold Qltb; rewrite Qlt_alt.
  destruct (a ?= b); split; congruence.
Qed.

Lemma Qltb_false (a b : Q) : Qltb a b = false <-> b <= a.
Proof.
  split.
  - intro Hf. apply Qnot_lt_le. intro Hlt.
    apply Qltb_true in Hlt. congruence.
  - intro Hle. destruct (Qltb a b) eqn:E; [|reflexivity].
    apply Qltb_true in E. destruct (Qle_not_lt _ _ Hle E).
Qed.

Lemma Qleb_true (a b : Q) : Qleb a b = true <-> a <= b.
Proof.
  unfold Qleb; rewrite Qle_alt.
  destruct (a ?= b); split; congruence.
Qed.

Lemma Qleb_false (a b : Q) : Qleb a b = false <-> b < a.
Proof.
  split.
  - intro Hf. apply Qnot_le_lt. intro Hle.
    apply Qleb_true in Hle. congruence.
  - intro Hlt. destruct (Qleb a b) eqn:E; [|reflexivity].
    apply Qleb_true in E. destruct (Qlt_not_le _ _ Hlt E).
Qed.

(** Reads the methods of [ExactQ] as the operations of [Q]. *)
Ltac exact_arith :=
  cbn [fadd fsub fmul fdiv fabs fltb fleb fromQ toQ ExactQ] in *.

Lemma round_half_even_comp (p q : Q) :
  p == q -> round_half_even p = round_half_even q.
Proof.
  intro E. unfold round_half_even.
  assert (Ef : Qfloor p = Qfloor q).
  { apply Z.le_antisymm; apply Qfloor_resp_le; rewrite E; apply Qle_refl. }
  rewrite Ef.
  assert (Ec : (p - inject_Z (Qfloor q) ?= 1 # 2) = (q - inject_Z (Qfloor q) ?= 1 # 2)).
  { apply Qcompare_comp; [rewrite E|]; reflexivity. }
  rewrite Ec. reflexivity.
Qed.

Lemma round_half_even_floor (q : Q) :
  (Qfloor q <= round_half_even q <= Qfloor q + 1)%Z.
Proof.
  unfold round_half_even.
  destruct (q - inject_Z (Qfloor q) ?= 1 # 2); [destruct (Z.even _)| |]; lia.
Qed.

(** The rounded value is within one half of the argument. *)
Lemma round_half_even_near (q : Q) :
  Qabs (inject_Z (round_half_even q) - q) <= 1 # 2.
Proof.
  pose proof (Qfloor_le q) as Hlo.
  pose proof (Qlt_floor q) as Hhi.
  rewrite inject_Z_plus in Hhi.
  unfold round_half_even.
  destruct (q - inject_Z (Qfloor q) ?= 1 # 2) eqn:E.
  - apply Qeq_alt in E.
    destruct (Z.even (Qfloor q)); [|rewrite inject_Z_plus];
      change (inject_Z 1) with 1 in *;
      apply Qabs_Qle_condition; lra.
  - apply Qlt_alt in E. apply Qabs_Qle_condition; lra.
  - apply Qgt_alt in E. rewrite inject_Z_plus.
    change (inject_Z 1) with 1 in *.
    apply Qabs_Qle_condition; lra.
Qed.

(** An integer interval is closed under rounding. *)
Lemma round_half_even_between (a b : Z) (q : Q) :
  inject_Z a <= q -> q <= inject_Z b ->
  (a <= round_half_even q <= b)%Z.
Proof.
  intros Ha Hb.
  pose proof (round_half_even_floor q) as [Hf1 Hf2].
  pose proof (Qfloor_resp_le _ _ Ha) as Hfa. rewrite Qfloor_Z in Hfa.
  pose proof (Qfloor_resp_le _ _ Hb) as Hfb. rewrite Qfloor_Z in Hfb.
  split; [lia|].
  destruct (Z.eq_dec (Qfloor q) b) as [Eb|Nb]; [|lia].
  unfold round_half_even. rewrite Eb.
  assert (Hlt : q - inject_Z b < 1 # 2) by lra.
  destruct (Qlt_alt (q - inject_Z b) (1 # 2)) as [Hc _].
  rewrite (Hc Hlt). lia.
Qed.

Lemma round_half_even_Z (z : Z) : round_half_even (inject_Z z) = z.
Proof.
  pose proof (@round_half_even_between z z (inject_Z z)) as Hb.
  assert (z <= round_half_even (inject_Z z) <= z)%Z by (apply Hb; apply Qle_refl).
  lia.
Qed.

Lemma scale10_2 : scale10 2 = 100%positive.
Proof. reflexivity. Qed.

(** [round(x, 2)] keeps a value of [0, 100] there. *)
Lemma round_decimal_2_range (q : Q) :
  0 <= q -> q <= 100 -> 0 <= round_decimal 2 q /\ round_decimal 2 q <= 100.
Proof.
  intros H0 H100. unfold round_decimal. rewrite scale10_2.
  assert (Hb : (0 <= round_half_even (q * (100 # 1)) <= 10000)%Z).
  { apply round_half_even_between; unfold inject_Z; lra. }
  unfold Qle; cbn [Qnum Qden]. lia.
Qed.

(** [round(x, 2)] moves a value by at most half a hundredth. *)
Lemma round_decimal_2_near (q : Q) :
  Qabs (round_decimal 2 q - q) <= 1 # 200.
Proof.
  unfold round_decimal. rewrite scale10_2.
  pose proof (round_half_even_near (q * (100 # 1))) as Hn.
  set (n := round_half_even (q * (100 # 1))) in *.
  assert (En : (n # 100) * 100 == inject_Z n).
  { unfold Qeq, Qmult, inject_Z; cbn; lia. }
  apply Qabs_Qle_condition in Hn. apply Qabs_Qle_condition.
  clearbody n. destruct Hn. split; lra.
Qed.

(** Rounding twice is rounding once. *)
Lemma round_decimal_2_idem (q : Q) :
  round_decimal 2 (round_decimal 2 q) = round_decimal 2 q.
Proof.
  unfold round_decimal at 1 3. rewrite scale10_2.
  set (n := round_half_even (q * (100 # 1))).
  f_equal.
  transitivity (round_half_even (inject_Z n)); [|apply round_half_even_Z].
  apply round_half_even_comp.
  unfold round_decimal. rewrite scale10_2. fold n.
  unfold Qeq, Qmult, inject_Z; cbn; lia.
Qed.

Lemma round_decimal_comp (n : nat) (p q : Q) :
  p == q -> round_decimal n p = round_decimal n q.
Proof.
  intro E. unfold round_decimal. f_equal.
  apply round_half_even_comp. rewrite E. reflexivity.
Qed.

Lemma py_max_exact (a b : Q) : py_max a b == Qmax a b.
Proof.
  unfold py_max. exact_arith.
  destruct (Qltb a b) eqn:E.
  - apply Qltb_true in E. rewrite Q.max_r; [reflexivity | lra].
  - apply Qltb_false in E. rewrite Q.max_l; [reflexivity | lra].
Qed.

Lemma py_min_exact (a b : Q) : py_min a b == Qmin a b.
Proof.
  unfold py_min. exact_arith.
  destruct (Qltb b a) eqn:E.
  - apply Qltb_true in E. rewrite Q.min_r; [reflexivity | lra].
  - apply Qltb_false in E. rewrite Q.min_l; [reflexivity | lra].
Qed.

(** ** The criticism multiplier *)

(** C4. On every self-grade of 0..100 the multiplier is 1.5 from 90 up, 1.2
    on 80..89, 1.0 on 70..79, 0.8 on 60..69 and 0.6 below 60: one of five
    distinct values, with the stated values at the boundaries 89, 90, 59 and
    60, in exact and in binary64 arithmetic alike. *)
Theorem criticism_multiplier_steps :
  (forall self_grade : Z,
      let m := _calculate_criticism_multiplier (F := Q) self_grade in
      ((90 <= self_grade)%Z -> m = 1.5) /\
      ((80 <= self_grade <= 89)%Z -> m = 1.2) /\
      ((70 <= self_grade <= 79)%Z -> m = 1.0) /\
      ((60 <= self_grade <= 69)%Z -> m = 0.8) /\
      ((self_grade < 60)%Z -> m = 0.6) /\
      In m [0.6; 0.8; 1.0; 1.2; 1.5]) /\
  (0.6 < 0.8 /\ 0.8 < 1.0 /\ 1.0 < 1.2 /\ 1.2 < 1.5) /\
  map (_calculate_criticism_multiplier (F := Q)) [89; 90; 59; 60; 79; 80; 69; 70; 0; 100]%Z
    = [1.2; 1.5; 0.6; 0.8; 1.0; 1.2; 0.8; 1.0; 0.6; 1.5] /\
  map (_calculate_criticism_multiplier (F := float)) [89; 90; 59; 60; 79; 80; 69; 70; 0; 100]%Z
    = [1.2; 1.5; 0.6; 0.8; 1.0; 1.2; 0.8; 1.0; 0.6; 1.5]%float.
Proof.
  split; [|split; [|split]].
  - intros self_grade m. subst m. unfold _calculate_criticism_multiplier.
    exact_arith.
    destruct (Z.geb_spec self_grade 90); [cbn; intuition (try lia) |].
    destruct (Z.geb_spec self_grade 80); [cbn; intuition (try lia) |].
    destruct (Z.geb_spec self_grade 70); [cbn; intuition (try lia) |].
    destruct (Z.geb_spec self_grade 60); cbn; intuition (try lia).
  - repeat split; reflexivity.
  - reflexivity.
  - vm_compute. reflexivity.
Qed.

(** ** The score adjuster *)

(** An agent built from an empty configuration, [ScoringAgent({})], holds
    the default factors. *)
Lemma ScoringAgent_init_default {F : Type} `{PyFloat F} :
  ScoringAgent_init [] = default_severity_factors.
Proof. reflexivity. Qed.

Lemma default_factor_lookup (s : Severity) :
  dict_get_default (default_severity_factors (F := Q)) (severity_key s) (fromQ 1)
  = spec_severity_factor s.
Proof. destruct s; reflexivity. Qed.

Lemma spec_severity_factor_range (s : Severity) :
  0 < spec_severity_factor s /\ spec_severity_factor s <= 1.
Proof. destruct s; cbn; split; lra. Qed.

(** The four branches of [_apply_criticism_multiplier], in exact arithmetic. *)
Lemma apply_criticism_multiplier_cases (s m : Q) :
  (100 <= s -> _apply_criticism_multiplier s m = s) /\
  (s < 100 -> 1 < m ->
   _apply_criticism_multiplier s m = py_max 0 (s - (100 - s) * (m - 1) * 0.2)) /\
  (s < 100 -> m < 1 ->
   _apply_criticism_multiplier s m = py_min 100 (s + (100 - s) * (1 - m) * 0.3)) /\
  (s < 100 -> m == 1 -> _apply_criticism_multiplier s m = s).
Proof.
  unfold _apply_criticism_multiplier. exact_arith.
  repeat split; intros.
  - destruct (Qleb 100 s) eqn:E; [reflexivity|].
    apply Qleb_false in E. lra.
  - destruct (Qleb 100 s) eqn:E; [apply Qleb_true in E; lra|].
    destruct (Qltb 1 m) eqn:E1; [reflexivity|].
    apply Qltb_false in E1. lra.
  - destruct (Qleb 100 s) eqn:E; [apply Qleb_true in E; lra|].
    destruct (Qltb 1 m) eqn:E1; [apply Qltb_true in E1; lra|].
    destruct (Qltb m 1) eqn:E2; [reflexivity|].
    apply Qltb_false in E2. lra.
  - destruct (Qleb 100 s) eqn:E; [apply Qleb_true in E; lra|].
    destruct (Qltb 1 m) eqn:E1; [apply Qltb_true in E1; lra|].
    destruct (Qltb m 1) eqn:E2; [apply Qltb_true in E2; lra|].
    reflexivity.
Qed.

(** C2. With the default factors, a score of [0,100] and a positive
    multiplier, the adjusted score is the dampened score [s] when [s >= 100]
    or the multiplier is 1, [max(0, s - (100 - s)(m - 1) 0.2)] when the
    multiplier exceeds 1 and [min(100, s + (100 - s)(1 - m) 0.3)] when it is
    below 1; it always lies in [0,100]. *)
Theorem adjusted_score_default (e : CriterionEvaluation Q) (m : Q) :
  0 <= score e -> score e <= 100 -> 0 < m ->
  let s := score e * spec_severity_factor (severity e) in
  let r := adjusted_score default_severity_factors m e in
  (100 <= s -> r == s) /\
  (1 < m -> r == Qmax 0 (s - (100 - s) * (m - 1) * 0.2)) /\
  (m < 1 -> r == Qmin 100 (s + (100 - s) * (1 - m) * 0.3)) /\
  (m == 1 -> r == s) /\
  0 <= r /\ r <= 100.
Proof.
  intros H0 H100 Hm s r.
  pose proof (spec_severity_factor_range (severity e)) as [Hf0 Hf1].
  assert (Hs0 : 0 <= s) by (subst s; nra).
  assert (Hs100 : s <= 100) by (subst s; nra).
  assert (Er : r = _apply_criticism_multiplier s m).
  { subst r s. unfold adjusted_score. rewrite default_factor_lookup. reflexivity. }
  destruct (apply_criticism_multiplier_cases s m) as (C1 & C2 & C3 & C4).
  clearbody s r. subst r.
  destruct (Qlt_le_dec s 100) as [Hlt|Hge].
  - repeat split.
    + intro; lra.
    + intro H1. rewrite (C2 Hlt H1). apply py_max_exact.
    + intro H1. rewrite (C3 Hlt H1). apply py_min_exact.
    + intro H1. rewrite (C4 Hlt H1). reflexivity.
    + destruct (Q_dec m 1) as [[Hl|Hg]|He].
      * rewrite (C3 Hlt Hl), py_min_exact.
        apply Q.min_glb; [lra | nra].
      * rewrite (C2 Hlt Hg), py_max_exact. apply Q.le_max_l.
      * rewrite (C4 Hlt He). exact Hs0.
    + destruct (Q_dec m 1) as [[Hl|Hg]|He].
      * rewrite (C3 Hlt Hl), py_min_exact. apply Q.le_min_l.
      * rewrite (C2 Hlt Hg), py_max_exact.
        apply Q.max_lub; [lra | nra].
      * rewrite (C4 Hlt He). exact Hs100.
  - rewrite (C1 Hge).
    assert (Es : s == 100) by lra.
    split; [intro; reflexivity|].
    split; [intros _; rewrite Q.max_r; rewrite Es; lra|].
    split; [intros _; rewrite Q.min_r; rewrite Es; lra|].
    split; [intro; reflexivity|].
    split; lra.
Qed.

(** From a dampened score in [0, 100) the adjustment never grows with the
    multiplier, wherever the two multipliers lie. *)
Lemma apply_criticism_multiplier_antitone (s m1 m2 : Q) :
  0 <= s -> s < 100 -> m1 <= m2 ->
  _apply_criticism_multiplier s m2 <= _apply_criticism_multiplier s m1.
Proof.
  intros Hs0 Hs Hm.
  destruct (apply_criticism_multiplier_cases s m1) as (_ & A1 & B1 & C1).
  destruct (apply_criticism_multiplier_cases s m2) as (_ & A2 & B2 & C2).
  assert (Hup : forall m, m < 1 ->
            s <= Qmin 100 (s + (100 - s) * (1 - m) * 0.3))
    by (intros m Hlt; apply Q.min_glb; [lra | nra]).
  assert (Hdown : forall m, 1 < m ->
            Qmax 0 (s - (100 - s) * (m - 1) * 0.2) <= s)
    by (intros m Hgt; apply Q.max_lub; [lra | nra]).
  destruct (Q_dec m1 1) as [[L1|G1]|E1]; destruct (Q_dec m2 1) as [[L2|G2]|E2];
    try lra.
  - rewrite (B1 Hs L1), (B2 Hs L2), !py_min_exact.
    apply Q.min_le_compat_l. nra.
  - rewrite (B1 Hs L1), (A2 Hs G2), py_min_exact, py_max_exact.
    apply Qle_trans with s; [apply Hdown; exact G2 | apply Hup; exact L1].
  - rewrite (B1 Hs L1), (C2 Hs E2), py_min_exact. apply Hup; exact L1.
  - rewrite (A1 Hs G1), (A2 Hs G2), !py_max_exact.
    apply Q.max_le_compat_l. nra.
  - rewrite (C1 Hs E1), (A2 Hs G2), py_max_exact. apply Hdown; exact G2.
  - rewrite (C1 Hs E1), (C2 Hs E2). apply Qle_refl.
Qed.

(** C7. For a fixed severity and a fixed raw score whose dampened value is
    below 100, the adjusted score does not increase from one multiplier to a
    larger one when both are at least 1.0, and it does not decrease from one
    multiplier to a smaller one when both are below 1.0. *)
Theorem adjusted_score_monotone (e : CriterionEvaluation Q) (m1 m2 : Q) :
  0 <= score e -> score e <= 100 ->
  score e * spec_severity_factor (severity e) < 100 ->
  m1 <= m2 ->
  (1 <= m1 ->
   adjusted_score default_severity_factors m2 e
   <= adjusted_score default_severity_factors m1 e) /\
  (m2 < 1 ->
   adjusted_score default_severity_factors m1 e
   >= adjusted_score default_severity_factors m2 e).
Proof.
  intros H0 H100 Hs Hm.
  pose proof (spec_severity_factor_range (severity e)) as [Hf0 Hf1].
  unfold adjusted_score. rewrite default_factor_lookup. exact_arith.
  split; intros _; apply apply_criticism_multiplier_antitone;
    solve [exact Hs | exact Hm | nra].
Qed.

(** ** Dictionaries *)

Section DictFacts.

Variable V : Type.
Implicit Types (d : dict V) (k : string) (v : V).

Lemma dict_get_set_same d k v : dict_get (dict_set d k v) k = Some v.
Proof.
  induction d as [|[k' v'] d IH]; cbn.
  - rewrite String.eqb_refl. reflexivity.
  - destruct (String.eqb k' k) eqn:E; cbn; rewrite E; auto.
Qed.

Lemma dict_get_set_other d k k' v :
  k' <> k -> dict_get (dict_set d k v) k' = dict_get d k'.
Proof.
  intro Hne. induction d as [|[k0 v0] d IH]; cbn.
  - destruct (String.eqb_spec k k'); [congruence | reflexivity].
  - destruct (String.eqb_spec k0 k) as [->|Hk]; cbn.
    + destruct (String.eqb_spec k k'); [congruence | reflexivity].
    + destruct (String.eqb_spec k0 k'); [reflexivity | exact IH].
Qed.

Lemma dict_get_None_keys d k : dict_get d k = None <-> ~ In k (dict_keys d).
Proof.
  induction d as [|[k' v'] d IH]; cbn.
  - tauto.
  - destruct (String.eqb_spec k' k) as [->|Hk].
    + split; [discriminate | intro Hn; destruct Hn; left; reflexivity].
    + rewrite IH. tauto.
Qed.

Lemma dict_keys_set d k v :
  dict_keys (dict_set d k v)
  = if dict_mem d k then dict_keys d else (dict_keys d ++ [k])%list.
Proof.
  unfold dict_mem, dict_keys. induction d as [|[k' v'] d IH]; cbn.
  - reflexivity.
  - destruct (String.eqb_spec k' k) as [->|Hk]; cbn.
    + reflexivity.
    + rewrite IH. destruct (dict_get d k); reflexivity.
Qed.

Lemma dict_get_In d k v :
  NoDup (dict_keys d) -> In (k, v) d -> dict_get d k = Some v.
Proof.
  induction d as [|[k' v'] d IH]; cbn; [tauto|].
  intros Hnd [E|Hin].
  - inversion E; subst. rewrite String.eqb_refl. reflexivity.
  - inversion Hnd as [|? ? Hni Hnd']; subst.
    destruct (String.eqb_spec k' k) as [->|Hk].
    + destruct Hni. change k with (fst (k, v)). apply in_map. exact Hin.
    + apply IH; assumption.
Qed.

Lemma dict_get_Some_In d k v : dict_get d k = Some v -> In (k, v) d.
Proof.
  induction d as [|[k' v'] d IH]; cbn; [discriminate|].
  destruct (String.eqb_spec k' k) as [->|Hk].
  - intros [= ->]. left; reflexivity.
  - intro Hg. right. apply IH; exact Hg.
Qed.

End DictFacts.

Section ResultFacts.

Variables E A B : Type.
Variable f : A -> result E B.

(** [rmap] succeeds exactly when [f] succeeds on every element, and then
    lists the results in order. *)
Lemma rmap_Ok (xs : list A) (ys : list B) :
  rmap f xs = Ok ys <-> Forall2 (fun x y => f x = Ok y) xs ys.
Proof.
  revert ys. induction xs as [|x xs IH]; intros ys; cbn.
  - split.
    + intros [= <-]. constructor.
    + intro Hf. inversion Hf. reflexivity.
  - split.
    + destruct (f x) as [y|e] eqn:Ex; cbn; [|discriminate].
      destruct (rmap f xs) as [ys'|e]; cbn; [|discriminate].
      intros [= <-]. constructor; [exact Ex | apply IH; reflexivity].
    + intro Hf. inversion Hf as [|? y ? ys' Hx Hr]; subst.
      rewrite Hx. cbn.
      apply IH in Hr. rewrite Hr. reflexivity.
Qed.

Lemma rmap_total (xs : list A) :
  Forall (fun x => exists y, f x = Ok y) xs -> exists ys, rmap f xs = Ok ys.
Proof.
  induction 1 as [|x xs [y Hy] _ [ys Hys]]; cbn.
  - eexists; reflexivity.
  - rewrite Hy, Hys. cbn. eexists; reflexivity.
Qed.

End ResultFacts.

(** ** What [execute] returns

    The clock and the logger only reach the [timestamp] and the
    [execution_time]: everything else is a function of the agent's factors
    and of the input. *)

Section ExecuteValue.

Context {F : Type} `{PyFloat F}.
Local Open Scope pyfloat_scope.

Lemma GradingResult_new_breakdown sid sg fs m evals bd msg now ptime g :
  GradingResult_new (F := F) sid sg fs m evals bd msg now ptime = Ok g ->
  breakdown g = bd /\ evaluations g = evals /\ comparison_message g = msg /\
  submission_id g = sid /\ timestamp g = now /\ processing_time_seconds g = ptime.
Proof.
  unfold GradingResult_new.
  destruct (int_ge_le _ _ _ _), (rbind _ _), (float_gt _ _ _);
    try discriminate.
  intros [= <-]. cbn. repeat split; reflexivity.
Qed.

(** No exception escapes [execute], and its result is [execute_value]. *)
Lemma execute_returns factors input_data w :
  fst (execute factors input_data w) = Ok (execute_value factors input_data w).
Proof.
  unfold execute, execute_value, grading_value, success_value, clamped_score.
  unfold bind at 1 2. cbn [log time_time].
  destruct (accumulate factors (in_criticism_multiplier input_data)
              (in_evaluations input_data)) as [ws tw] eqn:Eacc.
  cbn [snd].
  assert (Hfin : forall w0 : World F,
    exists w1,
      wall_clock w1 = wall_clock w0 /\ monotonic w1 = monotonic w0 /\
      ticks w1 = ticks w0 /\
      (if tw >~ fromQ 0 then ret (ws /~ tw) else (log LogZeroWeight ;; ret (fromQ 0))%io) w0
      = ((if tw >~ fromQ 0 then ws /~ tw else fromQ 0), w1)).
  { intro w0. destruct (tw >~ fromQ 0).
    - exists w0. repeat split; reflexivity.
    - exists (snd (log LogZeroWeight w0)). repeat split; reflexivity. }
  unfold bind at 1.
  match goal with
  | |- context [(if tw >~ fromQ 0 then ret (ws /~ tw) else _) ?w0] =>
      destruct (Hfin w0) as (w1 & Hwall & Hmono & Hticks & ->)
  end.
  cbn [tick ticks wall_clock monotonic] in Hwall, Hmono, Hticks.
  destruct (_create_category_breakdown (in_evaluations input_data)) as [bd|e].
  - unfold bind at 1. cbn [datetime_now].
    rewrite Hwall, Hticks.
    destruct (GradingResult_new _ _ _ _ _ _ _ _ _) as [g|e] eqn:Eg.
    + apply GradingResult_new_breakdown in Eg.
      destruct Eg as (Eb & _).
      unfold bind, ret, log, time_time, success_result, AgentResult_new.
      cbn. rewrite Hmono, Hticks, Eb. reflexivity.
    + unfold on_exception, handle_error, bind, ret, log, time_time, AgentResult_new.
      cbn. reflexivity.
  - unfold on_exception, handle_error, bind, ret, log, time_time, AgentResult_new.
    cbn. reflexivity.
Qed.

End ExecuteValue.

(** ** Determinism *)

Section Determinism.

Context {F : Type} `{PyFloat F}.

Lemma GradingResult_new_stamp sid sg fs m evals bd msg ptime (now1 now2 : Z) :
  match GradingResult_new (F := F) sid sg fs m evals bd msg now1 ptime,
        GradingResult_new (F := F) sid sg fs m evals bd msg now2 ptime with
  | Ok g1, Ok g2 => same_except_timestamp g1 g2
  | Err e1, Err e2 => e1 = e2
  | _, _ => False
  end.
Proof.
  unfold GradingResult_new.
  destruct (int_ge_le _ _ _ _), (rbind _ _), (float_gt _ _ _);
    try reflexivity.
  unfold same_except_timestamp; cbn. repeat split; reflexivity.
Qed.

Lemma execute_value_same factors input_data (w1 w2 : World F) :
  same_outcome (execute_value factors input_data w1)
               (execute_value factors input_data w2).
Proof.
  unfold execute_value, grading_value.
  destruct (_create_category_breakdown (in_evaluations input_data)) as [bd|e].
  - match goal with
    | |- context [GradingResult_new ?sid ?sg ?fs ?m ?ev ?b ?msg (wall_clock w1 ?t1) ?p] =>
        pose proof (GradingResult_new_stamp sid sg fs m ev b msg p
                      (wall_clock w1 t1) (wall_clock w2 (S (ticks w2)))) as Hs
    end.
    destruct (GradingResult_new _ _ _ _ _ _ _ (wall_clock w1 _) _) as [g1|e1];
      destruct (GradingResult_new _ _ _ _ _ _ _ (wall_clock w2 _) _) as [g2|e2];
      try contradiction.
    + unfold same_outcome, success_value; cbn.
      destruct Hs as (? & ? & ? & ? & ? & Hb & ? & ?).
      rewrite Hb. repeat split; assumption.
    + subst e2. unfold same_outcome, failure_value; cbn. repeat split.
  - unfold same_outcome, failure_value; cbn. repeat split.
Qed.

End Determinism.

(** C9. Two calls of [execute] with the same agent and the same input, in
    whatever state of the clocks and of the logger, both return, and return
    results that agree on success, error, metadata and on every field of the
    grading result other than the timestamp. *)
Theorem execute_deterministic :
  forall (F : Type) (PF : PyFloat F) (factors : SeverityFactors)
         (input_data : ScoringInput F) (w1 w2 : World F),
  exists r1 r2,
    fst (execute factors input_data w1) = Ok r1 /\
    fst (execute factors input_data w2) = Ok r2 /\
    same_outcome r1 r2.
Proof.
  intros F PF factors input_data w1 w2.
  exists (execute_value factors input_data w1), (execute_value factors input_data w2).
  split; [apply execute_returns|].
  split; [apply execute_returns|].
  apply execute_value_same.
Qed.

(** ** A severity missing from the configured factors *)

Section MissingFactor.

Context {F : Type} `{PyFloat F}.
Local Open Scope pyfloat_scope.

Lemma dict_get_default_completed (factors : SeverityFactors) (k k' : string) (v : F) :
  dict_get factors k = None ->
  dict_get_default (dict_set factors k v) k' v = dict_get_default factors k' v.
Proof.
  intro Hk. unfold dict_get_default.
  destruct (String.eqb_spec k k') as [<-|Hne].
  - rewrite dict_get_set_same, Hk. reflexivity.
  - rewrite dict_get_set_other by congruence. reflexivity.
Qed.

Lemma accumulate_ext (f1 f2 : SeverityFactors) (m : F) (evals : list (CriterionEvaluation F)) :
  (forall e, adjusted_score f1 m e = adjusted_score f2 m e) ->
  accumulate f1 m evals = accumulate f2 m evals.
Proof.
  intro Hext. unfold accumulate.
  generalize (fromQ 0, fromQ 0) as acc.
  induction evals as [|e evals IH]; intro acc; cbn.
  - reflexivity.
  - rewrite Hext. apply IH.
Qed.

Lemma execute_ext (f1 f2 : SeverityFactors) (input_data : ScoringInput F) (w : World F) :
  (forall m e, adjusted_score f1 m e = adjusted_score f2 m e) ->
  execute f1 input_data w = execute f2 input_data w.
Proof.
  intro Hext. unfold execute.
  rewrite (@accumulate_ext f1 f2) by (apply Hext).
  reflexivity.
Qed.

Lemma missing_factor_generic (factors : SeverityFactors) (sev : Severity) :
  dict_get factors (severity_key sev) = None ->
  (forall m e, severity e = sev ->
     adjusted_score factors m e
     = _apply_criticism_multiplier (score e *~ fromQ 1) m) /\
  (forall input_data w,
     execute factors input_data w
     = execute (dict_set factors (severity_key sev) (fromQ 1)) input_data w).
Proof.
  intro Hk. split.
  - intros m e <-. unfold adjusted_score, dict_get_default.
    rewrite Hk. reflexivity.
  - intros input_data w. apply execute_ext. intros m e.
    unfold adjusted_score.
    rewrite dict_get_default_completed by exact Hk. reflexivity.
Qed.

End MissingFactor.

Lemma Qmult_1_r_eq (q : Q) : q * 1 = q.
Proof.
  destruct q as [n d]. unfold Qmult; cbn [Qnum Qden].
  rewrite Z.mul_1_r, Pos.mul_1_r. reflexivity.
Qed.

(** C10. When the configured factors have no entry for the severity of an
    evaluation, the engine uses the factor 1.0 for it: its score enters the
    criticism adjustment undampened, and [execute] behaves, result and log
    alike, as with the configuration completed by the entry 1.0; nothing is
    rejected on that account. *)
Theorem missing_severity_factor_is_one :
  forall (factors : dict Q) (sev : Severity),
    dict_get factors (severity_key sev) = None ->
    (forall m e, severity e = sev ->
       adjusted_score factors m e = _apply_criticism_multiplier (score e) m) /\
    (forall input_data w,
       execute factors input_data w
       = execute (dict_set factors (severity_key sev) 1) input_data w) /\
    (forall (factors' : dict float) input_data w,
       dict_get factors' (severity_key sev) = None ->
       execute factors' input_data w
       = execute (dict_set factors' (severity_key sev) 1%float) input_data w).
Proof.
  intros factors sev Hk.
  destruct (missing_factor_generic factors sev Hk) as [Hadj Hexec].
  split; [|split].
  - intros m e Hs. rewrite (Hadj m e Hs). exact_arith.
    rewrite Qmult_1_r_eq. reflexivity.
  - exact Hexec.
  - intros factors' input_data w Hk'.
    destruct (missing_factor_generic factors' sev Hk') as [_ Hexec'].
    apply Hexec'.
Qed.

(** ** Grouping by category *)

Section Grouping.

Context {F : Type} `{PyFloat F}.
Implicit Types (evals es : list (CriterionEvaluation F)) (e : CriterionEvaluation F).
Implicit Types (bd : dict (CategoryBreakdown F)) (cb : CategoryBreakdown F).

Lemma group_by_category_snoc evals e :
  group_by_category (evals ++ [e]) = group_step (group_by_category evals) e.
Proof. unfold group_by_category. rewrite fold_left_app. reflexivity. Qed.

Lemma members_snoc c evals e :
  members c (evals ++ [e])
  = (members c evals ++ if String.eqb (category_of e) c then [e] else [])%list.
Proof.
  unfold members. rewrite filter_app. cbn.
  destruct (String.eqb (category_of e) c); reflexivity.
Qed.

Lemma nonempty_snoc {A : Type} (l : list A) (x : A) :
  nonempty (l ++ [x]) = Some (l ++ [x])%list.
Proof. destruct l; reflexivity. Qed.

(** The dictionary built by the first loop: a category is a key exactly
    when it has members, and is then bound to them; keys are unique. *)
Lemma group_by_category_spec evals :
  NoDup (dict_keys (group_by_category evals)) /\
  forall c, dict_get (group_by_category evals) c = nonempty (members c evals).
Proof.
  induction evals as [|e evals [IHnd IHget]] using rev_ind.
  - split; [constructor | reflexivity].
  - rewrite group_by_category_snoc. unfold group_step.
    set (d := group_by_category evals) in *.
    set (c0 := category_of e).
    assert (Hmem : dict_mem d c0 = match members c0 evals with [] => false | _ => true end).
    { unfold dict_mem. rewrite IHget. destruct (members c0 evals); reflexivity. }
    set (d1 := if negb (dict_mem d c0) then dict_set d c0 [] else d).
    assert (Hd1 : dict_get d1 c0 = Some (members c0 evals)).
    { subst d1. rewrite Hmem. destruct (members c0 evals) eqn:Em; cbn.
      - apply dict_get_set_same.
      - rewrite IHget, Em. reflexivity. }
    assert (Hd1o : forall c, c <> c0 -> dict_get d1 c = dict_get d c).
    { intros c Hc. subst d1. destruct (negb (dict_mem d c0)); [|reflexivity].
      apply dict_get_set_other; exact Hc. }
    assert (Hd1nd : NoDup (dict_keys d1)).
    { subst d1. destruct (dict_mem d c0) eqn:Ed; cbn [negb]; [exact IHnd|].
      rewrite dict_keys_set, Ed.
      apply NoDup_app; [exact IHnd | repeat constructor; intros [] |].
      intros k Hk [Ek|[]]. subst k.
      unfold dict_mem in Ed. destruct (dict_get d c0) eqn:Eg; [discriminate|].
      apply dict_get_None_keys in Eg. contradiction. }
    split.
    + rewrite dict_keys_set. unfold dict_mem. rewrite Hd1. exact Hd1nd.
    + intro c. rewrite members_snoc.
      destruct (String.eqb_spec c0 c) as [<-|Hne].
      * rewrite dict_get_set_same. unfold dict_get_default. rewrite Hd1.
        fold c0. rewrite String.eqb_refl. symmetry. apply nonempty_snoc.
      * rewrite dict_get_set_other by congruence.
        rewrite Hd1o by congruence.
        fold c0. destruct (String.eqb_spec c0 c); [contradiction|].
        rewrite app_nil_r. apply IHget.
Qed.

Lemma group_by_category_In evals c es :
  In (c, es) (group_by_category evals) -> es = members c evals /\ es <> [].
Proof.
  destruct (group_by_category_spec evals) as [Hnd Hget].
  intro Hin. apply dict_get_In in Hin; [|exact Hnd].
  rewrite Hget in Hin. destruct (members c evals) eqn:Em; [discriminate|].
  cbn in Hin. injection Hin as <-. split; [reflexivity | discriminate].
Qed.

(** Every evaluation lands in the bucket of its category. *)
Lemma members_category_of evals e :
  In e evals -> In e (members (category_of e) evals).
Proof.
  intro Hin. unfold members. apply filter_In. split; [exact Hin|].
  apply String.eqb_refl.
Qed.

Lemma category_entry_name (entry : string * list (CriterionEvaluation F)) c cb :
  category_entry entry = Ok (c, cb) ->
  fst entry = c /\ category_name cb = c /\ criteria cb = snd entry.
Proof.
  destruct entry as [c' es]. unfold category_entry, CategoryBreakdown_new.
  destruct (float_ge_le "total_weight" _ _ _), (float_ge_le "weighted_score" _ _ _);
    cbn; try discriminate.
  intros [= <- <-]. cbn. repeat split; reflexivity.
Qed.

(** The keys of the breakdown are those of the grouping, in its order. *)
Lemma breakdown_keys evals bd :
  _create_category_breakdown evals = Ok bd ->
  dict_keys bd = dict_keys (group_by_category evals).
Proof.
  unfold _create_category_breakdown. intro Hr.
  apply rmap_Ok in Hr. unfold dict_keys.
  induction Hr as [|x [c cb] xs ys Hx Hr IH]; cbn; [reflexivity|].
  apply category_entry_name in Hx. destruct Hx as (-> & _).
  rewrite IH. reflexivity.
Qed.

(** Each entry of the breakdown is the second loop's body on the members
    of its category. *)
Lemma breakdown_lookup evals bd c :
  _create_category_breakdown evals = Ok bd ->
  match members c evals with
  | [] => dict_get bd c = None
  | _ => exists cb, dict_get bd c = Some cb /\
                    category_entry (c, members c evals) = Ok (c, cb)
  end.
Proof.
  intro Hr.
  destruct (group_by_category_spec evals) as [Hnd Hget].
  pose proof (breakdown_keys evals Hr) as Hkeys.
  specialize (Hget c).
  destruct (members c evals) as [|e0 es0] eqn:Em; cbn in Hget.
  - apply dict_get_None_keys. rewrite Hkeys.
    apply dict_get_None_keys. exact Hget.
  - apply dict_get_Some_In in Hget.
    unfold _create_category_breakdown in Hr. apply rmap_Ok in Hr.
    assert (Hex : exists y, In y bd /\ category_entry (c, e0 :: es0) = Ok y).
    { clear Hkeys Hnd. induction Hr as [|x y xs ys Hx Hr IH]; [destruct Hget|].
      destruct Hget as [->|Hin].
      - exists y. split; [left; reflexivity | exact Hx].
      - destruct (IH Hin) as (y' & Hy' & Hc).
        exists y'. split; [right; exact Hy' | exact Hc]. }
    destruct Hex as ([c' cb] & Hin & Hc).
    pose proof (category_entry_name _ Hc) as (Hc' & _). cbn in Hc'. subst c'.
    exists cb. split; [|exact Hc].
    apply dict_get_In; [|exact Hin].
    rewrite Hkeys. exact Hnd.
Qed.

End Grouping.

(** ** Exact arithmetic: sums and field bounds *)

Lemma Qsum_nil : Qsum [] = 0.
Proof. reflexivity. Qed.

Lemma Qsum_cons (x : Q) (xs : list Q) : Qsum (x :: xs) = x + Qsum xs.
Proof. reflexivity. Qed.

Lemma fold_left_Qplus (xs : list Q) (a : Q) :
  fold_left Qplus xs a == a + Qsum xs.
Proof.
  unfold Qsum.
  revert a. induction xs as [|x xs IH]; intro a; cbn [fold_left fold_right].
  - lra.
  - rewrite IH. lra.
Qed.

Lemma py_sum_exact (xs : list Q) : py_sum xs == Qsum xs.
Proof. unfold py_sum. exact_arith. rewrite fold_left_Qplus. lra. Qed.

Lemma Qltb_comp (a a' b b' : Q) : a == a' -> b == b' -> Qltb a b = Qltb a' b'.
Proof. intros Ea Eb. unfold Qltb. rewrite Ea, Eb. reflexivity. Qed.

Lemma float_ge_le_Ok (name : string) (lo hi v : Q) :
  lo <= v -> v <= hi -> float_ge_le name lo hi v = Ok v.
Proof.
  intros Hlo Hhi. unfold float_ge_le. exact_arith.
  apply Qleb_true in Hlo, Hhi. rewrite Hlo, Hhi. reflexivity.
Qed.

Lemma float_ge_le_inv (name : string) (lo hi v v' : Q) :
  float_ge_le name lo hi v = Ok v' -> v' = v /\ lo <= v /\ v <= hi.
Proof.
  unfold float_ge_le. exact_arith.
  destruct (Qleb lo v) eqn:E1; cbn; [|discriminate].
  destruct (Qleb v hi) eqn:E2; cbn; [|discriminate].
  apply Qleb_true in E1, E2. intros [= <-]. auto.
Qed.

Lemma float_ge_le_above (name : string) (lo hi v : Q) :
  lo <= v -> hi < v ->
  float_ge_le name lo hi v
  = Err [{| loc := name; kind := less_than_equal; input_value := InFloat v |}].
Proof.
  intros Hlo Hhi. unfold float_ge_le. exact_arith.
  apply Qleb_true in Hlo. apply Qleb_false in Hhi. rewrite Hlo, Hhi. reflexivity.
Qed.

Lemma float_ge_le_below (name : string) (lo hi v : Q) :
  v < lo ->
  float_ge_le name lo hi v
  = Err [{| loc := name; kind := greater_than_equal; input_value := InFloat v |}].
Proof.
  intros Hlo. unfold float_ge_le. exact_arith.
  apply Qleb_false in Hlo. rewrite Hlo. reflexivity.
Qed.

Lemma float_gt_Ok (name : string) (lo v : Q) :
  lo < v -> float_gt name lo v = Ok v.
Proof.
  intros Hlo. unfold float_gt. exact_arith.
  apply Qltb_true in Hlo. rewrite Hlo. reflexivity.
Qed.

Lemma float_gt_below (name : string) (lo v : Q) :
  v <= lo ->
  float_gt name lo v
  = Err [{| loc := name; kind := greater_than; input_value := InFloat v |}].
Proof.
  intros Hlo. unfold float_gt. exact_arith.
  apply Qltb_false in Hlo. rewrite Hlo. reflexivity.
Qed.

Lemma int_ge_le_Ok {F : Type} (name : string) (lo hi v : Z) :
  (lo <= v <= hi)%Z -> int_ge_le (F := F) name lo hi v = Ok v.
Proof.
  intros [Hlo Hhi]. unfold int_ge_le.
  apply Z.leb_le in Hlo, Hhi. rewrite Hlo, Hhi. reflexivity.
Qed.

Lemma int_ge_le_below {F : Type} (name : string) (lo hi v : Z) :
  (v < lo)%Z ->
  int_ge_le (F := F) name lo hi v
  = Err [{| loc := name; kind := greater_than_equal; input_value := InInt v |}].
Proof.
  intros Hlo. unfold int_ge_le.
  apply Z.leb_gt in Hlo. rewrite Hlo. reflexivity.
Qed.

Lemma int_ge_le_above {F : Type} (name : string) (lo hi v : Z) :
  (lo <= v)%Z -> (hi < v)%Z ->
  int_ge_le (F := F) name lo hi v
  = Err [{| loc := name; kind := less_than_equal; input_value := InInt v |}].
Proof.
  intros Hlo Hhi. unfold int_ge_le.
  apply Z.leb_le in Hlo. apply Z.leb_gt in Hhi. rewrite Hlo, Hhi. reflexivity.
Qed.

(** ** Categories and their weights *)

Lemma members_empty (c : string) (evals : list (CriterionEvaluation Q)) :
  (forall e, In e evals -> category_of e <> c) -> members c evals = [].
Proof.
  unfold members. induction evals as [|e evals IH]; intro Hn; cbn.
  - reflexivity.
  - destruct (String.eqb_spec (category_of e) c) as [Ec|_].
    + destruct (Hn e); [left; reflexivity | exact Ec].
    + apply IH. intros e' Hin. apply Hn. right. exact Hin.
Qed.

Lemma category_weights_fit_check (evals : list (CriterionEvaluation Q)) :
  category_weights_fitb evals = true -> category_weights_fit evals.
Proof.
  unfold category_weights_fitb, category_weights_fit. intros Hb c.
  rewrite forallb_forall in Hb.
  destruct (in_dec string_dec c (map (fun e => category_of e) evals)) as [Hin|Hni].
  - apply in_map_iff in Hin. destruct Hin as (e & <- & Hin).
    apply Qleb_true. apply Hb. exact Hin.
  - unfold category_weight. rewrite members_empty; [cbn [map]; rewrite Qsum_nil; lra|].
    intros e Hin <-. apply Hni. apply in_map. exact Hin.
Qed.

Lemma Forall_members (P : CriterionEvaluation Q -> Prop) c evals :
  Forall P evals -> Forall P (members c evals).
Proof.
  intro Hf. apply Forall_forall. intros e Hin.
  apply filter_In in Hin. destruct Hin as [Hin _].
  rewrite Forall_forall in Hf. apply Hf. exact Hin.
Qed.

Lemma weights_nonneg (es : list (CriterionEvaluation Q)) :
  Forall valid_evaluation es -> 0 <= Qsum (map (fun e => weight e) es).
Proof.
  induction 1 as [|e es (Hw & _) _ IH]; cbn [map];
    rewrite ?Qsum_cons, ?Qsum_nil; lra.
Qed.

Lemma weighted_scores_bounds (es : list (CriterionEvaluation Q)) :
  Forall valid_evaluation es ->
  0 <= Qsum (map (fun e => score e * weight e) es) /\
  Qsum (map (fun e => score e * weight e) es)
  <= 100 * Qsum (map (fun e => weight e) es).
Proof.
  induction 1 as [|e es (Hw0 & Hw1 & Hs0 & Hs1) _ [IH0 IH1]];
    cbn [map]; rewrite ?Qsum_cons, ?Qsum_nil.
  - lra.
  - split; nra.
Qed.

(** A category weighs at most as much as the whole list. *)
Lemma category_weight_le_total c (evals : list (CriterionEvaluation Q)) :
  Forall valid_evaluation evals ->
  category_weight c evals <= Qsum (map (fun e => weight e) evals).
Proof.
  unfold category_weight, members.
  induction 1 as [|e es (Hw0 & _) Hf IH]; cbn [map filter].
  - lra.
  - destruct (String.eqb (category_of e) c); cbn [map];
      rewrite ?Qsum_cons; lra.
Qed.

Lemma Qdiv_between (a b : Q) :
  0 < b -> 0 <= a -> a <= 100 * b -> 0 <= a / b /\ a / b <= 100.
Proof.
  intros Hb Ha Hab. split.
  - apply Qle_shift_div_l; [exact Hb | lra].
  - apply Qle_shift_div_r; [exact Hb | exact Hab].
Qed.

(** ** The category breakdown, in exact arithmetic *)

Lemma category_entry_exact c (es : list (CriterionEvaluation Q)) cb :
  category_entry (c, es) = Ok (c, cb) ->
  let tw := Qsum (map (fun e => weight e) es) in
  let ws := Qsum (map (fun e => score e * weight e) es) in
  total_weight cb == tw /\
  (0 < tw -> weighted_score cb == round_decimal 2 (ws / tw)) /\
  (tw <= 0 -> weighted_score cb == 0).
Proof.
  intros Hc tw ws. unfold category_entry, CategoryBreakdown_new in Hc.
  pose proof (py_sum_exact (map (fun e => weight e) es)) as Etw.
  pose proof (py_sum_exact (map (fun e : CriterionEvaluation Q => score e *~ weight e)%py es)) as Ews.
  fold tw in Etw. change (fun e : CriterionEvaluation Q => (score e *~ weight e)%py)
    with (fun e : CriterionEvaluation Q => score e * weight e) in *.
  fold ws in Ews.
  set (tw' := py_sum (map (fun e => weight e) es)) in *.
  set (ws' := py_sum (map (fun e => score e * weight e) es)) in *.
  destruct (float_ge_le "total_weight" 0 1 tw') as [tw''|] eqn:E1;
    [|destruct (float_ge_le "weighted_score" _ _ _); discriminate].
  destruct (float_ge_le "weighted_score" 0 100 _) as [s''|] eqn:E2; [|discriminate].
  apply float_ge_le_inv in E1, E2. destruct E1 as (-> & _), E2 as (-> & _).
  cbn in Hc. injection Hc as <-. cbn [total_weight weighted_score].
  split; [exact Etw|]. exact_arith. unfold py_round. exact_arith.
  split; intro Ht.
  - assert (Hb : Qltb 0 tw' = true) by (apply Qltb_true; lra).
    rewrite Hb. rewrite (@round_decimal_comp 2 (ws' / tw') (ws / tw));
      [reflexivity|].
    rewrite Etw, Ews. reflexivity.
  - assert (Hb : Qltb 0 tw' = false) by (apply Qltb_false; lra).
    rewrite Hb. reflexivity.
Qed.

Lemma category_entry_total c (es : list (CriterionEvaluation Q)) :
  Forall valid_evaluation es ->
  Qsum (map (fun e => weight e) es) <= 1 ->
  exists cb, category_entry (c, es) = Ok (c, cb).
Proof.
  intros Hv H1. unfold category_entry, CategoryBreakdown_new.
  pose proof (py_sum_exact (map (fun e => weight e) es)) as Etw.
  pose proof (py_sum_exact (map (fun e : CriterionEvaluation Q => score e * weight e) es)) as Ews.
  pose proof (weights_nonneg Hv) as Hw0.
  pose proof (weighted_scores_bounds Hv) as [Hs0 Hs1].
  change (fun e : CriterionEvaluation Q => (score e *~ weight e)%py)
    with (fun e : CriterionEvaluation Q => score e * weight e).
  set (tw' := py_sum (map (fun e => weight e) es)) in *.
  set (ws' := py_sum (map (fun e => score e * weight e) es)) in *.
  rewrite (@float_ge_le_Ok "total_weight" 0 1 tw') by lra.
  assert (Hr : 0 <= (if (tw' >~ fromQ 0)%py then (ws' /~ tw')%py else fromQ 0)
               /\ (if (tw' >~ fromQ 0)%py then (ws' /~ tw')%py else fromQ 0) <= 100).
  { exact_arith. destruct (Qltb 0 tw') eqn:Eb.
    - apply Qltb_true in Eb. apply Qdiv_between; lra.
    - lra. }
  destruct Hr as [Hr0 Hr1].
  pose proof (round_decimal_2_range Hr0 Hr1) as [Hq0 Hq1].
  unfold py_round. exact_arith.
  rewrite float_ge_le_Ok by assumption.
  cbn. eexists; reflexivity.
Qed.

(** A breakdown is produced whenever no category outweighs 1. *)
Lemma breakdown_total (evals : list (CriterionEvaluation Q)) :
  Forall valid_evaluation evals -> category_weights_fit evals ->
  exists bd, _create_category_breakdown evals = Ok bd.
Proof.
  intros Hv Hfit. unfold _create_category_breakdown.
  apply rmap_total. apply Forall_forall. intros [c es] Hin.
  apply group_by_category_In in Hin. destruct Hin as [-> _].
  destruct (@category_entry_total c (members c evals)) as [cb Hcb].
  - apply Forall_members. exact Hv.
  - apply Hfit.
  - exists (c, cb). exact Hcb.
Qed.

(** ** The final score, in exact arithmetic *)

Lemma accumulate_exact (factors : dict Q) (m : Q) (evals : list (CriterionEvaluation Q)) :
  fst (accumulate factors m evals)
  == Qsum (map (fun e => adjusted_score factors m e * weight e) evals) /\
  snd (accumulate factors m evals) == Qsum (map (fun e => weight e) evals).
Proof.
  unfold accumulate. exact_arith.
  assert (Hgen : forall a b,
    fst (fold_left
           (fun acc e => (fst acc + adjusted_score factors m e * weight e,
                          snd acc + weight e)) evals (a, b))
    == a + Qsum (map (fun e => adjusted_score factors m e * weight e) evals) /\
    snd (fold_left
           (fun acc e => (fst acc + adjusted_score factors m e * weight e,
                          snd acc + weight e)) evals (a, b))
    == b + Qsum (map (fun e => weight e) evals)).
  { induction evals as [|e evals IH]; intros a b; cbn [fold_left map fst snd];
      rewrite ?Qsum_cons, ?Qsum_nil.
    - split; lra.
    - destruct (IH (a + adjusted_score factors m e * weight e) (b + weight e))
        as [-> ->]. split; lra. }
  destruct (Hgen 0 0) as [-> ->]. split; lra.
Qed.

Lemma clamp_exact (x y : Q) :
  x == y -> py_max 0 (py_min 100 x) == Qmax 0 (Qmin 100 y).
Proof.
  intro E. rewrite py_max_exact, py_min_exact, E. reflexivity.
Qed.

Lemma clamp_range (x : Q) :
  0 <= py_max 0 (py_min 100 x) /\ py_max 0 (py_min 100 x) <= 100.
Proof.
  rewrite py_max_exact, py_min_exact. split.
  - apply Q.le_max_l.
  - apply Q.max_lub; [lra | apply Q.le_min_l].
Qed.

Lemma clamped_score_exact (factors : dict Q) (input_data : ScoringInput Q) :
  clamped_score factors input_data
  == Qmax 0 (Qmin 100
       (spec_weighted_average factors (in_criticism_multiplier input_data)
          (in_evaluations input_data))).
Proof.
  unfold clamped_score, spec_weighted_average.
  destruct (accumulate_exact factors (in_criticism_multiplier input_data)
              (in_evaluations input_data)) as [Ews Etw].
  destruct (accumulate _ _ _) as [ws tw]. cbn [fst snd] in Ews, Etw.
  apply clamp_exact. exact_arith.
  rewrite (Qltb_comp (Qeq_refl 0) Etw).
  destruct (Qltb 0 _); [|reflexivity].
  rewrite Ews, Etw. reflexivity.
Qed.

Lemma clamped_score_range (factors : dict Q) (input_data : ScoringInput Q) :
  0 <= clamped_score factors input_data /\ clamped_score factors input_data <= 100.
Proof.
  unfold clamped_score. destruct (accumulate _ _ _) as [ws tw].
  apply clamp_range.
Qed.

(** On a valid input the grading result passes its own validation. *)
Lemma grading_value_Ok (factors : dict Q) (input_data : ScoringInput Q)
    (bd : dict (CategoryBreakdown Q)) (stamp : Z) :
  0 < in_criticism_multiplier input_data ->
  (0 <= in_self_grade input_data <= 100)%Z ->
  exists g,
    grading_value factors input_data bd stamp = Ok g /\
    final_score g
    = spec_final_score factors (in_criticism_multiplier input_data)
        (in_evaluations input_data) /\
    self_grade g = in_self_grade input_data /\
    criticism_multiplier g = in_criticism_multiplier input_data /\
    evaluations g = in_evaluations input_data /\
    breakdown g = bd.
Proof.
  intros Hm Hsg. unfold grading_value, GradingResult_new.
  destruct (clamped_score_range factors input_data) as [Hc0 Hc1].
  pose proof (clamped_score_exact factors input_data) as Ec.
  set (final := clamped_score factors input_data) in *.
  destruct (round_decimal_2_range Hc0 Hc1) as [Hr0 Hr1].
  rewrite int_ge_le_Ok by exact Hsg.
  unfold py_round. exact_arith.
  rewrite float_ge_le_Ok by assumption.
  rewrite float_gt_Ok by exact Hm.
  unfold rbind, validate_final_score. exact_arith.
  apply Qleb_true in Hr0, Hr1. rewrite Hr0, Hr1. cbn [andb negb].
  eexists. split; [reflexivity|]. cbn.
  repeat split.
  unfold py_round, spec_final_score. exact_arith.
  rewrite round_decimal_2_idem. apply round_decimal_comp. exact Ec.
Qed.

(** ** The engine on valid input *)

Lemma execute_value_success (factors : dict Q) (input_data : ScoringInput Q) (w : World Q) :
  valid_input input_data ->
  category_weights_fit (in_evaluations input_data) ->
  exists bd g elapsed,
    _create_category_breakdown (in_evaluations input_data) = Ok bd /\
    execute_value factors input_data w = success_value factors input_data g elapsed /\
    final_score g
    = spec_final_score factors (in_criticism_multiplier input_data)
        (in_evaluations input_data) /\
    self_grade g = in_self_grade input_data /\
    criticism_multiplier g = in_criticism_multiplier input_data /\
    evaluations g = in_evaluations input_data /\
    breakdown g = bd.
Proof.
  intros (Hv & Hm & Hsg) Hfit.
  destruct (breakdown_total Hv Hfit) as [bd Hbd].
  destruct (@grading_value_Ok factors input_data bd (wall_clock w (S (ticks w))) Hm Hsg)
    as (g & Hg & Hrest).
  exists bd, g. eexists. split; [exact Hbd|].
  split; [|exact Hrest].
  unfold execute_value. rewrite Hbd, Hg. reflexivity.
Qed.

Lemma spec_final_score_range (factors : dict Q) (m : Q) evals :
  0 <= spec_final_score factors m evals /\ spec_final_score factors m evals <= 100.
Proof.
  unfold spec_final_score. apply round_decimal_2_range.
  - apply Q.le_max_l.
  - apply Q.max_lub; [lra | apply Q.le_min_l].
Qed.

(** With no weight at all, no category outweighs 1 and the score is 0. *)
Lemma zero_weight_fits (evals : list (CriterionEvaluation Q)) :
  Forall valid_evaluation evals ->
  Qsum (map (fun e => weight e) evals) == 0 ->
  category_weights_fit evals.
Proof.
  intros Hv H0 c. pose proof (category_weight_le_total c Hv). lra.
Qed.

Lemma spec_final_score_zero_weight (factors : dict Q) (m : Q) evals :
  Qsum (map (fun e => weight e) evals) == 0 ->
  spec_final_score factors m evals == 0.
Proof.
  intro H0. unfold spec_final_score, spec_weighted_average.
  assert (Hb : Qltb 0 (Qsum (map (fun e => weight e) evals)) = false)
    by (apply Qltb_false; lra).
  rewrite Hb. reflexivity.
Qed.



(** ** The breakdown returned by the engine *)


(** ** Rejected inputs *)

Lemma severity_literal_other {F : Type} (name s : string) :
  ~ is_severity s ->
  severity_literal (F := F) name s
  = Err [{| loc := name; kind := literal_error; input_value := InStr s |}].
Proof.
  unfold is_severity, severity_literal. intro Hn.
  destruct (String.eqb_spec s "critical"); [tauto|].
  destruct (String.eqb_spec s "important"); [tauto|].
  destruct (String.eqb_spec s "minor"); [tauto|].
  destruct (String.eqb_spec s "strength"); [tauto|].
  reflexivity.
Qed.

(** What a model reports when one of its fields fails. *)
Lemma CriterionEvaluation_new_errors (a : CriterionEvaluationArgs Q) (d : ErrorDetail Q) :
  In d (field_errors (rbind (float_ge_le "weight" 0 1 (arg_weight a)) validate_weight))
  \/ In d (field_errors (rbind (float_ge_le "score" 0 100 (arg_score a)) validate_score))
  \/ In d (field_errors (severity_literal (F := Q) "severity" (arg_severity a))) ->
  exists es, CriterionEvaluation_new a = Err (ValidationError "CriterionEvaluation" es)
             /\ In d es.
Proof.
  unfold CriterionEvaluation_new.
  set (fw := rbind (float_ge_le "weight" 0 1 (arg_weight a)) validate_weight).
  set (fs := rbind (float_ge_le "score" 0 100 (arg_score a)) validate_score).
  set (fv := severity_literal "severity" (arg_severity a)).
  intro Hin.
  assert (Hall : In d (field_errors fw ++ field_errors fs ++ field_errors fv)).
  { rewrite !in_app_iff. tauto. }
  destruct fw, fs, fv; cbn [field_errors] in *;
    try (eexists; split; [reflexivity | exact Hall]).
  destruct Hall.
Qed.

(** C6.  A score or a weight outside its bounds, a severity that is none of
    the four, a multiplier that is not positive and a self-grade outside
    0..100 are each refused when the input is built: the constructor returns
    a validation error that names the offending field and carries the value
    that was given, and no input object, clamped or otherwise, is made. *)
Theorem out_of_range_input_rejected :
  (forall a : CriterionEvaluationArgs Q,
      arg_score a < 0 \/ 100 < arg_score a ->
      exists es k,
        CriterionEvaluation_new a = Err (ValidationError "CriterionEvaluation" es) /\
        In {| loc := "score"; kind := k; input_value := InFloat (arg_score a) |} es) /\
  (forall a : CriterionEvaluationArgs Q,
      arg_weight a < 0 \/ 1 < arg_weight a ->
      exists es k,
        CriterionEvaluation_new a = Err (ValidationError "CriterionEvaluation" es) /\
        In {| loc := "weight"; kind := k; input_value := InFloat (arg_weight a) |} es) /\
  (forall a : CriterionEvaluationArgs Q,
      ~ is_severity (arg_severity a) ->
      exists es,
        CriterionEvaluation_new a = Err (ValidationError "CriterionEvaluation" es) /\
        In {| loc := "severity"; kind := literal_error;
              input_value := InStr (arg_severity a) |} es) /\
  (forall (evals : list (CriterionEvaluation Q)) (m : Q) (sg : Z),
      m <= 0 ->
      exists es,
        ScoringInput_new evals m sg = Err (ValidationError "ScoringInput" es) /\
        In {| loc := "criticism_multiplier"; kind := greater_than;
              input_value := InFloat m |} es) /\
  (forall (evals : list (CriterionEvaluation Q)) (m : Q) (sg : Z),
      (sg < 0 \/ 100 < sg)%Z ->
      exists es k,
        ScoringInput_new evals m sg = Err (ValidationError "ScoringInput" es) /\
        In {| loc := "self_grade"; kind := k; input_value := InInt sg |} es).
Proof.
  split; [|split; [|split; [|split]]].
  - intros a [Hlo|Hhi].
    + destruct (@CriterionEvaluation_new_errors a
                  {| loc := "score"; kind := greater_than_equal;
                     input_value := InFloat (arg_score a) |}) as (es & He & Hin).
      { right; left. rewrite float_ge_le_below by exact Hlo. left; reflexivity. }
      exists es, greater_than_equal. split; assumption.
    + destruct (@CriterionEvaluation_new_errors a
                  {| loc := "score"; kind := less_than_equal;
                     input_value := InFloat (arg_score a) |}) as (es & He & Hin).
      { right; left. rewrite float_ge_le_above by lra. left; reflexivity. }
      exists es, less_than_equal. split; assumption.
  - intros a [Hlo|Hhi].
    + destruct (@CriterionEvaluation_new_errors a
                  {| loc := "weight"; kind := greater_than_equal;
                     input_value := InFloat (arg_weight a) |}) as (es & He & Hin).
      { left. rewrite float_ge_le_below by exact Hlo. left; reflexivity. }
      exists es, greater_than_equal. split; assumption.
    + destruct (@CriterionEvaluation_new_errors a
                  {| loc := "weight"; kind := less_than_equal;
                     input_value := InFloat (arg_weight a) |}) as (es & He & Hin).
      { left. rewrite float_ge_le_above by lra. left; reflexivity. }
      exists es, less_than_equal. split; assumption.
  - intros a Hs.
    apply CriterionEvaluation_new_errors.
    right; right. rewrite severity_literal_other by exact Hs. left; reflexivity.
  - intros evals m sg Hm. unfold ScoringInput_new.
    rewrite float_gt_below by exact Hm.
    destruct (int_ge_le "self_grade" 0 100 sg);
      (eexists; split; [reflexivity | left; reflexivity]).
  - intros evals m sg Hsg. unfold ScoringInput_new.
    destruct Hsg as [Hlo|Hhi].
    + rewrite (@int_ge_le_below Q) by exact Hlo.
      destruct (float_gt "criticism_multiplier" 0 m);
        (eexists; exists greater_than_equal; split; [reflexivity|]);
        cbn [field_errors]; rewrite ?in_app_iff; cbn; tauto.
    + rewrite (@int_ge_le_above Q) by lia.
      destruct (float_gt "criticism_multiplier" 0 m);
        (eexists; exists less_than_equal; split; [reflexivity|]);
        cbn [field_errors]; rewrite ?in_app_iff; cbn; tauto.
Qed.

(** ** Concrete runs *)

(** Closes the validity side conditions of a concrete input. *)
Ltac check_valid :=
  repeat match goal with
         | |- valid_input _ => unfold valid_input; cbn
         | |- valid_evaluation _ => unfold valid_evaluation; cbn
         | |- Forall _ _ => constructor
         | |- _ /\ _ => split
         end;
  try lra; try lia.

(** C8.  One evaluation of score 90, severity minor and weight 1.0 under
    the multiplier 1.5: the dampened score is 85.5, the penalty 1.45, and
    the final score 84.05, in exact arithmetic and, for the dampened and the
    final score, in binary64. *)
Theorem strict_example_final_score :
  let e := evaluation (F := Q) "test" minor 1 90 in
  score e * spec_severity_factor (severity e) == 85.5 /\
  (100 - 85.5) * (1.5 - 1) * 0.2 == 1.45 /\
  adjusted_score default_severity_factors 1.5 e == 85.5 - 1.45 /\
  (forall w,
      final_score_of
        (fst (execute default_severity_factors (scoring_input [e] 1.5 95) w))
      = Some 84.05) /\
  (score (evaluation (F := float) "test" minor 1 90) * 0.95 = 85.5)%float /\
  (forall w,
      final_score_of
        (fst (execute (F := float) default_severity_factors
                (scoring_input [evaluation "test" minor 1 90] 1.5 95) w))
      = Some 84.05%float).
Proof.
  cbv zeta. split; [|split; [|split; [|split; [|split]]]].
  - cbn. lra.
  - lra.
  - vm_compute. reflexivity.
  - intro w. rewrite execute_returns. vm_compute. reflexivity.
  - vm_compute. reflexivity.
  - intro w. rewrite execute_returns. vm_compute. reflexivity.
Qed.

(** ** Inputs the engine refuses *)



(** ** The theorems at concrete inputs *)

Lemma adjusted_score_default_witness :
  let e := evaluation (F := Q) "test" minor 1 90 in
  (0 <= score e /\ score e <= 100 /\ 0 < 1.5) /\
  adjusted_score default_severity_factors 1.5 e
  == Qmax 0 (85.5 - (100 - 85.5) * (1.5 - 1) * 0.2) /\
  0 <= adjusted_score default_severity_factors 1.5 e /\
  adjusted_score default_severity_factors 1.5 e <= 100.
Proof.
  cbv zeta.
  assert (H0 : 0 <= score (evaluation (F := Q) "test" minor 1 90)) by (cbn; lra).
  assert (H100 : score (evaluation (F := Q) "test" minor 1 90) <= 100) by (cbn; lra).
  assert (Hm : 0 < 1.5) by lra.
  destruct (@adjusted_score_default (evaluation "test" minor 1 90) 1.5 H0 H100 Hm)
    as (_ & Hgt & _ & _ & Hlo & Hhi).
  split; [repeat split; assumption|].
  split; [|split; assumption].
  rewrite Hgt by lra.
  apply Q.max_compat; [reflexivity | cbn; lra].
Defined.

Lemma adjusted_score_monotone_witness :
  let e := evaluation (F := Q) "test" minor 1 90 in
  (0 <= score e /\ score e <= 100 /\
   score e * spec_severity_factor (severity e) < 100 /\ 1.2 <= 1.5) /\
  adjusted_score default_severity_factors 1.5 e
  <= adjusted_score default_severity_factors 1.2 e.
Proof.
  cbv zeta.
  assert (H0 : 0 <= score (evaluation (F := Q) "test" minor 1 90)) by (cbn; lra).
  assert (H100 : score (evaluation (F := Q) "test" minor 1 90) <= 100) by (cbn; lra).
  assert (Hs : score (evaluation (F := Q) "test" minor 1 90)
               * spec_severity_factor (severity (evaluation (F := Q) "test" minor 1 90))
               < 100) by (cbn; lra).
  assert (Hm : 1.2 <= 1.5) by lra.
  split; [repeat split; assumption|].
  apply (proj1 (@adjusted_score_monotone _ 1.2 1.5 H0 H100 Hs Hm)). lra.
Defined.

Lemma missing_severity_factor_witness :
  dict_get [("critical", 0.5 : Q)] (severity_key minor) = None /\
  adjusted_score [("critical", 0.5)] 1.5 (evaluation "test" minor 1 90)
  = _apply_criticism_multiplier (F := Q) 90 1.5.
Proof.
  assert (Hk : dict_get [("critical", 0.5)] (severity_key minor) = None)
    by reflexivity.
  split; [exact Hk|].
  destruct (@missing_severity_factor_is_one [("critical", 0.5)] minor Hk) as [Hadj _].
  exact (Hadj 1.5 (evaluation "test" minor 1 90) eq_refl).
Defined.

Lemma sample_input_valid : valid_input sample_input.
Proof. check_valid. Qed.

Lemma sample_input_fits : category_weights_fit (in_evaluations (sample_input (F := Q))).
Proof. apply category_weights_fit_check. reflexivity. Qed.




Lemma out_of_range_input_witness :
  100 < arg_score (evaluation_args (F := Q) "test" "minor" 1 150) /\
  exists es k,
    CriterionEvaluation_new (evaluation_args (F := Q) "test" "minor" 1 150)
    = Err (ValidationError "CriterionEvaluation" es) /\
    In {| loc := "score"; kind := k; input_value := InFloat 150 |} es.
Proof.
  assert (Hs : 100 < arg_score (evaluation_args (F := Q) "test" "minor" 1 150))
    by (cbn; lra).
  split; [exact Hs|].
  exact (proj1 out_of_range_input_rejected
           (evaluation_args "test" "minor" 1 150) (or_intror Hs)).
Defined.

(** * Further properties of the engine *)

(** ** Rounding is monotone *)

Lemma round_half_even_mono (p q : Q) :
  p <= q -> (round_half_even p <= round_half_even q)%Z.
Proof.
  intro Hpq.
  pose proof (Qfloor_resp_le _ _ Hpq) as Hf.
  pose proof (round_half_even_floor p) as [_ Hp].
  pose proof (round_half_even_floor q) as [Hq _].
  destruct (Z.eq_dec (Qfloor p) (Qfloor q)) as [E|N]; [|lia].
  unfold round_half_even. rewrite E.
  destruct (p - inject_Z (Qfloor q) ?= 1 # 2) eqn:Ep;
    [apply Qeq_alt in Ep | apply Qlt_alt in Ep | apply Qgt_alt in Ep];
    (destruct (q - inject_Z (Qfloor q) ?= 1 # 2) eqn:Eq;
     [apply Qeq_alt in Eq | apply Qlt_alt in Eq | apply Qgt_alt in Eq]);
    try (destruct (Z.even (Qfloor q))); try lia; lra.
Qed.

Lemma round_decimal_mono (n : nat) (p q : Q) :
  p <= q -> round_decimal n p <= round_decimal n q.
Proof.
  intro Hpq. unfold round_decimal.
  assert (Hm : (round_half_even (p * (Z.pos (scale10 n) # 1))
                <= round_half_even (q * (Z.pos (scale10 n) # 1)))%Z).
  { apply round_half_even_mono. apply Qmult_le_compat_r; [exact Hpq|].
    unfold Qle; cbn; lia. }
  unfold Qle; cbn [Qnum Qden].
  apply Z.mul_le_mono_nonneg_r; [lia | exact Hm].
Qed.

(** ** The final score of a successful run *)

Lemma grading_value_final_score (factors : dict Q) (input_data : ScoringInput Q)
    (bd : dict (CategoryBreakdown Q)) (stamp : Z) (g : GradingResult Q) :
  grading_value factors input_data bd stamp = Ok g ->
  final_score g
  = spec_final_score factors (in_criticism_multiplier input_data)
      (in_evaluations input_data).
Proof.
  unfold grading_value, GradingResult_new. intro Hg.
  destruct (int_ge_le "self_grade" 0 100 _) as [sg'|]; cycle 1.
  { destruct (rbind _ _), (float_gt _ _ _); discriminate. }
  destruct (rbind _ validate_final_score) as [s'|] eqn:Es; cycle 1.
  { destruct (float_gt _ _ _); discriminate. }
  destruct (float_gt _ _ _) as [c'|]; [|discriminate].
  injection Hg as <-. cbn [final_score].
  unfold rbind in Es.
  destruct (float_ge_le "final_score" 0 100 _) as [v|] eqn:Ev; [|discriminate].
  apply float_ge_le_inv in Ev. destruct Ev as (-> & _).
  unfold validate_final_score in Es.
  destruct (negb _); [discriminate|]. injection Es as <-.
  unfold py_round, spec_final_score. exact_arith.
  rewrite round_decimal_2_idem. apply round_decimal_comp.
  apply clamped_score_exact.
Qed.

(** Whatever [execute] returns as a grading result carries the final score
    of the specification. *)
Lemma execute_output_final_score (factors : dict Q) (input_data : ScoringInput Q)
    (w : World Q) r g :
  fst (execute factors input_data w) = Ok r ->
  output r = Some g ->
  final_score g
  = spec_final_score factors (in_criticism_multiplier input_data)
      (in_evaluations input_data).
Proof.
  rewrite execute_returns. intros [= <-]. unfold execute_value.
  destruct (_create_category_breakdown _) as [bd|e]; [|discriminate].
  destruct (grading_value _ _ _ _) as [g'|e] eqn:Eg; [|discriminate].
  cbn. intros [= <-]. exact (grading_value_final_score _ _ _ _ Eg).
Qed.

(** ** The adjusted scores stay in range *)

Lemma apply_criticism_multiplier_range (s m : Q) :
  0 <= s -> s <= 100 ->
  0 <= _apply_criticism_multiplier s m /\ _apply_criticism_multiplier s m <= 100.
Proof.
  intros H0 H100.
  destruct (apply_criticism_multiplier_cases s m) as (C1 & C2 & C3 & C4).
  destruct (Qlt_le_dec s 100) as [Hlt|Hge].
  - destruct (Q_dec m 1) as [[Hl|Hg]|He].
    + rewrite (C3 Hlt Hl), py_min_exact. split.
      * apply Q.min_glb; [lra | nra].
      * apply Q.le_min_l.
    + rewrite (C2 Hlt Hg), py_max_exact. split.
      * apply Q.le_max_l.
      * apply Q.max_lub; [lra | nra].
    + rewrite (C4 Hlt He). split; assumption.
  - rewrite (C1 Hge). split; assumption.
Qed.

Lemma adjusted_score_default_range (m : Q) (e : CriterionEvaluation Q) :
  valid_evaluation e ->
  0 <= adjusted_score default_severity_factors m e /\
  adjusted_score default_severity_factors m e <= 100.
Proof.
  intros (_ & _ & Hs0 & Hs1).
  pose proof (spec_severity_factor_range (severity e)) as [Hf0 Hf1].
  unfold adjusted_score. rewrite default_factor_lookup. exact_arith.
  apply apply_criticism_multiplier_range; nra.
Qed.

Lemma adjusted_sum_bounds (m : Q) (es : list (CriterionEvaluation Q)) :
  Forall valid_evaluation es ->
  0 <= Qsum (map (fun e => adjusted_score default_severity_factors m e * weight e) es) /\
  Qsum (map (fun e => adjusted_score default_severity_factors m e * weight e) es)
  <= 100 * Qsum (map (fun e => weight e) es).
Proof.
  induction 1 as [|e es He _ [IH0 IH1]]; cbn [map]; rewrite ?Qsum_cons, ?Qsum_nil.
  - lra.
  - destruct (adjusted_score_default_range m He) as [Ha0 Ha1].
    destruct He as (Hw0 & Hw1 & _). split; nra.
Qed.

Lemma spec_weighted_average_range (m : Q) (es : list (CriterionEvaluation Q)) :
  Forall valid_evaluation es ->
  0 <= spec_weighted_average default_severity_factors m es /\
  spec_weighted_average default_severity_factors m es <= 100.
Proof.
  intro Hv. unfold spec_weighted_average.
  destruct (adjusted_sum_bounds m Hv) as [H0 H1].
  destruct (Qltb 0 _) eqn:Eb.
  - apply Qltb_true in Eb. apply Qdiv_between; assumption.
  - lra.
Qed.

(** ** The shape of what [execute] returns *)

Section ExecuteShape.

Context {F : Type} `{PyFloat F}.
Implicit Types (factors : dict F) (input_data : ScoringInput F).
Implicit Types (w : World F) (g : GradingResult F).

Lemma GradingResult_new_fields sid sg fs m evals bd msg now ptime g :
  GradingResult_new (F := F) sid sg fs m evals bd msg now ptime = Ok g ->
  self_grade g = sg /\ criticism_multiplier g = m /\
  breakdown g = bd /\ evaluations g = evals /\ comparison_message g = msg /\
  submission_id g = sid /\ timestamp g = now /\ processing_time_seconds g = ptime.
Proof.
  unfold GradingResult_new, int_ge_le, float_gt.
  destruct (negb (0 <=? sg)%Z); [destruct (rbind _ _), (negb _); discriminate|].
  destruct (negb (sg <=? 100)%Z); [destruct (rbind _ _), (negb _); discriminate|].
  destruct (rbind _ _); [|destruct (negb _); discriminate].
  destruct (negb _); [discriminate|].
  intros [= <-]. cbn. repeat split; reflexivity.
Qed.

Lemma GradingResult_new_raises sid sg fs m evals bd msg now ptime e :
  GradingResult_new (F := F) sid sg fs m evals bd msg now ptime = Err e ->
  exception_type e = "ValidationError".
Proof.
  unfold GradingResult_new.
  destruct (int_ge_le _ _ _ _), (rbind _ _), (float_gt _ _ _);
    try discriminate; intros [= <-]; reflexivity.
Qed.

Lemma category_entry_raises entry e :
  category_entry (F := F) entry = Err e -> exception_type e = "ValidationError".
Proof.
  destruct entry as [c es]. unfold category_entry, CategoryBreakdown_new.
  destruct (float_ge_le "total_weight" _ _ _), (float_ge_le "weighted_score" _ _ _);
    cbn; try discriminate; intros [= <-]; reflexivity.
Qed.

Lemma rmap_Err {E A B : Type} (f : A -> result E B) (xs : list A) (e : E) :
  rmap f xs = Err e -> exists x, In x xs /\ f x = Err e.
Proof.
  induction xs as [|x xs IH]; cbn; [discriminate|].
  destruct (f x) as [y|e'] eqn:Ex; cbn.
  - destruct (rmap f xs) as [ys|e'']; cbn; [discriminate|].
    intros [= <-]. destruct IH as [x' [Hin Hx']]; [reflexivity|].
    exists x'. split; [right|]; assumption.
  - intros [= <-]. exists x. split; [left; reflexivity | exact Ex].
Qed.

Lemma breakdown_raises (evals : list (CriterionEvaluation F)) e :
  _create_category_breakdown evals = Err e ->
  exception_type e = "ValidationError".
Proof.
  unfold _create_category_breakdown. intro Hr.
  apply rmap_Err in Hr. destruct Hr as (x & _ & Hx).
  exact (category_entry_raises _ Hx).
Qed.

(** The three ways [execute] can end. *)
Lemma execute_value_cases factors input_data w :
  (exists e,
      exception_type e = "ValidationError" /\
      execute_value factors input_data w = failure_value e) \/
  (exists bd g,
      _create_category_breakdown (in_evaluations input_data) = Ok bd /\
      grading_value factors input_data bd (wall_clock w (S (ticks w))) = Ok g /\
      execute_value factors input_data w
      = success_value factors input_data g
          (fsub (monotonic w (S (S (ticks w)))) (monotonic w (ticks w)))).
Proof.
  unfold execute_value.
  destruct (_create_category_breakdown _) as [bd|e] eqn:Eb.
  - destruct (grading_value _ _ _ _) as [g|e] eqn:Eg.
    + right. exists bd, g.
      split; [reflexivity|]. split; [exact Eg | reflexivity].
    + left. exists e. split; [|reflexivity].
      exact (GradingResult_new_raises _ _ _ _ _ _ _ _ _ Eg).
  - left. exists e. split; [|reflexivity]. exact (breakdown_raises _ Eb).
Qed.

Lemma execute_output_breakdown factors input_data w r g :
  fst (execute factors input_data w) = Ok r ->
  output r = Some g ->
  _create_category_breakdown (in_evaluations input_data) = Ok (breakdown g) /\
  evaluations g = in_evaluations input_data.
Proof.
  rewrite execute_returns. intros [= <-].
  destruct (execute_value_cases factors input_data w)
    as [(e & _ & ->) | (bd & g' & Hb & Hg & ->)]; cbn; [discriminate|].
  intros [= <-].
  apply GradingResult_new_fields in Hg.
  destruct Hg as (_ & _ & -> & -> & _). split; [exact Hb | reflexivity].
Qed.

End ExecuteShape.


Lemma adjusted_score_default_antitone (m1 m2 : Q) (e : CriterionEvaluation Q) :
  valid_evaluation e -> m1 <= m2 ->
  adjusted_score default_severity_factors m2 e
  <= adjusted_score default_severity_factors m1 e.
Proof.
  intros (_ & _ & Hs0 & Hs1) Hm.
  pose proof (spec_severity_factor_range (severity e)) as [Hf0 Hf1].
  unfold adjusted_score. rewrite default_factor_lookup. exact_arith.
  set (s := score e * spec_severity_factor (severity e)).
  assert (H0 : 0 <= s) by (subst s; nra).
  destruct (Qlt_le_dec s 100) as [Hlt|Hge].
  - apply apply_criticism_multiplier_antitone; assumption.
  - destruct (apply_criticism_multiplier_cases s m1) as (A1 & _).
    destruct (apply_criticism_multiplier_cases s m2) as (A2 & _).
    rewrite (A1 Hge), (A2 Hge). apply Qle_refl.
Qed.

Lemma spec_final_score_antitone (m1 m2 : Q) (es : list (CriterionEvaluation Q)) :
  Forall valid_evaluation es -> m1 <= m2 ->
  spec_final_score default_severity_factors m2 es
  <= spec_final_score default_severity_factors m1 es.
Proof.
  intros Hv Hm. unfold spec_final_score.
  apply round_decimal_mono, Q.max_le_compat_l, Q.min_le_compat_l.
  unfold spec_weighted_average.
  assert (Hs : Qsum (map (fun e => adjusted_score default_severity_factors m2 e * weight e) es)
               <= Qsum (map (fun e => adjusted_score default_severity_factors m1 e * weight e) es)).
  { induction Hv as [|e es He _ IH]; cbn [map]; rewrite ?Qsum_cons, ?Qsum_nil.
    - lra.
    - pose proof (adjusted_score_default_antitone He Hm) as Ha.
      destruct He as (Hw0 & _). nra. }
  destruct (Qltb 0 _) eqn:Eb; [|lra].
  apply Qltb_true in Eb.
  apply Qle_shift_div_l; [exact Eb|].
  unfold Qdiv. rewrite <- Qmult_assoc, (Qmult_comm (/ _)), Qmult_inv_r by lra.
  lra.
Qed.

(** X2.  A stricter multiplier never raises the final score: for the same
    valid evaluations and the default factors, the final score of a run with
    the larger multiplier is at most that of a run with the smaller one. *)
Theorem stricter_multiplier_never_raises_final_score
    (evals : list (CriterionEvaluation Q)) (m1 m2 : Q) (sg1 sg2 : Z)
    (w1 w2 : World Q) r1 r2 g1 g2 :
  Forall valid_evaluation evals ->
  m1 <= m2 ->
  fst (execute default_severity_factors
         {| in_evaluations := evals; in_criticism_multiplier := m1;
            in_self_grade := sg1 |} w1) = Ok r1 ->
  output r1 = Some g1 ->
  fst (execute default_severity_factors
         {| in_evaluations := evals; in_criticism_multiplier := m2;
            in_self_grade := sg2 |} w2) = Ok r2 ->
  output r2 = Some g2 ->
  final_score g2 <= final_score g1.
Proof.
  intros Hv Hm Hr1 Hg1 Hr2 Hg2.
  rewrite (execute_output_final_score _ _ _ Hr1 Hg1).
  rewrite (execute_output_final_score _ _ _ Hr2 Hg2).
  cbn [in_criticism_multiplier in_evaluations].
  apply spec_final_score_antitone; assumption.
Qed.

Lemma criticism_multiplier_mono (sg1 sg2 : Z) :
  (sg1 <= sg2)%Z ->
  _calculate_criticism_multiplier (F := Q) sg1
  <= _calculate_criticism_multiplier (F := Q) sg2.
Proof.
  intro Hle. unfold _calculate_criticism_multiplier. exact_arith.
  destruct (Z.geb_spec sg1 90), (Z.geb_spec sg2 90); try lia; try lra;
  destruct (Z.geb_spec sg1 80), (Z.geb_spec sg2 80); try lia; try lra;
  destruct (Z.geb_spec sg1 70), (Z.geb_spec sg2 70); try lia; try lra;
  destruct (Z.geb_spec sg1 60), (Z.geb_spec sg2 60); try lia; lra.
Qed.

(** X3.  With the multiplier the orchestrator derives from the self-grade,
    a higher self-grade never gives a higher final score on the same valid
    evaluations. *)
Theorem higher_self_grade_never_raises_final_score
    (evals : list (CriterionEvaluation Q)) (sg1 sg2 : Z)
    (w1 w2 : World Q) r1 r2 g1 g2 :
  Forall valid_evaluation evals ->
  (sg1 <= sg2)%Z ->
  fst (execute default_severity_factors
         {| in_evaluations := evals;
            in_criticism_multiplier := _calculate_criticism_multiplier sg1;
            in_self_grade := sg1 |} w1) = Ok r1 ->
  output r1 = Some g1 ->
  fst (execute default_severity_factors
         {| in_evaluations := evals;
            in_criticism_multiplier := _calculate_criticism_multiplier sg2;
            in_self_grade := sg2 |} w2) = Ok r2 ->
  output r2 = Some g2 ->
  final_score g2 <= final_score g1.
Proof.
  intros Hv Hsg Hr1 Hg1 Hr2 Hg2.
  rewrite (execute_output_final_score _ _ _ Hr1 Hg1).
  rewrite (execute_output_final_score _ _ _ Hr2 Hg2).
  cbn [in_criticism_multiplier in_evaluations].
  apply spec_final_score_antitone; [exact Hv|].
  apply criticism_multiplier_mono. exact Hsg.
Qed.

(** X4.  The input the orchestrator builds always passes the validation of
    [ScoringInput]: for a self-grade of 0..100 the derived multiplier is
    positive, in exact and in binary64 arithmetic. *)
Theorem orchestrator_scoring_input_validates :
  (forall (evals : list (CriterionEvaluation Q)) (sg : Z),
      (0 <= sg <= 100)%Z ->
      ScoringInput_new evals (_calculate_criticism_multiplier sg) sg
      = Ok {| in_evaluations := evals;
              in_criticism_multiplier := _calculate_criticism_multiplier sg;
              in_self_grade := sg |}) /\
  (forall (evals : list (CriterionEvaluation float)) (sg : Z),
      (0 <= sg <= 100)%Z ->
      ScoringInput_new evals (_calculate_criticism_multiplier sg) sg
      = Ok {| in_evaluations := evals;
              in_criticism_multiplier := _calculate_criticism_multiplier sg;
              in_self_grade := sg |}).
Proof.
  split; intros evals sg Hsg; unfold ScoringInput_new;
    rewrite int_ge_le_Ok by exact Hsg.
  - rewrite float_gt_Ok; [reflexivity|].
    unfold _calculate_criticism_multiplier. exact_arith.
    repeat match goal with |- context [(?a >=? ?b)%Z] => destruct (a >=? b)%Z end;
      lra.
  - assert (Hpos : float_gt "criticism_multiplier" 0
                     (_calculate_criticism_multiplier (F := float) sg)
                   = Ok (_calculate_criticism_multiplier sg)).
    { unfold _calculate_criticism_multiplier.
      repeat match goal with |- context [(?a >=? ?b)%Z] => destruct (a >=? b)%Z end;
        vm_compute; reflexivity. }
    rewrite Hpos. reflexivity.
Qed.


(** ** When the engine fails *)

Lemma forallb_false_exists {A : Type} (f : A -> bool) (xs : list A) :
  forallb f xs = false -> exists x, In x xs /\ f x = false.
Proof.
  induction xs as [|x xs IH]; cbn; [discriminate|].
  destruct (f x) eqn:Ex; cbn.
  - intro Hf. destruct (IH Hf) as (y & Hin & Hy).
    exists y. split; [right|]; assumption.
  - intros _. exists x. split; [left; reflexivity | exact Ex].
Qed.

(** The second loop accepts a category only when it weighs at most 1. *)
Lemma category_entry_Ok_weight c (es : list (CriterionEvaluation Q)) cb :
  category_entry (c, es) = Ok (c, cb) ->
  Qsum (map (fun e => weight e) es) <= 1.
Proof.
  intro Hc. unfold category_entry, CategoryBreakdown_new in Hc.
  pose proof (py_sum_exact (map (fun e => weight e) es)) as Etw.
  destruct (float_ge_le "total_weight" 0 1 _) as [tw''|] eqn:E1;
    [|destruct (float_ge_le "weighted_score" _ _ _); discriminate].
  apply float_ge_le_inv in E1. destruct E1 as (_ & _ & Hle).
  rewrite <- Etw. exact Hle.
Qed.

(** On valid members it refuses a category only for its total weight. *)
Lemma category_entry_Err_weight c (es : list (CriterionEvaluation Q)) e :
  Forall valid_evaluation es ->
  category_entry (c, es) = Err e ->
  exists v,
    e = ValidationError "CategoryBreakdown"
          [{| loc := "total_weight"; kind := less_than_equal;
              input_value := InFloat v |}] /\
    v == Qsum (map (fun e => weight e) es) /\ 1 < v.
Proof.
  intros Hv Hc.
  destruct (Qlt_le_dec 1 (Qsum (map (fun e => weight e) es))) as [Hgt|Hle].
  - unfold category_entry, CategoryBreakdown_new in Hc.
    pose proof (py_sum_exact (map (fun e => weight e) es)) as Etw.
    pose proof (py_sum_exact
                  (map (fun e : CriterionEvaluation Q => score e * weight e) es)) as Ews.
    pose proof (weights_nonneg Hv) as Hw0.
    pose proof (weighted_scores_bounds Hv) as [Hs0 Hs1].
    change (fun e : CriterionEvaluation Q => (score e *~ weight e)%py)
      with (fun e : CriterionEvaluation Q => score e * weight e) in Hc.
    set (tw' := py_sum (map (fun e => weight e) es)) in *.
    set (ws' := py_sum (map (fun e => score e * weight e) es)) in *.
    rewrite (@float_ge_le_above "total_weight" 0 1 tw') in Hc by lra.
    assert (Hr : 0 <= (if (tw' >~ fromQ 0)%py then (ws' /~ tw')%py else fromQ 0)
                 /\ (if (tw' >~ fromQ 0)%py then (ws' /~ tw')%py else fromQ 0) <= 100).
    { exact_arith. destruct (Qltb 0 tw') eqn:Eb.
      - apply Qltb_true in Eb. apply Qdiv_between; lra.
      - lra. }
    destruct Hr as [Hr0 Hr1].
    pose proof (round_decimal_2_range Hr0 Hr1) as [Hq0 Hq1].
    unfold py_round in Hc. exact_arith.
    rewrite float_ge_le_Ok in Hc by assumption.
    cbn in Hc. injection Hc as <-.
    exists tw'. split; [reflexivity|]. split; [exact Etw | lra].
  - destruct (category_entry_total c Hv Hle) as [cb Hcb]. congruence.
Qed.


(** ** The breakdown partitions the evaluations *)

Section Partition.

Context {F : Type} `{PyFloat F}.
Implicit Types (evals es : list (CriterionEvaluation F)) (e : CriterionEvaluation F).

Lemma flat_map_dict_set_new {A : Type} (d : dict (list A)) k (v : list A) :
  dict_get d k = None ->
  flat_map snd (dict_set d k v) = (flat_map snd d ++ v)%list.
Proof.
  induction d as [|[k' v'] d IH]; cbn.
  - intros _. rewrite app_nil_r. reflexivity.
  - destruct (String.eqb k' k); [discriminate|].
    intro Hk. cbn. rewrite IH by exact Hk. rewrite app_assoc. reflexivity.
Qed.

Lemma flat_map_dict_set_old {A : Type} (d : dict (list A)) k (old : list A) (x : A) :
  dict_get d k = Some old ->
  Permutation (flat_map snd (dict_set d k (old ++ [x])%list))
              (flat_map snd d ++ [x])%list.
Proof.
  induction d as [|[k' v'] d IH]; cbn; [discriminate|].
  destruct (String.eqb k' k).
  - intros [= ->]. cbn. rewrite <- !app_assoc.
    apply Permutation_app_head. apply Permutation_app_comm.
  - intro Hk. cbn. rewrite <- app_assoc.
    apply Permutation_app_head. apply IH. exact Hk.
Qed.

(** The first loop only distributes the evaluations. *)
Lemma group_by_category_flat evals :
  Permutation (flat_map snd (group_by_category evals)) evals.
Proof.
  induction evals as [|e evals IH] using rev_ind; [constructor|].
  rewrite group_by_category_snoc. unfold group_step.
  set (d := group_by_category evals) in *.
  set (c0 := category_of e).
  unfold dict_mem, dict_get_default.
  destruct (dict_get d c0) as [old|] eqn:Eg; cbn [negb].
  - rewrite Eg.
    rewrite (flat_map_dict_set_old d c0 e Eg).
    apply Permutation_app_tail. exact IH.
  - rewrite dict_get_set_same.
    assert (Hd1 : flat_map snd (dict_set d c0 []) = flat_map snd d).
    { rewrite flat_map_dict_set_new by exact Eg. apply app_nil_r. }
    assert (Hg1 : dict_get (dict_set d c0 []) c0 = Some []) by apply dict_get_set_same.
    rewrite (flat_map_dict_set_old (dict_set d c0 []) c0 e Hg1), Hd1.
    apply Permutation_app_tail. exact IH.
Qed.

Lemma breakdown_criteria evals bd :
  _create_category_breakdown evals = Ok bd ->
  map (fun kv => criteria (snd kv)) bd = map snd (group_by_category evals).
Proof.
  unfold _create_category_breakdown. intro Hr. apply rmap_Ok in Hr.
  induction Hr as [|x [c cb] xs ys Hx Hr IH]; cbn; [reflexivity|].
  apply category_entry_name in Hx. destruct Hx as (_ & _ & ->).
  rewrite IH. reflexivity.
Qed.

Lemma category_of_named e : In (category_of e) category_names.
Proof.
  unfold category_of, dict_get_default.
  destruct (dict_get category_map (criterion_id e)) as [c|] eqn:Eg.
  - apply dict_get_Some_In in Eg.
    assert (Hall : forallb (fun kv => existsb (String.eqb (snd kv)) category_names)
                     category_map = true) by reflexivity.
    rewrite forallb_forall in Hall. specialize (Hall _ Eg).
    apply existsb_exists in Hall. destruct Hall as (n & Hn & En).
    apply String.eqb_eq in En. cbn in En. subst n. exact Hn.
  - cbn. tauto.
Qed.

Lemma group_by_category_keys evals k :
  In k (dict_keys (group_by_category evals)) ->
  exists e, In e evals /\ category_of e = k.
Proof.
  intro Hin.
  destruct (group_by_category_spec evals) as [_ Hget].
  destruct (dict_get (group_by_category evals) k) as [es|] eqn:Eg.
  - rewrite Hget in Eg.
    destruct (members k evals) as [|e0 es0] eqn:Em; [discriminate|].
    assert (Hm : In e0 (members k evals)) by (rewrite Em; left; reflexivity).
    apply filter_In in Hm. destruct Hm as [Hm Hc].
    exists e0. split; [exact Hm | apply String.eqb_eq; exact Hc].
  - apply dict_get_None_keys in Eg. contradiction.
Qed.

End Partition.

(** X7.  The breakdown of a run partitions its evaluations: the criteria
    lists of its entries, taken together, are the evaluations of the input
    up to order; no entry is empty, each holds evaluations of its own
    category only, and no category name occurs twice. *)
Theorem breakdown_partitions_evaluations :
  forall (F : Type) (PF : PyFloat F) (factors : dict F)
         (input_data : ScoringInput F) (w : World F) r g,
    fst (execute factors input_data w) = Ok r ->
    output r = Some g ->
    Permutation (flat_map (fun kv => criteria (snd kv)) (breakdown g))
                (in_evaluations input_data) /\
    NoDup (dict_keys (breakdown g)) /\
    (forall c cb, In (c, cb) (breakdown g) ->
       category_name cb = c /\ criteria cb <> [] /\
       forall e, In e (criteria cb) -> category_of e = c).
Proof.
  intros F PF factors input_data w r g Hr Hg.
  destruct (execute_output_breakdown _ _ _ Hr Hg) as [Hb _].
  pose proof (breakdown_keys _ Hb) as Hkeys.
  destruct (group_by_category_spec (in_evaluations input_data)) as [Hnd _].
  split; [|split].
  - rewrite flat_map_concat_map, (breakdown_criteria _ Hb),
      <- flat_map_concat_map.
    apply group_by_category_flat.
  - rewrite Hkeys. exact Hnd.
  - intros c cb Hin.
    assert (Hget : dict_get (breakdown g) c = Some cb).
    { apply dict_get_In; [rewrite Hkeys; exact Hnd | exact Hin]. }
    pose proof (@breakdown_lookup _ _ _ _ c Hb) as Hl.
    destruct (members c (in_evaluations input_data)) as [|e0 es0] eqn:Em.
    + congruence.
    + destruct Hl as (cb' & Hget' & Hentry).
      assert (cb' = cb) by congruence. subst cb'.
      apply category_entry_name in Hentry. cbn [fst snd] in Hentry.
      destruct Hentry as (_ & Hn & Hc).
      split; [exact Hn|]. split; [rewrite Hc; discriminate|].
      intros e He. rewrite Hc, <- Em in He.
      apply filter_In in He. destruct He as [_ He].
      apply String.eqb_eq. exact He.
Qed.

(** X8.  A breakdown never has more than eight entries, nor more than there
    are evaluations: its keys are distinct names among the seven categories
    of the table and "Other", and the [num_categories] of the metadata is
    their number. *)
Theorem breakdown_has_at_most_eight_categories :
  forall (F : Type) (PF : PyFloat F) (factors : dict F)
         (input_data : ScoringInput F) (w : World F) r g,
    fst (execute factors input_data w) = Ok r ->
    output r = Some g ->
    incl (dict_keys (breakdown g)) category_names /\
    (List.length (breakdown g) <= 8)%nat /\
    (List.length (breakdown g) <= List.length (in_evaluations input_data))%nat /\
    dict_get (metadata r) "num_categories"
    = Some (MInt (Z.of_nat (List.length (breakdown g)))).
Proof.
  intros F PF factors input_data w r g Hr Hg.
  destruct (execute_output_breakdown _ _ _ Hr Hg) as [Hb _].
  pose proof (breakdown_keys _ Hb) as Hkeys.
  destruct (group_by_category_spec (in_evaluations input_data)) as [Hnd _].
  assert (Hincl : incl (dict_keys (breakdown g)) category_names).
  { intros k Hk. rewrite Hkeys in Hk.
    apply group_by_category_keys in Hk. destruct Hk as (e & _ & <-).
    apply category_of_named. }
  assert (Hlen : List.length (breakdown g) = List.length (dict_keys (breakdown g)))
    by (unfold dict_keys; rewrite length_map; reflexivity).
  split; [exact Hincl|]. split; [|split].
  - rewrite Hlen.
    change 8%nat with (List.length category_names).
    apply NoDup_incl_length; [rewrite Hkeys; exact Hnd | exact Hincl].
  - rewrite Hlen, Hkeys.
    transitivity (List.length (map (fun e => category_of e) (in_evaluations input_data))).
    + apply NoDup_incl_length; [exact Hnd|].
      intros k Hk. apply group_by_category_keys in Hk.
      destruct Hk as (e & He & <-). apply in_map. exact He.
    + rewrite length_map. apply Nat.le_refl.
  - rewrite execute_returns in Hr. injection Hr as <-.
    destruct (execute_value_cases factors input_data w)
      as [(e & _ & Hx) | (bd & g' & _ & _ & Hx)]; rewrite Hx in *;
      cbn in Hg; [discriminate|].
    injection Hg as ->. reflexivity.
Qed.

(** X9.  What [execute] returns is either a success or a failure, never a
    mixture.  A success has an output and no error; its grading result
    carries the self-grade, the multiplier and the evaluations of the input
    unchanged, an empty submission id and a zero processing time.  A failure
    has no output, a validation error, the metadata [error_type] and a zero
    execution time. *)
Theorem execute_result_shape :
  forall (F : Type) (PF : PyFloat F) (factors : dict F)
         (input_data : ScoringInput F) (w : World F),
  exists r,
    fst (execute factors input_data w) = Ok r /\
    ((success r = true /\ error r = None /\
      dict_keys (metadata r)
      = ["final_score"; "difference"; "total_weight"; "num_categories"] /\
      exists g,
        output r = Some g /\
        self_grade g = in_self_grade input_data /\
        criticism_multiplier g = in_criticism_multiplier input_data /\
        evaluations g = in_evaluations input_data /\
        submission_id g = "" /\
        processing_time_seconds g = fromQ 0)
     \/
     (success r = false /\ output r = None /\
      metadata r = [("error_type", MStr "ValidationError")] /\
      execution_time r = fromQ 0 /\
      exists e, error r = Some e)).
Proof.
  intros F PF factors input_data w.
  exists (execute_value factors input_data w).
  split; [apply execute_returns|].
  destruct (execute_value_cases factors input_data w)
    as [(e & He & ->) | (bd & g & _ & Hg & ->)].
  - right. unfold failure_value; cbn. rewrite He.
    repeat split. exists e. reflexivity.
  - left. apply GradingResult_new_fields in Hg.
    destruct Hg as (Hsg & Hm & _ & Hev & _ & Hsid & _ & Hpt).
    unfold success_value; cbn.
    split; [reflexivity|]. split; [reflexivity|]. split; [reflexivity|].
    exists g. repeat split; assumption.
Qed.

(** ** These properties at concrete inputs *)

Lemma sample_evaluations_valid : Forall valid_evaluation (sample_evaluations (F := Q)).
Proof. check_valid. Qed.

(** The sample evaluations run under any positive multiplier. *)
Lemma sample_run (m : Q) (sg : Z) :
  0 < m -> (0 <= sg <= 100)%Z ->
  exists r g,
    fst (execute default_severity_factors
           {| in_evaluations := sample_evaluations;
              in_criticism_multiplier := m; in_self_grade := sg |} still_world)
    = Ok r /\
    output r = Some g.
Proof.
  intros Hm Hsg.
  assert (Hvalid : valid_input {| in_evaluations := sample_evaluations;
                                  in_criticism_multiplier := m;
                                  in_self_grade := sg |}).
  { split; [exact sample_evaluations_valid|]. split; assumption. }
  destruct (execute_value_success default_severity_factors still_world Hvalid
              sample_input_fits) as (bd & g & elapsed & _ & Hex & _).
  eexists. exists g.
  rewrite execute_returns, Hex. split; reflexivity.
Qed.


Lemma stricter_multiplier_witness :
  exists r1 g1 r2 g2,
    (Forall valid_evaluation (sample_evaluations (F := Q)) /\ 1 <= 1.5) /\
    fst (execute default_severity_factors
           (scoring_input sample_evaluations 1 75) still_world) = Ok r1 /\
    output r1 = Some g1 /\
    fst (execute default_severity_factors
           (scoring_input sample_evaluations 1.5 95) still_world) = Ok r2 /\
    output r2 = Some g2 /\
    final_score g2 <= final_score g1.
Proof.
  destruct (@sample_run 1 75) as (r1 & g1 & Hr1 & Hg1); [lra | lia |].
  destruct (@sample_run 1.5 95) as (r2 & g2 & Hr2 & Hg2); [lra | lia |].
  assert (Hm : 1 <= 1.5) by lra.
  exists r1, g1, r2, g2.
  split; [split; [exact sample_evaluations_valid | exact Hm]|].
  split; [exact Hr1|]. split; [exact Hg1|].
  split; [exact Hr2|]. split; [exact Hg2|].
  exact (@stricter_multiplier_never_raises_final_score sample_evaluations
           1 1.5 75 95 still_world still_world r1 r2 g1 g2
           sample_evaluations_valid Hm Hr1 Hg1 Hr2 Hg2).
Defined.

Lemma higher_self_grade_witness :
  exists r1 g1 r2 g2,
    (Forall valid_evaluation (sample_evaluations (F := Q)) /\ (65 <= 92)%Z) /\
    fst (execute default_severity_factors
           (scoring_input sample_evaluations 0.8 65) still_world) = Ok r1 /\
    output r1 = Some g1 /\
    fst (execute default_severity_factors
           (scoring_input sample_evaluations 1.5 92) still_world) = Ok r2 /\
    output r2 = Some g2 /\
    final_score g2 <= final_score g1.
Proof.
  destruct (@sample_run 0.8 65) as (r1 & g1 & Hr1 & Hg1); [lra | lia |].
  destruct (@sample_run 1.5 92) as (r2 & g2 & Hr2 & Hg2); [lra | lia |].
  assert (Hsg : (65 <= 92)%Z) by lia.
  exists r1, g1, r2, g2.
  split; [split; [exact sample_evaluations_valid | exact Hsg]|].
  split; [exact Hr1|]. split; [exact Hg1|].
  split; [exact Hr2|]. split; [exact Hg2|].
  exact (@higher_self_grade_never_raises_final_score sample_evaluations
           65 92 still_world still_world r1 r2 g1 g2
           sample_evaluations_valid Hsg Hr1 Hg1 Hr2 Hg2).
Defined.


Lemma heavy_documentation_valid : valid_input heavy_documentation.
Proof. check_valid. Qed.


Lemma breakdown_partitions_witness :
  exists r g,
    fst (execute default_severity_factors (sample_input (F := Q)) still_world) = Ok r /\
    output r = Some g /\
    Permutation (flat_map (fun kv => criteria (snd kv)) (breakdown g))
                sample_evaluations /\
    NoDup (dict_keys (breakdown g)).
Proof.
  destruct (@sample_run 1 75) as (r & g & Hr & Hg); [lra | lia |].
  exists r, g.
  destruct (@breakdown_partitions_evaluations Q ExactQ default_severity_factors
              sample_input still_world r g Hr Hg) as (Hp & Hnd & _).
  split; [exact Hr|]. split; [exact Hg|]. split; [exact Hp | exact Hnd].
Defined.

Lemma breakdown_at_most_eight_witness :
  exists r g,
    fst (execute default_severity_factors (sample_input (F := Q)) still_world) = Ok r /\
    output r = Some g /\
    (List.length (breakdown g) <= 8)%nat /\
    (List.length (breakdown g) <= 3)%nat.
Proof.
  destruct (@sample_run 1 75) as (r & g & Hr & Hg); [lra | lia |].
  exists r, g.
  destruct (@breakdown_has_at_most_eight_categories Q ExactQ
              default_severity_factors sample_input still_world r g Hr Hg)
    as (_ & H8 & Hn & _).
  split; [exact Hr|]. split; [exact Hg|]. split; [exact H8 | exact Hn].
Defined.

(** * The methods around the engine *)

(** ** What the constructors let through *)

Lemma round_decimal_between (n : nat) (a b : Z) (q : Q) :
  inject_Z a <= q -> q <= inject_Z b ->
  inject_Z a <= round_decimal n q /\ round_decimal n q <= inject_Z b.
Proof.
  intros Ha Hb. unfold round_decimal.
  set (k := scale10 n).
  assert (Hr : (a * Z.pos k <= round_half_even (q * (Z.pos k # 1)) <= b * Z.pos k)%Z).
  { apply round_half_even_between.
    - rewrite inject_Z_mult. apply Qmult_le_compat_r; [exact Ha|].
      unfold Qle; cbn; lia.
    - rewrite inject_Z_mult. apply Qmult_le_compat_r; [exact Hb|].
      unfold Qle; cbn; lia. }
  unfold Qle, inject_Z; cbn [Qnum Qden]. lia.
Qed.

Lemma round_decimal_near (n : nat) (q : Q) :
  Qabs (round_decimal n q - q) <= 1 # (2 * scale10 n).
Proof.
  unfold round_decimal. set (k := scale10 n).
  pose proof (round_half_even_near (q * (Z.pos k # 1))) as Hn.
  set (r := round_half_even (q * (Z.pos k # 1))) in *.
  assert (Er : (r # k) * (Z.pos k # 1) == inject_Z r).
  { unfold Qeq, Qmult, inject_Z; cbn. lia. }
  assert (Hk : 0 < Z.pos k # 1) by (unfold Qlt; cbn; lia).
  assert (Eh : (1 # (2 * k)) * (Z.pos k # 1) == 1 # 2).
  { unfold Qeq, Qmult; cbn. lia. }
  apply Qabs_Qle_condition in Hn. apply Qabs_Qle_condition.
  clearbody r. destruct Hn as [Hlo Hhi].
  split; apply Qmult_le_r with (z := Z.pos k # 1); try exact Hk.
  - setoid_replace (- (1 # 2 * k) * (Z.pos k # 1)) with (- (1 # 2))
      by (rewrite <- Eh; ring).
    setoid_replace (((r # k) - q) * (Z.pos k # 1))
      with (inject_Z r - q * (Z.pos k # 1)) by (rewrite <- Er; ring).
    exact Hlo.
  - setoid_replace (((r # k) - q) * (Z.pos k # 1))
      with (inject_Z r - q * (Z.pos k # 1)) by (rewrite <- Er; ring).
    rewrite Eh. exact Hhi.
Qed.

Lemma severity_literal_key {F : Type} (name v : string) (s : Severity) :
  severity_literal (F := F) name v = Ok s -> severity_key s = v.
Proof.
  unfold severity_literal.
  destruct (String.eqb_spec v "critical"); [intros [= <-]; auto|].
  destruct (String.eqb_spec v "important"); [intros [= <-]; auto|].
  destruct (String.eqb_spec v "minor"); [intros [= <-]; auto|].
  destruct (String.eqb_spec v "strength"); [intros [= <-]; auto|].
  discriminate.
Qed.

Lemma validated_weight (v w : Q) :
  rbind (float_ge_le "weight" 0 1 v) validate_weight = Ok w ->
  w = round_decimal 4 v /\ 0 <= v /\ v <= 1.
Proof.
  unfold rbind.
  destruct (float_ge_le "weight" 0 1 v) as [v'|] eqn:E; [|discriminate].
  apply float_ge_le_inv in E. destruct E as (-> & H0 & H1).
  unfold validate_weight. destruct (negb _); [discriminate|].
  intros [= <-]. auto.
Qed.

Lemma validated_score (v s : Q) :
  rbind (float_ge_le "score" 0 100 v) validate_score = Ok s ->
  s = round_decimal 2 v /\ 0 <= v /\ v <= 100.
Proof.
  unfold rbind.
  destruct (float_ge_le "score" 0 100 v) as [v'|] eqn:E; [|discriminate].
  apply float_ge_le_inv in E. destruct E as (-> & H0 & H1).
  unfold validate_score. destruct (negb _); [discriminate|].
  intros [= <-]. auto.
Qed.

Lemma CriterionEvaluation_new_fields
    (a : CriterionEvaluationArgs Q) (e : CriterionEvaluation Q) :
  CriterionEvaluation_new a = Ok e ->
  (weight e = round_decimal 4 (arg_weight a) /\ 0 <= arg_weight a <= 1) /\
  (score e = round_decimal 2 (arg_score a) /\ 0 <= arg_score a <= 100) /\
  severity_key (severity e) = arg_severity a /\
  criterion_id e = arg_criterion_id a /\
  criterion_name e = arg_criterion_name a /\
  evidence e = arg_evidence a /\ strengths e = arg_strengths a /\
  weaknesses e = arg_weaknesses a /\ suggestions e = arg_suggestions a.
Proof.
  unfold CriterionEvaluation_new.
  destruct (rbind (float_ge_le "weight" 0 1 _) validate_weight) as [w|] eqn:Ew;
    [|destruct (rbind _ validate_score), (severity_literal _ _); discriminate].
  destruct (rbind (float_ge_le "score" 0 100 _) validate_score) as [s|] eqn:Es;
    [|destruct (severity_literal _ _); discriminate].
  destruct (severity_literal "severity" _) as [sev|] eqn:Ev; [|discriminate].
  intros [= <-]. cbn.
  apply validated_weight in Ew. destruct Ew as (-> & Hw0 & Hw1).
  apply validated_score in Es. destruct Es as (-> & Hs0 & Hs1).
  apply severity_literal_key in Ev.
  repeat split; assumption.
Qed.

Lemma CriterionEvaluation_new_valid
    (a : CriterionEvaluationArgs Q) (e : CriterionEvaluation Q) :
  CriterionEvaluation_new a = Ok e -> valid_evaluation e.
Proof.
  intro He. apply CriterionEvaluation_new_fields in He.
  destruct He as ((Ew & Hw0 & Hw1) & (Es & Hs0 & Hs1) & _).
  destruct (@round_decimal_between 4 0 1 (arg_weight a)) as [Hrw0 Hrw1];
    [exact Hw0 | exact Hw1 |].
  destruct (@round_decimal_between 2 0 100 (arg_score a)) as [Hrs0 Hrs1];
    [exact Hs0 | exact Hs1 |].
  unfold valid_evaluation. rewrite Ew, Es. repeat split; assumption.
Qed.


Lemma rmap_Forall {E A B : Type} (f : A -> result E B) (P : B -> Prop)
    (xs : list A) (ys : list B) :
  (forall x y, f x = Ok y -> P y) ->
  rmap f xs = Ok ys -> Forall P ys.
Proof.
  intros HP Hr. apply rmap_Ok in Hr.
  induction Hr as [|x y xs ys Hx _ IH]; constructor; [exact (HP _ _ Hx) | exact IH].
Qed.

(** X11.  Inputs built through the constructors satisfy the preconditions
    of the engine: when every [CriterionEvaluation] and then the
    [ScoringInput] are accepted, the input holds the evaluations, the
    multiplier and the self-grade as given, and it is valid. *)
Theorem constructed_input_is_valid
    (args : list (CriterionEvaluationArgs Q)) (evals : list (CriterionEvaluation Q))
    (m : Q) (sg : Z) (input_data : ScoringInput Q) :
  rmap CriterionEvaluation_new args = Ok evals ->
  ScoringInput_new evals m sg = Ok input_data ->
  valid_input input_data /\
  in_evaluations input_data = evals /\
  in_criticism_multiplier input_data = m /\
  in_self_grade input_data = sg.
Proof.
  intros Hargs Hin.
  assert (Hv : Forall valid_evaluation evals).
  { apply (rmap_Forall CriterionEvaluation_new valid_evaluation args); [|exact Hargs].
    intros a e He. exact (CriterionEvaluation_new_valid a He). }
  unfold ScoringInput_new in Hin.
  unfold float_gt, int_ge_le in Hin. exact_arith.
  destruct (Qltb 0 m) eqn:Em; cbn [negb] in Hin;
    [|destruct (negb (0 <=? sg)%Z); [|destruct (negb (sg <=? 100)%Z)]; discriminate].
  destruct (0 <=? sg)%Z eqn:E0; cbn [negb] in Hin; [|discriminate].
  destruct (sg <=? 100)%Z eqn:E1; cbn [negb] in Hin; [|discriminate].
  injection Hin as <-. cbn.
  apply Qltb_true in Em. apply Z.leb_le in E0, E1.
  repeat split; try assumption.
Qed.

(** ** The methods of a grading result *)

Section GradingResultFacts.

Context {F : Type} `{PyFloat F}.

Lemma find_by_id_None (evals : list (CriterionEvaluation F)) (id : string) :
  find (fun e => String.eqb (criterion_id e) id) evals = None <->
  ~ In id (map (fun e => criterion_id e) evals).
Proof.
  induction evals as [|e evals IH]; cbn.
  - tauto.
  - destruct (String.eqb_spec (criterion_id e) id) as [E|N].
    + split; [discriminate | intro Hn; destruct Hn; left; exact E].
    + rewrite IH. tauto.
Qed.

Lemma find_by_id_unique (evals : list (CriterionEvaluation F)) (e : CriterionEvaluation F) :
  NoDup (map (fun e => criterion_id e) evals) ->
  In e evals ->
  find (fun e' => String.eqb (criterion_id e') (criterion_id e)) evals = Some e.
Proof.
  induction evals as [|e0 evals IH]; cbn; [tauto|].
  intros Hnd [<-|Hin].
  - rewrite String.eqb_refl. reflexivity.
  - inversion Hnd as [|? ? Hni Hnd']; subst.
    destruct (String.eqb_spec (criterion_id e0) (criterion_id e)) as [E|N].
    + destruct Hni. rewrite E. apply in_map. exact Hin.
    + apply IH; assumption.
Qed.

End GradingResultFacts.

(** X12.  In the result of a run, [get_evaluation_by_id] finds an
    evaluation of the input with the id asked for, the first such one; it
    returns nothing exactly for the ids no evaluation has, and when the ids
    are distinct it gives back each evaluation for its own id. *)
Theorem get_evaluation_by_id_finds :
  forall (F : Type) (PF : PyFloat F) (factors : dict F)
         (input_data : ScoringInput F) (w : World F) r g,
    fst (execute factors input_data w) = Ok r ->
    output r = Some g ->
    let evals := in_evaluations input_data in
    (forall id, get_evaluation_by_id g id = None <->
                ~ In id (map (fun e => criterion_id e) evals)) /\
    (forall id e, get_evaluation_by_id g id = Some e ->
                  criterion_id e = id /\
                  exists before after,
                    evals = (before ++ e :: after)%list /\
                    ~ In id (map (fun e' => criterion_id e') before)) /\
    (NoDup (map (fun e => criterion_id e) evals) ->
     forall e, In e evals -> get_evaluation_by_id g (criterion_id e) = Some e).
Proof.
  intros F PF factors input_data w r g Hr Hg evals.
  destruct (execute_output_breakdown _ _ _ Hr Hg) as [_ Hev].
  unfold get_evaluation_by_id. rewrite Hev. fold evals.
  split; [intro id; apply find_by_id_None|]. split.
  - intros id e. generalize evals. clear.
    induction evals as [|e0 evals IH]; cbn; [discriminate|].
    destruct (String.eqb_spec (criterion_id e0) id) as [E|N].
    + intros [= <-]. split; [exact E|].
      exists [], evals. split; [reflexivity | intros []].
    + intro Hf. destruct (IH Hf) as (Hid & before & after & -> & Hb).
      split; [exact Hid|].
      exists (e0 :: before), after. split; [reflexivity|].
      cbn. intros [E|Hin]; [exact (N E) | exact (Hb Hin)].
  - intros Hnd e Hin. apply find_by_id_unique; assumption.
Qed.

Lemma round_decimal_2_exact (q : Q) (k : Z) :
  q == k # 100 -> round_decimal 2 q == q.
Proof.
  intro E. unfold round_decimal. rewrite scale10_2.
  assert (Er : round_half_even (q * (100 # 1)) = k).
  { transitivity (round_half_even (inject_Z k)); [|apply round_half_even_Z].
    apply round_half_even_comp. rewrite E.
    unfold Qeq, Qmult, inject_Z; cbn; lia. }
  rewrite Er. symmetry. exact E.
Qed.

Lemma grading_value_self_grade (factors : dict Q) (input_data : ScoringInput Q)
    (bd : dict (CategoryBreakdown Q)) (stamp : Z) (g : GradingResult Q) :
  grading_value factors input_data bd stamp = Ok g ->
  (0 <= self_grade g <= 100)%Z.
Proof.
  unfold grading_value, GradingResult_new, int_ge_le.
  destruct (0 <=? in_self_grade input_data)%Z eqn:E0; cbn [negb];
    [|destruct (rbind _ _), (float_gt _ _ _); discriminate].
  destruct (in_self_grade input_data <=? 100)%Z eqn:E1; cbn [negb];
    [|destruct (rbind _ _), (float_gt _ _ _); discriminate].
  destruct (rbind _ _); [|destruct (float_gt _ _ _); discriminate].
  destruct (float_gt _ _ _); [|discriminate].
  intros [= <-]. cbn. apply Z.leb_le in E0, E1. lia.
Qed.

Lemma execute_output_self_grade {F : Type} `{PyFloat F} (factors : dict F)
    (input_data : ScoringInput F) (w : World F) r g :
  fst (execute factors input_data w) = Ok r ->
  output r = Some g ->
  self_grade g = in_self_grade input_data.
Proof.
  rewrite execute_returns. intros [= <-].
  destruct (execute_value_cases factors input_data w)
    as [(e & _ & ->) | (bd & g' & _ & Hg & ->)]; cbn; [discriminate|].
  intros [= <-].
  apply GradingResult_new_fields in Hg. exact (proj1 Hg).
Qed.


(** ** The constructors and the methods at concrete inputs *)


Lemma constructed_input_witness :
  exists evals input_data,
    rmap CriterionEvaluation_new (two_full_weights (F := Q)) = Ok evals /\
    ScoringInput_new evals 1.2 85 = Ok input_data /\
    valid_input input_data /\ in_self_grade input_data = 85%Z.
Proof.
  assert (E : exists evals, rmap CriterionEvaluation_new (two_full_weights (F := Q))
                            = Ok evals)
    by (eexists; vm_compute; reflexivity).
  destruct E as [evals E].
  assert (E' : exists input_data, ScoringInput_new evals 1.2 85 = Ok input_data)
    by (eexists; vm_compute; reflexivity).
  destruct E' as [input_data E'].
  exists evals, input_data. split; [exact E|]. split; [exact E'|].
  destruct (@constructed_input_is_valid two_full_weights evals 1.2 85 input_data
              E E') as (Hv & _ & _ & Hsg).
  split; [exact Hv | exact Hsg].
Defined.

Lemma get_evaluation_by_id_witness :
  exists r g,
    fst (execute default_severity_factors (sample_input (F := Q)) still_world) = Ok r /\
    output r = Some g /\
    get_evaluation_by_id g "testing" = Some (evaluation "testing" important 0.5 70) /\
    get_evaluation_by_id g "security" = None.
Proof.
  destruct (@sample_run 1 75) as (r & g & Hr & Hg); [lra | lia |].
  exists r, g.
  destruct (@get_evaluation_by_id_finds Q ExactQ default_severity_factors
              sample_input still_world r g Hr Hg) as (Hnone & _ & Hsome).
  split; [exact Hr|]. split; [exact Hg|]. split.
  - apply (Hsome ltac:(vm_compute; repeat constructor; cbn; intuition discriminate)
                 (evaluation "testing" important 0.5 70)).
    cbn. right. right. left. reflexivity.
  - apply Hnone. cbn. intuition discriminate.
Defined.


(** ** Results and their metadata *)

Section AgentResultFacts.

Context {F : Type} `{PyFloat F}.
Local Open Scope pyfloat_scope.

(** What a run leaves of the world: the clocks are read three times, or
    twice when the breakdown is refused. *)
Lemma execute_world (factors : dict F) (input_data : ScoringInput F) (w : World F) :
  let w' := snd (execute factors input_data w) in
  monotonic w' = monotonic w /\
  ticks w' = match _create_category_breakdown (in_evaluations input_data) with
             | Ok _ => (3 + ticks w)%nat
             | Err _ => (2 + ticks w)%nat
             end.
Proof.
  unfold execute.
  destruct (accumulate factors (in_criticism_multiplier input_data)
              (in_evaluations input_data)) as [ws tw] eqn:Eacc.
  destruct (_create_category_breakdown (in_evaluations input_data)) as [bd|e].
  - destruct (tw >~ fromQ 0);
      unfold bind, ret, log, time_time, datetime_now, tick;
      cbn [fst snd monotonic wall_clock ticks logged];
      (destruct (GradingResult_new _ _ _ _ _ _ _ _ _) as [g|e];
       [ unfold success_result, AgentResult_new; cbn [fst snd monotonic ticks];
         split; reflexivity
       | unfold on_exception, handle_error, bind, ret, log, time_time, tick;
         cbn [fst snd monotonic wall_clock ticks logged]; split; reflexivity ]).
  - destruct (tw >~ fromQ 0);
      unfold on_exception, handle_error, bind, ret, log, time_time, tick;
      cbn [fst snd monotonic wall_clock ticks logged]; split; reflexivity.
Qed.

End AgentResultFacts.

(** X14.  [add_metadata] then [get_metadata] with the same key gives the
    value back whatever the default is, a later value for a key replaces an
    earlier one, the other keys read as before, and nothing else of the
    result changes. *)
Theorem metadata_round_trip :
  forall (F T : Type) (r : AgentResult F T) (key : string) (v v' d : MetaValue F),
    get_metadata (add_metadata r key v) key d = v /\
    get_metadata (add_metadata (add_metadata r key v) key v') key d = v' /\
    (forall other, other <> key ->
       get_metadata (add_metadata r key v) other d = get_metadata r other d) /\
    success (add_metadata r key v) = success r /\
    output (add_metadata r key v) = output r /\
    error (add_metadata r key v) = error r /\
    execution_time (add_metadata r key v) = execution_time r.
Proof.
  intros F T r key v v' d.
  unfold get_metadata, add_metadata, dict_get_default; cbn.
  rewrite !dict_get_set_same.
  split; [reflexivity|]. split; [reflexivity|].
  split; [|repeat split].
  intros other Hne. rewrite dict_get_set_other by congruence. reflexivity.
Qed.

(** X15.  The accessors on what the engine returns: on a success
    [get_output_or_raise] and [get_output_or_default] both give the grading
    result; on a failure the first raises a [RuntimeError] carrying the
    validation error and the second gives the default. *)
Theorem engine_result_accessors :
  forall (F : Type) (PF : PyFloat F) (factors : dict F)
         (input_data : ScoringInput F) (w : World F),
  exists r,
    fst (execute factors input_data w) = Ok r /\
    ((is_success r = true /\ is_failure r = false /\
      exists g,
        output r = Some g /\
        get_output_or_raise r = Ok (Some g) /\
        forall d, get_output_or_default r d = Some g)
     \/
     (is_success r = false /\ is_failure r = true /\
      exists e,
        exception_type e = "ValidationError" /\
        get_output_or_raise r
        = Err (RuntimeError "Agent execution failed: " (Some e)) /\
        forall d, get_output_or_default r d = Some d)).
Proof.
  intros F PF factors input_data w.
  exists (execute_value factors input_data w).
  split; [apply execute_returns|].
  destruct (execute_value_cases factors input_data w)
    as [(e & He & ->) | (bd & g & _ & _ & ->)].
  - right. split; [reflexivity|]. split; [reflexivity|].
    exists e. split; [exact He|]. split; [reflexivity|]. intro d. reflexivity.
  - left. split; [reflexivity|]. split; [reflexivity|].
    exists g. split; [reflexivity|]. split; [reflexivity|]. intro d. reflexivity.
Qed.

(** X16.  A configured [severity_factors] dictionary replaces the default
    one as a whole: the agent holds exactly the configured dictionary, so a
    severity it leaves out gets the factor 1 and not its default.  Without
    the key the agent holds the defaults; [get_config_value] never raises
    here, and it does for a required key that is missing. *)
Theorem configured_factors_replace_defaults :
  forall (F : Type) (PF : PyFloat F) (config : dict (dict F)),
    get_config_value (F := F) "ScoringAgent" config "severity_factors"
      (Some default_severity_factors) false
    = Ok (Some (ScoringAgent_init config)) /\
    (forall fs, dict_get config "severity_factors" = Some fs ->
       ScoringAgent_init config = fs /\
       forall m e, dict_get fs (severity_key (severity e)) = None ->
         adjusted_score (ScoringAgent_init config) m e
         = _apply_criticism_multiplier (fmul (score e) (fromQ 1)) m) /\
    (dict_get config "severity_factors" = None ->
       ScoringAgent_init config = default_severity_factors /\
       get_config_value (F := F) "ScoringAgent" config "severity_factors" None true
       = Err (ValueError
                "Required configuration key 'severity_factors' not found for ScoringAgent")).
Proof.
  intros F PF config.
  unfold get_config_value, ScoringAgent_init, dict_mem, dict_get_default,
    SeverityFactors.
  destruct (dict_get config "severity_factors") as [fs|] eqn:E.
  - split; [reflexivity|]. split; [|discriminate].
    intros fs' [= <-]. split; [reflexivity|].
    intros m e Hk. unfold adjusted_score, dict_get_default. rewrite Hk. reflexivity.
  - split; [reflexivity|]. split; [discriminate|].
    intros _. split; reflexivity.
Qed.

(** X17.  [_timed_execute] never reaches its own [except] clause on the
    engine: it returns what [execute] returns, started one clock reading
    later, with only [execution_time] overwritten -- also on a failure,
    whose [execution_time] the engine left at 0 -- by the time from its own
    first reading of the clock to the one after the run. *)
Theorem timed_execute_measures_the_run :
  forall (F : Type) (PF : PyFloat F) (factors : dict F)
         (input_data : ScoringInput F) (w : World F),
  exists r n,
    fst (execute factors input_data (tick w)) = Ok r /\
    (n = 3 \/ n = 2 /\ success r = false)%nat /\
    fst (_timed_execute factors input_data w)
    = Ok (set_execution_time r
            (fsub (monotonic w (S n + ticks w)) (monotonic w (ticks w)))).
Proof.
  intros F PF factors input_data w.
  pose proof (execute_returns factors input_data (tick w)) as Hr.
  pose proof (execute_world factors input_data (tick w)) as [Hmono Hticks].
  unfold _timed_execute, bind. unfold time_time at 1.
  destruct (execute factors input_data (tick w)) as [res w'] eqn:E.
  cbn [fst snd] in Hr, Hmono, Hticks. subst res.
  exists (execute_value factors input_data (tick w)).
  exists (match _create_category_breakdown (in_evaluations input_data) with
          | Ok _ => 3 | Err _ => 2 end)%nat.
  split; [reflexivity|]. split.
  - unfold execute_value.
    destruct (_create_category_breakdown (in_evaluations input_data));
      [left; reflexivity | right; split; reflexivity].
  - unfold time_time, ret. cbn [fst]. rewrite Hmono, Hticks.
    cbn [tick monotonic ticks].
    destruct (_create_category_breakdown (in_evaluations input_data));
      cbn [Nat.add]; reflexivity.
Qed.

(** ** Validation results *)

Lemma validation_ops_from {F : Type} (ops : list (ValidationOp F))
    (r0 : ValidationResult F) :
  let r := fold_left apply_validation_op ops r0 in
  errors r = (errors r0 ++ flat_map error_of ops)%list /\
  warnings r = (warnings r0 ++ flat_map warning_of ops)%list /\
  is_valid r = is_valid r0 && is_empty (flat_map error_of ops).
Proof.
  revert r0. induction ops as [|op ops IH]; intro r0; cbn.
  - rewrite !app_nil_r, andb_true_r. repeat split.
  - destruct (IH (apply_validation_op r0 op)) as (He & Hw & Hv).
    rewrite He, Hw, Hv.
    destruct op as [m|m]; cbn; rewrite <- ?app_assoc, ?app_nil_r, ?andb_false_r;
      repeat split.
Qed.

(** X18.  A [ValidationResult] that starts valid and only changes through
    [add_error] and [add_warning] keeps the errors and the warnings in the
    order they were added, and is valid exactly when it has no error:
    warnings never invalidate it, and one error does for good. *)
Theorem validation_result_invariant :
  forall (F : Type) (ops : list (ValidationOp F)),
    let r := fold_left apply_validation_op ops ValidationResult_valid in
    errors r = flat_map error_of ops /\
    warnings r = flat_map warning_of ops /\
    (is_valid r = true <-> errors r = []) /\
    (is_valid r = false <-> exists m, In (AddError m) ops).
Proof.
  intros F ops r.
  destruct (validation_ops_from ops ValidationResult_valid) as (He & Hw & Hv).
  fold r in He, Hw, Hv. cbn in He, Hw, Hv.
  split; [exact He|]. split; [exact Hw|].
  rewrite Hv, He. split.
  - destruct (flat_map error_of ops); cbn; split; congruence.
  - clear. induction ops as [|op ops IH]; cbn.
    + split; [discriminate | intros [m []]].
    + destruct op as [m|m]; cbn.
      * split; [intros _; exists m; left; reflexivity | reflexivity].
      * rewrite IH. split; intros [m' Hm]; exists m';
          [right; exact Hm | destruct Hm as [Hm|Hm]; [discriminate | exact Hm]].
Qed.

(** ** Cost reports *)

Section DictUpdates.

Variable V : Type.
Implicit Types (d : dict V) (k : string) (v : V).

Lemma dict_set_set d k v v' : dict_set (dict_set d k v) k v' = dict_set d k v'.
Proof.
  induction d as [|[k0 v0] d IH]; cbn.
  - rewrite String.eqb_refl. reflexivity.
  - destruct (String.eqb_spec k0 k) as [->|Hne]; cbn.
    + rewrite String.eqb_refl. reflexivity.
    + destruct (String.eqb_spec k0 k); [contradiction|]. rewrite IH. reflexivity.
Qed.

Lemma dict_mem_set d k k' v :
  dict_mem (dict_set d k v) k' = String.eqb k' k || dict_mem d k'.
Proof.
  unfold dict_mem.
  destruct (String.eqb_spec k' k) as [->|Hne].
  - rewrite dict_get_set_same. reflexivity.
  - rewrite dict_get_set_other by congruence. reflexivity.
Qed.

Lemma dict_keys_set_NoDup d k v :
  NoDup (dict_keys d) -> NoDup (dict_keys (dict_set d k v)).
Proof.
  intro Hnd. rewrite dict_keys_set. unfold dict_mem.
  destruct (dict_get d k) eqn:E; [exact Hnd|].
  apply dict_get_None_keys in E.
  apply NoDup_app; [exact Hnd | repeat constructor; intros [] | ].
  intros x Hx [<-|[]]. exact (E Hx).
Qed.

End DictUpdates.

Lemma Qsum_app (xs ys : list Q) : Qsum (xs ++ ys) == Qsum xs + Qsum ys.
Proof.
  induction xs as [|x xs IH]; cbn [app].
  - rewrite Qsum_nil. lra.
  - rewrite !Qsum_cons, IH. lra.
Qed.

Lemma Qsum_values_set (d : dict Q) (k : string) (v : Q) :
  Qsum (map snd (dict_set d k v))
  == Qsum (map snd d) - dict_get_default d k 0 + v.
Proof.
  unfold dict_get_default.
  induction d as [|[k0 v0] d IH]; cbn [dict_set dict_get map snd].
  - rewrite Qsum_cons, Qsum_nil. lra.
  - destruct (String.eqb k0 k); cbn [map snd]; rewrite !Qsum_cons.
    + lra.
    + rewrite IH. lra.
Qed.

(** The entry written as 0.0 for a new criterion is overwritten at once. *)
Lemma add_api_call_per_criterion {F : Type} `{PyFloat F} (r : CostReport F)
    (c : string) (i o : Z) (cost : F) :
  cost_per_criterion (add_api_call r c i o cost)
  = dict_set (cost_per_criterion r) c
      (fadd (dict_get_default (cost_per_criterion r) c (fromQ 0)) cost).
Proof.
  unfold add_api_call; cbn [cost_per_criterion].
  unfold dict_mem, dict_get_default.
  destruct (dict_get (cost_per_criterion r) c) eqn:E; cbn [negb].
  - rewrite E. reflexivity.
  - rewrite dict_get_set_same, dict_set_set. reflexivity.
Qed.

Lemma report_after_snoc {F : Type} `{PyFloat F} (calls : list (ApiCall F))
    (c : ApiCall F) :
  report_after (calls ++ [c])
  = add_api_call (report_after calls) (call_criterion c) (call_input_tokens c)
      (call_output_tokens c) (call_cost c).
Proof. unfold report_after. rewrite fold_left_app. reflexivity. Qed.

Lemma costs_of_snoc (k : string) (calls : list (ApiCall Q)) (c : ApiCall Q) :
  costs_of k (calls ++ [c])
  = (costs_of k calls
       ++ (if String.eqb (call_criterion c) k then [call_cost c] else []))%list.
Proof.
  unfold costs_of. rewrite filter_app, map_app. cbn [filter].
  destruct (String.eqb (call_criterion c) k); reflexivity.
Qed.


(** ** The cost tracker *)

Lemma ratio_at_least (spent b t : Q) :
  0 < b -> (t <= spent / b <-> t * b <= spent).
Proof.
  intro Hb.
  assert (Hq : spent / b * b == spent) by (field; lra).
  set (q := spent / b) in *. clearbody q.
  split; intro Hle; nra.
Qed.


(** ** The validators *)

(** X21.  [validate_self_grade] accepts exactly the grades 0..100, which
    are exactly those [ScoringInput] accepts with the multiplier derived
    from them.  A refused grade gives the one range error and no warning; an
    accepted one gives no error and at most one warning, present exactly for
    100 and for the grades below 50. *)
Theorem validate_self_grade_agrees_with_model :
  forall (evals : list (CriterionEvaluation Q)) (grade : Z),
    let r := validate_self_grade (F := Q) grade in
    (is_valid r = true <-> (0 <= grade <= 100)%Z) /\
    (is_valid r = true <->
     exists input_data,
       ScoringInput_new evals (_calculate_criticism_multiplier grade) grade
       = Ok input_data) /\
    (is_valid r = false ->
     errors r
     = [[Text ("Grade must be between 0 and 100, got " ++ string_of_Z grade)]] /\
     warnings r = []) /\
    (is_valid r = true ->
     errors r = [] /\
     (List.length (warnings r) <= 1)%nat /\
     (warnings r <> [] <-> (grade = 100 \/ grade < 50)%Z)).
Proof.
  intros evals grade r.
  assert (Hpos : float_gt "criticism_multiplier" 0
                   (_calculate_criticism_multiplier (F := Q) grade)
                 = Ok (_calculate_criticism_multiplier grade)).
  { apply float_gt_Ok. unfold _calculate_criticism_multiplier. exact_arith.
    repeat match goal with |- context [(?a >=? ?b)%Z] => destruct (a >=? b)%Z end;
      lra. }
  assert (Hmodel : (0 <= grade <= 100)%Z <->
                   exists input_data,
                     ScoringInput_new evals (_calculate_criticism_multiplier grade) grade
                     = Ok input_data).
  { unfold ScoringInput_new. rewrite Hpos. unfold int_ge_le. split.
    - intros [H0 H100].
      destruct (Z.leb_spec 0 grade); [|lia].
      destruct (Z.leb_spec grade 100); [|lia].
      cbn. eexists. reflexivity.
    - intros [input_data Hin].
      destruct (Z.leb_spec 0 grade); cbn in Hin; [|discriminate].
      destruct (Z.leb_spec grade 100); cbn in Hin; [|discriminate].
      lia. }
  rewrite <- Hmodel. subst r. unfold validate_self_grade.
  destruct (Z.leb_spec 0 grade) as [H0|H0]; cbn [andb negb].
  - destruct (Z.leb_spec grade 100) as [H100|H100]; cbn [negb].
    + destruct (Z.eqb_spec grade 100) as [E|E].
      * cbn. split; [tauto|]. split; [tauto|]. split; [discriminate|].
        intros _. split; [reflexivity|]. split; [lia|].
        split; [intros _; left; exact E | discriminate].
      * destruct (Z.ltb_spec grade 50) as [L|L]; cbn.
        -- split; [tauto|]. split; [tauto|]. split; [discriminate|].
           intros _. split; [reflexivity|]. split; [lia|].
           split; [intros _; right; exact L | discriminate].
        -- split; [tauto|]. split; [tauto|]. split; [discriminate|].
           intros _. split; [reflexivity|]. split; [lia|].
           split; [intro Hn; destruct Hn; reflexivity | lia].
    + cbn. split; [split; [discriminate | lia]|].
      split; [split; [discriminate | lia]|].
      split; [intros _; split; reflexivity | discriminate].
  - cbn. split; [split; [discriminate | lia]|].
    split; [split; [discriminate | lia]|].
    split; [intros _; split; reflexivity | discriminate].
Qed.

Lemma severity_key_is_listed (s : Severity) :
  existsb (String.eqb (severity_key s)) valid_severities = true.
Proof. destruct s; reflexivity. Qed.

(** X22.  On an evaluation that satisfies the constructor's invariants,
    the range checks and the severity check of [validate_evaluation] never
    fire: its only errors are the empty id and the empty name, in this
    order, so it is valid exactly when both are non-empty; and it gives one
    warning for each of: no evidence, neither strengths nor weaknesses, no
    suggestions. *)
Theorem validate_evaluation_on_valid (e : CriterionEvaluation Q) :
  valid_evaluation e ->
  let r := validate_evaluation e in
  errors r
  = ((if String.eqb (criterion_id e) "" then [[Text "Criterion ID is empty"]] else [])
       ++ (if String.eqb (criterion_name e) ""
           then [[Text "Criterion name is empty"]] else []))%list /\
  (is_valid r = true <-> criterion_id e <> "" /\ criterion_name e <> "") /\
  warnings r
  = ((if is_empty (evidence e)
      then [[Text ("No evidence provided for " ++ criterion_id e)]] else [])
       ++ (if is_empty (strengths e) && is_empty (weaknesses e)
           then [[Text ("No strengths or weaknesses provided for "
                          ++ criterion_id e)]] else [])
       ++ (if is_empty (suggestions e)
           then [[Text ("No suggestions provided for " ++ criterion_id e)]]
           else []))%list.
Proof.
  intros (Hw0 & Hw1 & Hs0 & Hs1) r. subst r.
  unfold validate_evaluation. exact_arith.
  rewrite (proj2 (Qleb_true 0 (score e)) Hs0), (proj2 (Qleb_true (score e) 100) Hs1),
    (proj2 (Qleb_true 0 (weight e)) Hw0), (proj2 (Qleb_true (weight e) 1) Hw1),
    severity_key_is_listed.
  cbn [andb negb].
  destruct (String.eqb_spec (criterion_id e) "") as [Ei|Ei];
    destruct (String.eqb_spec (criterion_name e) "") as [En|En];
    destruct (is_empty (evidence e));
    destruct (is_empty (strengths e) && is_empty (weaknesses e));
    destruct (is_empty (suggestions e));
    cbn; (split; [reflexivity|]); (split; [|reflexivity]);
    split; try discriminate; try tauto; intros [? ?]; contradiction.
Qed.


Lemma validate_evaluation_witness :
  valid_evaluation (evaluation (F := Q) "testing" important 0.5 70) /\
  is_valid (validate_evaluation (evaluation (F := Q) "testing" important 0.5 70))
  = true /\
  List.length
    (warnings (validate_evaluation (evaluation (F := Q) "testing" important 0.5 70)))
  = 3%nat.
Proof.
  assert (Hv : valid_evaluation (evaluation (F := Q) "testing" important 0.5 70))
    by check_valid.
  destruct (validate_evaluation_on_valid Hv) as (_ & Hvalid & Hw).
  split; [exact Hv|]. split.
  - apply Hvalid. split; cbn; discriminate.
  - rewrite Hw. reflexivity.
Defined.

(** ** Sanitised text *)

Lemma keep_chars_remove_null (text : string) :
  keep_chars is_printable (remove_char "000"%char text)
  = keep_chars is_printable text.
Proof.
  induction text as [|c text IH]; cbn [remove_char keep_chars]; [reflexivity|].
  destruct (Ascii.eqb_spec c "000"%char) as [->|Hne].
  - cbn. exact IH.
  - cbn [keep_chars]. rewrite IH. reflexivity.
Qed.

Lemma keep_chars_clean (text : string) : clean_text (keep_chars is_printable text).
Proof.
  induction text as [|c text IH]; cbn [keep_chars]; [exact I|].
  destruct (is_printable c) eqn:E; [split; assumption | exact IH].
Qed.

Lemma keep_chars_of_clean (text : string) :
  clean_text text -> keep_chars is_printable text = text.
Proof.
  induction text as [|c text IH]; cbn [keep_chars clean_text]; [reflexivity|].
  intros [Hc Ht]. rewrite Hc, (IH Ht). reflexivity.
Qed.

Lemma keep_chars_length (keep : ascii -> bool) (text : string) :
  (String.length (keep_chars keep text) <= String.length text)%nat.
Proof.
  induction text as [|c text IH]; cbn [keep_chars String.length]; [lia|].
  destruct (keep c); cbn [String.length]; lia.
Qed.

Lemma sanitize_text_keep (text : string) :
  sanitize_text text = keep_chars is_printable text.
Proof.
  unfold sanitize_text.
  destruct (String.eqb_spec text "") as [->|_]; [reflexivity|].
  apply keep_chars_remove_null.
Qed.


(** ** Completeness of the evaluations *)

Lemma insert_sorted_In (x c : string) (l : list string) :
  In c (insert_sorted x l) <-> c = x \/ In c l.
Proof.
  induction l as [|y l IH]; cbn [insert_sorted].
  - cbn. intuition congruence.
  - destruct (String.eqb_spec x y) as [->|Hne].
    + cbn. intuition congruence.
    + destruct (String.leb x y); cbn [In].
      * intuition congruence.
      * rewrite IH. intuition congruence.
Qed.

Lemma sorted_set_In (c : string) (l : list string) : In c (sorted_set l) <-> In c l.
Proof.
  unfold sorted_set. induction l as [|x l IH]; cbn [fold_right].
  - reflexivity.
  - rewrite insert_sorted_In, IH. cbn. intuition congruence.
Qed.

Lemma is_empty_true {A : Type} (l : list A) :
  is_empty l = true <-> forall x, ~ In x l.
Proof.
  destruct l as [|a l]; cbn.
  - split; [intros _ x [] | reflexivity].
  - split; [discriminate | intro Hn; destruct (Hn a); left; reflexivity].
Qed.

Lemma is_empty_sorted_filter (f : string -> bool) (l : list string) :
  is_empty (sorted_set (filter f l)) = true <-> forall x, In x l -> f x = false.
Proof.
  rewrite is_empty_true. split.
  - intros Hn x Hx. destruct (f x) eqn:E; [|reflexivity].
    destruct (Hn x). apply sorted_set_In, filter_In. split; assumption.
  - intros Hf x Hx. apply sorted_set_In, filter_In in Hx.
    destruct Hx as [Hx E]. rewrite (Hf x Hx) in E. discriminate.
Qed.

Lemma string_in_In (l : list string) (x : string) : string_in l x = true <-> In x l.
Proof.
  unfold string_in. rewrite existsb_exists. split.
  - intros (y & Hy & E). apply String.eqb_eq in E. subst y. exact Hy.
  - intro Hx. exists x. split; [exact Hx | apply String.eqb_refl].
Qed.

Lemma no_duplicates_NoDup (l : list string) :
  (forall x, In x l -> (1 <? count_occ string_dec l x)%nat = false) <-> NoDup l.
Proof.
  rewrite (NoDup_count_occ string_dec). split.
  - intros Hc x. destruct (in_dec string_dec x l) as [Hin|Hout].
    + specialize (Hc x Hin). apply Nat.ltb_ge in Hc. exact Hc.
    + apply (count_occ_not_In string_dec) in Hout. rewrite Hout. lia.
  - intros Hc x _. apply Nat.ltb_ge. exact (Hc x).
Qed.

(** X25.  [validate_evaluations_complete] is valid exactly when every
    expected criterion has an evaluation and no criterion id occurs twice;
    an evaluation of an unexpected criterion only gives the one warning.
    The missing criteria it reports are the expected ones without an
    evaluation. *)
Theorem evaluations_complete_check :
  forall (F : Type) (evals : list (CriterionEvaluation F)) (expected : list string),
    let r := validate_evaluations_complete evals expected in
    let ids := map (fun e => criterion_id e) evals in
    (is_valid r = true <-> (forall c, In c expected -> In c ids) /\ NoDup ids) /\
    (warnings r = [] <-> forall c, In c ids -> In c expected) /\
    (List.length (errors r) <= 2)%nat /\
    (List.length (warnings r) <= 1)%nat /\
    (forall l, In [Text "Missing evaluations for criteria: "; ReprList l] (errors r) ->
               l <> [] /\ forall c, In c l <-> In c expected /\ ~ In c ids).
Proof.
  intros F evals expected r ids. subst r.
  unfold validate_evaluations_complete. fold ids.
  pose proof (is_empty_sorted_filter (fun c => negb (string_in ids c)) expected) as Hm.
  pose proof (is_empty_sorted_filter (fun c => negb (string_in expected c)) ids) as Hu.
  pose proof (is_empty_sorted_filter
                (fun cid => (1 <? count_occ string_dec ids cid)%nat) ids) as Hd.
  rewrite no_duplicates_NoDup in Hd.
  assert (Hm' : is_empty (sorted_set (filter (fun c => negb (string_in ids c)) expected))
                = true <-> forall c, In c expected -> In c ids).
  { rewrite Hm. split; intros Hx c Hc; specialize (Hx c Hc).
    - apply negb_false_iff, string_in_In in Hx. exact Hx.
    - apply negb_false_iff, string_in_In. exact Hx. }
  assert (Hu' : is_empty (sorted_set (filter (fun c => negb (string_in expected c)) ids))
                = true <-> forall c, In c ids -> In c expected).
  { rewrite Hu. split; intros Hx c Hc; specialize (Hx c Hc).
    - apply negb_false_iff, string_in_In in Hx. exact Hx.
    - apply negb_false_iff, string_in_In. exact Hx. }
  clear Hm Hu.
  assert (Hin : forall c,
    In c (sorted_set (filter (fun c => negb (string_in ids c)) expected))
    <-> In c expected /\ ~ In c ids).
  { intro c. rewrite sorted_set_In, filter_In, negb_true_iff.
    rewrite <- (string_in_In ids c). destruct (string_in ids c); intuition congruence. }
  set (missing := sorted_set (filter (fun c => negb (string_in ids c)) expected)) in *.
  set (unexpected := sorted_set (filter (fun c => negb (string_in expected c)) ids)) in *.
  set (duplicates :=
         sorted_set (filter (fun cid => (1 <? count_occ string_dec ids cid)%nat) ids)) in *.
  match goal with
  | |- (is_valid ?r = true <-> _) /\ _ =>
    assert (Hr :
      r = {| is_valid := is_empty missing && is_empty duplicates;
             errors :=
               ((if is_empty missing then []
                 else [[Text "Missing evaluations for criteria: ";
                        ReprList missing]])
                  ++ (if is_empty duplicates then []
                      else [[Text "Duplicate evaluations for criteria: ";
                             ReprList duplicates]]))%list;
             warnings :=
               if is_empty unexpected then []
               else [[Text "Unexpected evaluations for criteria: ";
                      ReprList unexpected]] |})
      by (cbv zeta;
          destruct (is_empty missing), (is_empty unexpected), (is_empty duplicates);
          reflexivity);
    rewrite Hr; clear Hr
  end.
  cbn [is_valid errors warnings].
  split; [|split; [|split; [|split]]].
  - rewrite andb_true_iff, Hm', Hd. reflexivity.
  - rewrite <- Hu'. destruct (is_empty unexpected); split; congruence.
  - destruct (is_empty missing), (is_empty duplicates); cbn; lia.
  - destruct (is_empty unexpected); cbn; lia.
  - intros l Hl. apply in_app_or in Hl.
    destruct Hl as [Hl|Hl].
    + destruct (is_empty missing) eqn:Em; [destruct Hl|].
      destruct Hl as [[= <-]|[]].
      split; [intro E; rewrite E in Em; discriminate | exact Hin].
    + destruct (is_empty duplicates); [destruct Hl|].
      destruct Hl as [Hl|[]]. discriminate Hl.
Qed.

(** ** The comparison message *)

Lemma append_assoc_string (a b c : string) : ((a ++ b) ++ c = a ++ (b ++ c))%string.
Proof. induction a as [|x a IH]; cbn; [reflexivity | rewrite IH; reflexivity]. Qed.

Lemma append_empty_r (a : string) : (a ++ "" = a)%string.
Proof. induction a as [|x a IH]; cbn; [reflexivity | rewrite IH; reflexivity]. Qed.

Lemma message_template_note (accuracy direction interpretation note : string) :
  message_template accuracy direction interpretation note
  = (message_template accuracy direction interpretation "" ++ note)%string.
Proof.
  unfold message_template.
  rewrite append_empty_r, !append_assoc_string. reflexivity.
Qed.

(** The multiplier only reaches the closing note of the message. *)
Lemma comparison_message_template {F : Type} `{PyFloat F} (final : F) (sg : Z) :
  exists accuracy direction interpretation,
    forall m,
      _generate_comparison_message final sg m
      = message_template accuracy direction interpretation (multiplier_note m).
Proof.
  unfold _generate_comparison_message, message_template, multiplier_note.
  destruct (fltb (fromQ 5) (fsub final (fromQ (inject_Z sg))));
    [|destruct (fltb (fsub final (fromQ (inject_Z sg))) (fromQ (-5)))];
    do 3 eexists; intro m; reflexivity.
Qed.

Lemma multiplier_note_exact (sg : Z) :
  multiplier_note (F := Q) (_calculate_criticism_multiplier sg)
  = spec_multiplier_note sg /\
  multiplier_note (F := Q) (fromQ 1) = "".
Proof.
  split; [|reflexivity].
  unfold _calculate_criticism_multiplier, spec_multiplier_note.
  rewrite !Z.geb_leb.
  destruct (90 <=? sg)%Z; [reflexivity|].
  destruct (80 <=? sg)%Z; [reflexivity|].
  destruct (70 <=? sg)%Z; [reflexivity|].
  destruct (60 <=? sg)%Z; reflexivity.
Qed.

Lemma multiplier_note_binary64 (sg : Z) :
  multiplier_note (F := float) (_calculate_criticism_multiplier sg)
  = spec_multiplier_note sg /\
  multiplier_note (F := float) (fromQ 1) = "".
Proof.
  split; [|vm_compute; reflexivity].
  unfold _calculate_criticism_multiplier, spec_multiplier_note.
  rewrite !Z.geb_leb.
  destruct (90 <=? sg)%Z; [vm_compute; reflexivity|].
  destruct (80 <=? sg)%Z; [vm_compute; reflexivity|].
  destruct (70 <=? sg)%Z; [vm_compute; reflexivity|].
  destruct (60 <=? sg)%Z; vm_compute; reflexivity.
Qed.

(** X26.  With the multiplier the orchestrator derives from the self-grade,
    the comparison message is the message of a neutral multiplier followed
    by a note that depends on the band of the self-grade only: very strict
    from 90, strict from 80, none from 70, encouraging from 60, supportive
    below; in exact and in binary64 arithmetic. *)
Theorem comparison_note_follows_self_grade :
  (forall (final : Q) (sg : Z),
      _generate_comparison_message final sg (_calculate_criticism_multiplier sg)
      = (_generate_comparison_message final sg (fromQ 1)
           ++ spec_multiplier_note sg)%string) /\
  (forall (final : float) (sg : Z),
      _generate_comparison_message final sg (_calculate_criticism_multiplier sg)
      = (_generate_comparison_message final sg (fromQ 1)
           ++ spec_multiplier_note sg)%string).
Proof.
  split; intros final sg;
    destruct (comparison_message_template final sg) as (a & d & i & Hm);
    rewrite !Hm.
  - destruct (multiplier_note_exact sg) as [-> ->]. apply message_template_note.
  - destruct (multiplier_note_binary64 sg) as [-> ->]. apply message_template_note.
Qed.

(** Decides the comparisons of the goal one by one, dropping the cases the
    hypotheses exclude. *)
Ltac split_Qltb :=
  repeat match goal with
         | |- context [Qltb ?a ?b] =>
             let E := fresh "E" in
             destruct (Qltb a b) eqn:E;
             [apply Qltb_true in E | apply Qltb_false in E]; try lra
         end.

(** X27.  The two parts of the comparison message go together as follows,
    by the difference between the final score and the self-grade: under 2
    points "very accurate" and under 5 "quite accurate", both "very close";
    at exactly 5 points "reasonably accurate" and still "very close"; beyond
    5 and under 10 "reasonably accurate", from 10 "somewhat inaccurate",
    both with the direction and the size of the difference. *)
Theorem comparison_message_bands :
  forall (final : Q) (sg : Z) (m : Q),
    let d := final - inject_Z sg in
    let message := _generate_comparison_message final sg m in
    let higher :=
      ("higher than your self-assessment by " ++ py_format d 1 ++ " points")%string in
    let lower :=
      ("lower than your self-assessment by " ++ py_format (Qabs d) 1
         ++ " points")%string in
    let note := multiplier_note m in
    (Qabs d < 2 ->
     message = message_template "very accurate" close_direction
                 close_interpretation note) /\
    (2 <= Qabs d -> Qabs d < 5 ->
     message = message_template "quite accurate" close_direction
                 close_interpretation note) /\
    (Qabs d == 5 ->
     message = message_template "reasonably accurate" close_direction
                 close_interpretation note) /\
    (5 < d -> d < 10 ->
     message = message_template "reasonably accurate" higher
                 modest_interpretation note) /\
    (10 <= d ->
     message = message_template "somewhat inaccurate" higher
                 modest_interpretation note) /\
    (-10 < d -> d < -5 ->
     message = message_template "reasonably accurate" lower
                 overestimated_interpretation note) /\
    (d <= -10 ->
     message = message_template "somewhat inaccurate" lower
                 overestimated_interpretation note).
Proof.
  intros final sg m d message higher lower note.
  subst message higher lower note.
  unfold _generate_comparison_message, message_template, multiplier_note,
    close_direction, close_interpretation, modest_interpretation,
    overestimated_interpretation.
  exact_arith. fold d.
  generalize (py_format d 1) (py_format (Qabs d) 1). intros f1 f2.
  assert (Habs : (0 <= d -> Qabs d == d) /\ (d <= 0 -> Qabs d == - d)).
  { split; intro Hd; [apply Qabs_pos | apply Qabs_neg]; exact Hd. }
  destruct Habs as [Hp Hn].
  destruct (Qlt_le_dec d 0) as [Hneg|Hpos];
    [assert (Ea : Qabs d == - d) by (apply Hn; lra)
    |assert (Ea : Qabs d == d) by (apply Hp; lra)];
    split_Qltb; repeat split; intros; try reflexivity; lra.
Qed.

(** ** The weight check and the engine *)

Lemma weights_check_valid (evals : list (CriterionEvaluation Q)) (tol : Q) :
  is_valid (validate_weights_sum_to_one evals tol) = true
  <-> 1 - tol <= Qsum (map (fun e => weight e) evals)
      /\ Qsum (map (fun e => weight e) evals) <= 1 + tol.
Proof.
  unfold validate_weights_sum_to_one. exact_arith.
  pose proof (py_sum_exact (map (fun e => weight e) evals)) as Hsum.
  destruct (Qltb tol (Qabs (py_sum (map (fun e => weight e) evals) - 1))) eqn:E; cbn.
  - apply Qltb_true in E. rewrite Hsum in E.
    split; [discriminate|]. intros [Hlo Hhi].
    assert (Qabs (Qsum (map (fun e => weight e) evals) - 1) <= tol)
      by (apply Qabs_Qle_condition; split; lra).
    lra.
  - apply Qltb_false in E. rewrite Hsum in E.
    apply Qabs_Qle_condition in E. split; [|reflexivity]. intros _. split; lra.
Qed.

Lemma members_all (c : string) (evals : list (CriterionEvaluation Q)) :
  (forall e, In e evals -> category_of e = c) -> members c evals = evals.
Proof.
  unfold members. induction evals as [|e evals IH]; intro Hc; cbn [filter].
  - reflexivity.
  - rewrite (Hc e (or_introl eq_refl)), String.eqb_refl, IH; [reflexivity|].
    intros e' He'. apply Hc. right. exact He'.
Qed.

(** A category that outweighs 1 makes the run fail. *)
Lemma heavy_category_fails (factors : dict Q) (input_data : ScoringInput Q)
    (w : World Q) (c : string) :
  1 < category_weight c (in_evaluations input_data) ->
  success (execute_value factors input_data w) = false.
Proof.
  intro Hc. unfold execute_value.
  destruct (_create_category_breakdown (in_evaluations input_data)) as [bd|e] eqn:Eb;
    [|reflexivity].
  exfalso.
  pose proof (@breakdown_lookup _ _ _ _ c Eb) as Hl.
  unfold category_weight in Hc.
  destruct (members c (in_evaluations input_data)) as [|e0 es0] eqn:Em.
  - cbn [map] in Hc. rewrite Qsum_nil in Hc. lra.
  - destruct Hl as (cb & _ & Hentry).
    pose proof (@category_entry_Ok_weight c _ cb Hentry). lra.
Qed.


